(** * OnlyStudies: forum slugs, counters and the JSON feeds

    A shallow embedding of [app_onlystudies/models.py], [views.py] and
    [admin.py].  Database tables are lists of rows in insertion order, a
    model instance is a record whose [pk] is [None] until its first save,
    and a request handler is a function from the store to a response and
    the next store.  Python [str] values are [string]s, one [ascii] per
    character, read as the code points 0..255; Python [int]s are [Z] or
    [nat] without wrap-around, and the range of an integer column is
    that of the database backend. *)

From Stdlib Require Import String Ascii List ZArith Bool Arith Lia.
From Stdlib Require Import Sorted Permutation DecimalString DecimalNat.
Import ListNotations.
Open Scope string_scope.
Open Scope nat_scope.

(** ** Python built-ins used by the application *)

Module Py.

(** [str.isspace] on the characters 0..255: TAB..CR, FS..US, SPACE,
    NEXT LINE (133) and NO-BREAK SPACE (160). *)
Definition isspace (c : ascii) : bool :=
  let n := nat_of_ascii c in
  ((9 <=? n) && (n <=? 13)) || ((28 <=? n) && (n <=? 32))
  || (n =? 133) || (n =? 160).

(** The classes [A-Z], [a-z] and [0-9], which the application meets on
    ASCII text only: in [slugify] after its transcoding to ASCII, and in
    the [slug] path converter. *)
Definition isupper (c : ascii) : bool :=
  let n := nat_of_ascii c in (65 <=? n) && (n <=? 90).

Definition islower (c : ascii) : bool :=
  let n := nat_of_ascii c in (97 <=? n) && (n <=? 122).

Definition isdigit (c : ascii) : bool :=
  let n := nat_of_ascii c in (48 <=? n) && (n <=? 57).

(** [str.lower] on one character of ASCII text. *)
Definition lower_char (c : ascii) : ascii :=
  if isupper c then ascii_of_nat (nat_of_ascii c + 32) else c.

(** [s.lstrip(chars)], [s.rstrip(chars)] and [s.strip(chars)] on
    character lists, the stripped set given as a predicate. *)
Fixpoint lstrip (p : ascii -> bool) (l : list ascii) : list ascii :=
  match l with
  | c :: r => if p c then lstrip p r else l
  | [] => []
  end.

Definition rstrip (p : ascii -> bool) (l : list ascii) : list ascii :=
  rev (lstrip p (rev l)).

Definition strip (p : ascii -> bool) (l : list ascii) : list ascii :=
  rstrip p (lstrip p l).

(** [str(n)] for a non-negative [int]. *)
Definition str (n : nat) : string :=
  NilEmpty.string_of_uint (Nat.to_uint n).

(** [s[:n]]. *)
Definition slice_to (n : nat) (s : string) : string := substring 0 n s.

(** Truthiness of a [str]: [bool(s)]. *)
Definition truthy (s : string) : bool := negb (String.eqb s "").

End Py.

(** ** [django.utils.text.slugify]

    The library function called by [ForumQuestion.save], with
    [allow_unicode=False].  Its body is
    [re.sub(r"[-\s]+", "-", re.sub(r"[^\w\s-]", "", value.lower())).strip("-_")]
    applied after [NFKD] normalisation and [encode("ascii", "ignore")].
    A character of a [string] is one code point 0..255: the normalisation
    is the identity below 128, and above it [nfkd_ascii] lists what the
    decomposition of each character leaves in ASCII. *)

Module text.

Definition is_ascii (c : ascii) : bool := nat_of_ascii c <? 128.

(** The class [\w] on ASCII. *)
Definition is_word (c : ascii) : bool :=
  Py.islower c || Py.isupper c || Py.isdigit c || (c =? "_")%char.

Definition is_hyphen (c : ascii) : bool := (c =? "-")%char.

(** [[^\w\s-]] is removed, so [[\w\s-]] is kept. *)
Definition kept (c : ascii) : bool :=
  is_word c || Py.isspace c || is_hyphen c.

Definition is_sep (c : ascii) : bool := Py.isspace c || is_hyphen c.

(** [re.sub(r"[-\s]+", "-", _)]: [in_run] holds inside a run that has
    already produced its hyphen. *)
Fixpoint collapse (in_run : bool) (l : list ascii) : list ascii :=
  match l with
  | [] => []
  | c :: r =>
      if is_sep c
      then (if in_run then collapse true r else "-"%char :: collapse true r)
      else c :: collapse false r
  end.

Definition strip_set (c : ascii) : bool :=
  (c =? "-")%char || (c =? "_")%char.

(** [unicodedata.normalize("NFKD", c).encode("ascii", "ignore")] for one
    character: an accented letter keeps its base letter, NO-BREAK SPACE
    and the spacing accents become a space, superscripts and fractions
    their digits; the other characters above 127 leave nothing. *)
Definition nfkd_ascii (c : ascii) : list ascii :=
  if is_ascii c then [c] else
  match N_of_ascii c with
  | 160 | 168 | 175 | 180 | 184 => [" "%char]
  | 170 | 224 | 225 | 226 | 227 | 228 | 229 => ["a"%char]
  | 178 => ["2"%char]
  | 179 => ["3"%char]
  | 185 => ["1"%char]
  | 186 | 242 | 243 | 244 | 245 | 246 => ["o"%char]
  | 188 => ["1"%char; "4"%char]
  | 189 => ["1"%char; "2"%char]
  | 190 => ["3"%char; "4"%char]
  | 192 | 193 | 194 | 195 | 196 | 197 => ["A"%char]
  | 199 => ["C"%char]
  | 200 | 201 | 202 | 203 => ["E"%char]
  | 204 | 205 | 206 | 207 => ["I"%char]
  | 209 => ["N"%char]
  | 210 | 211 | 212 | 213 | 214 => ["O"%char]
  | 217 | 218 | 219 | 220 => ["U"%char]
  | 221 => ["Y"%char]
  | 231 => ["c"%char]
  | 232 | 233 | 234 | 235 => ["e"%char]
  | 236 | 237 | 238 | 239 => ["i"%char]
  | 241 => ["n"%char]
  | 249 | 250 | 251 | 252 => ["u"%char]
  | 253 | 255 => ["y"%char]
  | _ => []
  end%N.

Definition slugify (value : string) : string :=
  let ascii_only := flat_map nfkd_ascii (list_ascii_of_string value) in
  let lowered := map Py.lower_char ascii_only in
  let cleaned := filter kept lowered in
  string_of_list_ascii (Py.strip strip_set (collapse false cleaned)).

End text.

(** ** Query sets

    [Meta.ordering = ['-created_at']] followed by a slice [[:n]] is
    [ORDER BY created_at DESC LIMIT n].  The order among rows with equal
    keys is left open by SQL; the model keeps them in table order. *)

Section QuerySet.

Variable A : Type.
Variable key : A -> Z.

Fixpoint insert_desc (x : A) (l : list A) : list A :=
  match l with
  | [] => [x]
  | y :: r => if (key y <=? key x)%Z then x :: l else y :: insert_desc x r
  end.

Definition order_by_desc (l : list A) : list A :=
  fold_right insert_desc [] l.

(** [qs[:n]] *)
Definition limit (n : nat) (l : list A) : list A := firstn n l.

(** Newest first: every element is at least as new as all later ones. *)
Definition newest_first (l : list A) : Prop :=
  StronglySorted (fun a b => (key b <= key a)%Z) l.

(** [result] is the [n] newest of [matching], newest first: it opens
    an arrangement of [matching] by decreasing key, and is cut short
    only when [matching] runs out. *)
Definition newest_n (n : nat) (matching result : list A) : Prop :=
  exists rest,
    Permutation (result ++ rest) matching
    /\ newest_first (result ++ rest)
    /\ length result = Nat.min n (length matching).

End QuerySet.

Arguments insert_desc {A} key x l.
Arguments order_by_desc {A} key l.
Arguments limit {A} n l.
Arguments newest_first {A} key l.
Arguments newest_n {A} key n matching result.

(** ** Outcome of a write to the database *)

Inductive outcome (A : Type) : Type :=
| Ok (a : A)
| IntegrityError      (* a unique constraint rejected the write *)
| DatabaseError       (* save with update_fields affected no row *)
| ValueError          (* update_fields on an instance without primary key *)
| OutOfRange          (* an integer does not fit its column *)
| Diverged.           (* the probing loop did not finish within its fuel *)

Arguments Ok {A} a.
Arguments IntegrityError {A}.
Arguments DatabaseError {A}.
Arguments ValueError {A}.
Arguments OutOfRange {A}.
Arguments Diverged {A}.

(** ** The database backend

    [models.IntegerField] is a signed integer column whose width depends
    on the backend the project settings choose: [integer_max] is its
    largest value, [- integer_max - 1] its smallest.  A write outside
    this range raises ([DataError], or [OverflowError] in the SQLite
    driver) and stores nothing. *)

Class Backend : Type := { integer_max : Z }.

Definition in_range `{Backend} (v : Z) : bool :=
  ((- integer_max - 1 <=? v) && (v <=? integer_max))%Z.

(** The backend of a new project: SQLite, with 64-bit integers. *)
#[export] Instance sqlite3 : Backend :=
  {| integer_max := 9223372036854775807 |}.

(** ** models.py *)

Module User.

(** [django.contrib.auth.models.User], the fields the application reads.
    [is_staff] marks a user of the admin site; the permissions of a
    staff user are not kept apart: a staff user is one who may add,
    change and delete questions there, as a superuser may. *)
Record t : Type := mk {
  pk : nat;
  username : string;
  first_name : string;
  last_name : string;
  is_staff : bool
}.

(** [AbstractUser.get_full_name]: ["%s %s" % (first, last)] stripped. *)
Definition get_full_name (u : t) : string :=
  string_of_list_ascii
    (Py.strip Py.isspace
       (list_ascii_of_string (first_name u ++ " " ++ last_name u))).

Definition same (u v : t) : bool := pk u =? pk v.

End User.

(** [request.user]: [AnonymousUser] or a logged-in [User]. *)
Inductive request_user : Type :=
| AnonymousUser
| LoggedIn (u : User.t).

Definition is_authenticated (ru : request_user) : bool :=
  match ru with AnonymousUser => false | LoggedIn _ => true end.

Module Category.

Record t : Type := mk {
  pk : nat;
  name : string;
  slug : string
}.

End Category.

(** A nullable foreign key to [Category], compared by primary key; the
    ORM turns [category=None] into [category IS NULL]. *)
Definition same_category (a b : option Category.t) : bool :=
  match a, b with
  | None, None => true
  | Some x, Some y => Category.pk x =? Category.pk y
  | _, _ => false
  end.

Module BlogPost.

Record t : Type := mk {
  pk : nat;
  title : string;
  content : string;
  author : User.t;
  category : option Category.t;
  (** the stored file name of the [ImageField]; [NULL] or blank when
      there is no image *)
  featured_image : option string;
  slug : string;
  is_published : bool;
  created_at : Z
}.

(** Truthiness of the [FieldFile]: [bool(self.name)]. *)
Definition has_featured_image (p : t) : bool :=
  match featured_image p with
  | Some name => Py.truthy name
  | None => false
  end.

(** [BlogPost.objects.filter(is_published=True)] with [Meta.ordering]. *)
Definition published (posts : list t) : list t :=
  order_by_desc created_at (filter is_published posts).

End BlogPost.

Module Notification.

Record t : Type := mk {
  pk : nat;
  user : User.t;
  title : string;
  message : string;
  notification_type : string;
  is_read : bool;
  related_url : option string;
  created_at : Z
}.

(** [Notification.objects.filter(user=u, is_read=False)] with
    [Meta.ordering]. *)
Definition unread_of (u : User.t) (rows : list t) : list t :=
  order_by_desc created_at
    (filter (fun n => User.same (user n) u && negb (is_read n)) rows).

End Notification.

Module ForumQuestion.

Record t : Type := mk {
  pk : option nat;              (* [None] until the first save *)
  title : string;
  content : string;
  author : User.t;
  category : option Category.t;
  slug : string;
  is_answered : bool;
  views : Z;
  created_at : Z;
  updated_at : Z
}.

(** The columns other than the primary key. *)
Inductive field : Type :=
| f_title | f_content | f_author | f_category | f_slug
| f_is_answered | f_views | f_created_at | f_updated_at.

Definition field_eqb (a b : field) : bool :=
  match a, b with
  | f_title, f_title | f_content, f_content | f_author, f_author
  | f_category, f_category | f_slug, f_slug
  | f_is_answered, f_is_answered | f_views, f_views
  | f_created_at, f_created_at | f_updated_at, f_updated_at => true
  | _, _ => false
  end.

Definition all_fields : list field :=
  [f_title; f_content; f_author; f_category; f_slug;
   f_is_answered; f_views; f_created_at; f_updated_at].

Definition mem (f : field) (fs : list field) : bool :=
  existsb (field_eqb f) fs.

Definition set_pk (k : option nat) (q : t) : t :=
  mk k (title q) (content q) (author q) (category q) (slug q)
     (is_answered q) (views q) (created_at q) (updated_at q).

Definition set_slug (s : string) (q : t) : t :=
  mk (pk q) (title q) (content q) (author q) (category q) s
     (is_answered q) (views q) (created_at q) (updated_at q).

Definition set_is_answered (b : bool) (q : t) : t :=
  mk (pk q) (title q) (content q) (author q) (category q) (slug q)
     b (views q) (created_at q) (updated_at q).

Definition set_views (v : Z) (q : t) : t :=
  mk (pk q) (title q) (content q) (author q) (category q) (slug q)
     (is_answered q) v (created_at q) (updated_at q).

Definition set_created_at (n : Z) (q : t) : t :=
  mk (pk q) (title q) (content q) (author q) (category q) (slug q)
     (is_answered q) (views q) n (updated_at q).

Definition set_updated_at (n : Z) (q : t) : t :=
  mk (pk q) (title q) (content q) (author q) (category q) (slug q)
     (is_answered q) (views q) (created_at q) n.

(** Column [f] of [dst] overwritten with that of [src]. *)
Definition write_field (src : t) (f : field) (dst : t) : t :=
  match f with
  | f_title =>
      mk (pk dst) (title src) (content dst) (author dst) (category dst)
         (slug dst) (is_answered dst) (views dst) (created_at dst)
         (updated_at dst)
  | f_content =>
      mk (pk dst) (title dst) (content src) (author dst) (category dst)
         (slug dst) (is_answered dst) (views dst) (created_at dst)
         (updated_at dst)
  | f_author =>
      mk (pk dst) (title dst) (content dst) (author src) (category dst)
         (slug dst) (is_answered dst) (views dst) (created_at dst)
         (updated_at dst)
  | f_category =>
      mk (pk dst) (title dst) (content dst) (author dst) (category src)
         (slug dst) (is_answered dst) (views dst) (created_at dst)
         (updated_at dst)
  | f_slug => set_slug (slug src) dst
  | f_is_answered => set_is_answered (is_answered src) dst
  | f_views => set_views (views src) dst
  | f_created_at => set_created_at (created_at src) dst
  | f_updated_at => set_updated_at (updated_at src) dst
  end.

Definition write_fields (src : t) (fs : list field) (dst : t) : t :=
  fold_right (write_field src) dst fs.

(** The table: its rows in insertion order and the next value of the
    auto-increment primary key. *)
Record table : Type := mk_table {
  rows : list t;
  next_pk : nat
}.

Definition has_pk (k : nat) (q : t) : bool :=
  match pk q with Some j => j =? k | None => false end.

(** [ForumQuestion.objects.filter(slug=slug).exists()] *)
Definition slug_exists (tb : table) (s : string) : bool :=
  existsb (fun r => String.eqb (slug r) s) (rows tb).

(** The unique constraint on [slug], seen from the row with key [k]. *)
Definition slug_taken_by_other (tb : table) (k : nat) (s : string) : bool :=
  existsb (fun r => negb (has_pk k r) && String.eqb (slug r) s) (rows tb).

(** [models.Model.save]: INSERT when the instance has no primary key (or
    no row carries it), UPDATE of all columns or of [update_fields]
    otherwise; [update_fields] needs a primary key and a row to update.
    [created_at] is [auto_now_add], [updated_at] is [auto_now]; [now] is
    the clock reading.  An UPDATE that writes [views] fails when the count
    does not fit the column, before any row changes.  (An INSERT writes
    the count the instance carries, 0 in every insertion the application
    makes; its range is not modelled.) *)
Definition Model_save `{Backend} (update_fields : option (list field))
    (now : Z) (self : t) (tb : table) : outcome (t * table) :=
  let insert (k : nat) :=
    let obj := set_pk (Some k) (set_updated_at now (set_created_at now self)) in
    if slug_exists tb (slug obj) then IntegrityError
    else Ok (obj, mk_table (rows tb ++ [obj]) (Nat.max (next_pk tb) (S k))) in
  match pk self with
  | None =>
      match update_fields with
      | Some _ => ValueError
      | None => insert (next_pk tb)
      end
  | Some k =>
      let fs := match update_fields with Some l => l | None => all_fields end in
      let obj := if mem f_updated_at fs then set_updated_at now self else self in
      if existsb (has_pk k) (rows tb) then
        if mem f_views fs && negb (in_range (views obj)) then OutOfRange
        else if mem f_slug fs && slug_taken_by_other tb k (slug obj)
        then IntegrityError
        else Ok (obj,
                 mk_table
                   (map (fun r => if has_pk k r then write_fields obj fs r else r)
                        (rows tb))
                   (next_pk tb))
      else
        match update_fields with
        | Some _ => DatabaseError
        | None => insert k
        end
  end.

(** The body of the [while] loop of [save], one [fuel] per test of its
    condition:
    [while ForumQuestion.objects.filter(slug=slug).exists():
         slug = f"{base_slug}-{counter}"; counter += 1] *)
Fixpoint probe (exists_ : string -> bool) (base_slug : string)
    (fuel : nat) (slug : string) (counter : nat) : option string :=
  match fuel with
  | 0 => None
  | S fuel' =>
      if exists_ slug
      then probe exists_ base_slug fuel'
             (base_slug ++ "-" ++ Py.str counter) (S counter)
      else Some slug
  end.

Definition probe_fuel (tb : table) : nat := S (S (length (rows tb))).

(** [ForumQuestion.save] *)
Definition save `{Backend} (update_fields : option (list field)) (now : Z)
    (self : t) (tb : table) : outcome (t * table) :=
  if negb (Py.truthy (slug self)) then
    let base_slug := text.slugify (title self) in
    match probe (slug_exists tb) base_slug (probe_fuel tb) base_slug 1 with
    | Some s => Model_save update_fields now (set_slug s self) tb
    | None => Diverged
    end
  else Model_save update_fields now self tb.

(** [ForumQuestion.objects.get(...)] restricted to what the views use:
    the rows matching a predicate, expected to be exactly one. *)
Inductive lookup : Type :=
| Found (q : t)
| DoesNotExist
| MultipleObjectsReturned.

Definition get (p : t -> bool) (tb : table) : lookup :=
  match filter p (rows tb) with
  | [] => DoesNotExist
  | [q] => Found q
  | _ => MultipleObjectsReturned
  end.

Definition by_slug (s : string) (q : t) : bool := String.eqb (slug q) s.

(** A new, unsaved instance with the model's defaults. *)
Definition new (title content : string) (author : User.t)
    (category : option Category.t) : t :=
  mk None title content author category "" false 0%Z 0%Z 0%Z.

End ForumQuestion.

Module ForumAnswer.

Record t : Type := mk {
  pk : nat;
  question : nat;               (* primary key of the [ForumQuestion] *)
  content : string;
  author : User.t;
  is_accepted : bool;
  created_at : Z;
  updated_at : Z
}.

Record table : Type := mk_table {
  rows : list t;
  next_pk : nat
}.

(** [answer.save()] of a new answer: an INSERT, no constraint to fail. *)
Definition create (question : nat) (content : string) (author : User.t)
    (now : Z) (tb : table) : table :=
  mk_table
    (rows tb ++ [mk (next_pk tb) question content author false now now])
    (S (next_pk tb)).

End ForumAnswer.

(** ** The store: one table per model *)

Record Store : Type := mk_store {
  categories : list Category.t;
  blog_posts : list BlogPost.t;
  notifications : list Notification.t;
  questions : ForumQuestion.table;
  answers : ForumAnswer.table
}.

Definition set_questions (tb : ForumQuestion.table) (db : Store) : Store :=
  mk_store (categories db) (blog_posts db) (notifications db) tb (answers db).

Definition set_answers (tb : ForumAnswer.table) (db : Store) : Store :=
  mk_store (categories db) (blog_posts db) (notifications db) (questions db) tb.

(** ** forms.py *)

Module forms.

(** [forms.CharField] strips surrounding whitespace before validating:
    [value.strip()]. *)
Definition strip (s : string) : string :=
  string_of_list_ascii (Py.strip Py.isspace (list_ascii_of_string s)).

(** [ProhibitNullCharactersValidator], run by every [forms.CharField]. *)
Definition no_null (s : string) : bool :=
  negb (existsb (fun c => (c =? "000")%char) (list_ascii_of_string s)).

(** [ForumQuestionForm]: fields [title], [content], [category]. *)
Module ForumQuestionForm.

Record data : Type := mk {
  title : string;
  content : string;
  category : option nat       (* the chosen category key, if any *)
}.

Definition clean_title (d : data) : option string :=
  let title := strip (title d) in
  if Py.truthy title && (String.length title <=? 200) && no_null title
     && negb (String.length title <? 10)
  then Some title else None.

Definition clean_content (d : data) : option string :=
  let content := strip (content d) in
  if Py.truthy content && no_null content
     && negb (String.length content <? 20)
  then Some content else None.

(** [ModelChoiceField]: blank is allowed, a key must name a row. *)
Definition clean_category (cats : list Category.t) (d : data)
  : option (option Category.t) :=
  match category d with
  | None => Some None
  | Some k =>
      match find (fun c => Category.pk c =? k) cats with
      | Some c => Some (Some c)
      | None => None
      end
  end.

(** [is_valid()] and the cleaned data when it holds. *)
Definition cleaned (cats : list Category.t) (d : data)
  : option (string * string * option Category.t) :=
  match clean_title d, clean_content d, clean_category cats d with
  | Some t, Some c, Some k => Some (t, c, k)
  | _, _, _ => None
  end.

End ForumQuestionForm.

(** [ForumAnswerForm]: the single field [content]. *)
Module ForumAnswerForm.

Definition clean_content (content : string) : option string :=
  let content := strip content in
  if Py.truthy content && no_null content
     && negb (String.length content <? 10)
  then Some content else None.

End ForumAnswerForm.

End forms.

(** ** urls.py *)

Module urls.

(** The [<slug:...>] path converter: the pattern [[-a-zA-Z0-9_]+]. *)
Definition slug_converter (s : string) : bool :=
  Py.truthy s
  && forallb (fun c => text.is_word c || text.is_hyphen c)
       (list_ascii_of_string s).

(** Targets of [redirect] and [reverse]. *)
Inductive name : Type :=
| login
| forum_question (slug : string)
| admin_login
| admin_changelist.

End urls.

(** ** Requests and responses *)

Record HttpRequest : Type := mk_request {
  user : request_user;
  method : string;
  POST_title : string;
  POST_content : string;
  POST_category : option nat
}.

Module BlogEntry.
(** One element of ['blogs'] in the blog feed. *)
Record t : Type := mk {
  id : nat;
  title : string;
  content : string;
  author : string;
  category : string;
  featured_image : option string;   (* [None] is JSON [null] *)
  created_at : Z;                   (* stands for its ISO 8601 text *)
  slug : string
}.
End BlogEntry.

Module NotificationEntry.
(** One element of ['notifications']. *)
Record t : Type := mk {
  id : nat;
  title : string;
  message : string;
  type : string;
  is_read : bool;
  created_at : Z;
  url : option string
}.
End NotificationEntry.

Inductive json : Type :=
| blogs_body (blogs : list BlogEntry.t)
| notifications_body (notifications : list NotificationEntry.t)
    (error : option string).

Inductive HttpResponse : Type :=
| JsonResponse (status : nat) (body : json)
| HttpResponseRedirect (to : urls.name)
| Http404
| ServerError                                  (* an uncaught exception *)
| BlogDetailPage (post : BlogPost.t) (related_posts : list BlogPost.t)
| QuestionPage (question : ForumQuestion.t)
| FormPage.

(** [django.contrib.messages] *)
Inductive message : Type :=
| error_message (text : string)
| success_message (text : string).

(** ** views.py *)

Module views.

Section Storage.

(** [FieldFile.url] is [storage.url(name)]; the storage backend is
    chosen by the project settings, outside this application. *)
Variable storage_url : string -> string.

Definition blog_entry (post : BlogPost.t) : BlogEntry.t :=
  BlogEntry.mk
    (BlogPost.pk post)
    (BlogPost.title post)
    (Py.slice_to 200 (BlogPost.content post))
    (let full_name := User.get_full_name (BlogPost.author post) in
     if Py.truthy full_name then full_name
     else User.username (BlogPost.author post))
    (match BlogPost.category post with
     | Some c => Category.name c
     | None => "General"
     end)
    (match BlogPost.featured_image post with
     | Some name => if Py.truthy name then Some (storage_url name) else None
     | None => None
     end)
    (BlogPost.created_at post)
    (BlogPost.slug post).

(** The posts serialised by [blog_feed_api]:
    [BlogPost.objects.filter(is_published=True)[:5]]. *)
Definition blog_feed_posts (db : Store) : list BlogPost.t :=
  limit 5 (BlogPost.published (blog_posts db)).

Definition blog_feed_api (request : HttpRequest) (db : Store)
  : HttpResponse :=
  JsonResponse 200 (blogs_body (map blog_entry (blog_feed_posts db))).

End Storage.

Definition notification_entry (n : Notification.t) : NotificationEntry.t :=
  NotificationEntry.mk
    (Notification.pk n)
    (Notification.title n)
    (Notification.message n)
    (Notification.notification_type n)
    (Notification.is_read n)
    (Notification.created_at n)
    (Notification.related_url n).

(** [Notification.objects.filter(user=request.user, is_read=False)[:5]] *)
Definition notifications_of (u : User.t) (db : Store)
  : list Notification.t :=
  limit 5 (Notification.unread_of u (notifications db)).

Definition notifications_api (request : HttpRequest) (db : Store)
  : HttpResponse :=
  match user request with
  | AnonymousUser =>
      JsonResponse 401
        (notifications_body [] (Some "User not authenticated"))
  | LoggedIn u =>
      JsonResponse 200
        (notifications_body (map notification_entry (notifications_of u db))
           None)
  end.

(** [BlogPostDetailView.get_context_data], the related posts:
    [BlogPost.objects.filter(is_published=True, category=post.category)
       .exclude(id=post.id)[:4]] *)
Definition related_posts (post : BlogPost.t) (db : Store)
  : list BlogPost.t :=
  limit 4
    (order_by_desc BlogPost.created_at
       (filter (fun p => negb (BlogPost.pk p =? BlogPost.pk post))
          (filter (fun p => BlogPost.is_published p
                            && same_category (BlogPost.category p)
                                 (BlogPost.category post))
             (blog_posts db)))).

(** [BlogPostDetailView]: the object is looked up by slug among the
    published posts. *)
Definition BlogPostDetailView (slug : string) (db : Store) : HttpResponse :=
  match filter (fun p => BlogPost.is_published p
                         && String.eqb (BlogPost.slug p) slug)
          (blog_posts db) with
  | [] => Http404
  | [post] => BlogDetailPage post (related_posts post db)
  | _ => ServerError
  end.

(** [ForumQuestionDetailView.get_object] *)
Definition get_object `{Backend} (slug : string) (now : Z) (db : Store)
  : HttpResponse * Store :=
  match ForumQuestion.get (ForumQuestion.by_slug slug) (questions db) with
  | ForumQuestion.DoesNotExist => (Http404, db)
  | ForumQuestion.MultipleObjectsReturned => (ServerError, db)
  | ForumQuestion.Found question =>
      let question :=
        ForumQuestion.set_views (ForumQuestion.views question + 1)%Z question in
      match ForumQuestion.save (Some [ForumQuestion.f_views]) now question
              (questions db) with
      | Ok (question, tb) => (QuestionPage question, set_questions tb db)
      | _ => (ServerError, db)
      end
  end.

(** [AskQuestionView] on POST, behind [LoginRequiredMixin]. *)
Definition AskQuestionView_post `{Backend} (request : HttpRequest) (now : Z)
    (db : Store) : HttpResponse * list message * Store :=
  match user request with
  | AnonymousUser => (HttpResponseRedirect urls.login, [], db)
  | LoggedIn u =>
      match forms.ForumQuestionForm.cleaned (categories db)
              (forms.ForumQuestionForm.mk (POST_title request)
                 (POST_content request) (POST_category request)) with
      | None => (FormPage, [], db)
      | Some (title, content, category) =>
          let instance := ForumQuestion.new title content u category in
          let msgs :=
            [success_message "Your question has been posted successfully!"] in
          match ForumQuestion.save None now instance (questions db) with
          | Ok (object, tb) =>
              (* get_success_url: reverse raises NoReverseMatch on a slug
                 the converter rejects, after the row was written (requests
                 are not wrapped in a transaction unless the settings ask) *)
              if urls.slug_converter (ForumQuestion.slug object)
              then (HttpResponseRedirect
                      (urls.forum_question (ForumQuestion.slug object)),
                    msgs, set_questions tb db)
              else (ServerError, msgs, set_questions tb db)
          | _ => (ServerError, msgs, db)
          end
      end
  end.

(** [post_answer] *)
Definition post_answer `{Backend} (request : HttpRequest) (slug : string)
    (now : Z)
    (db : Store) : HttpResponse * list message * Store :=
  match user request with
  | AnonymousUser =>
      (HttpResponseRedirect urls.login,
       [error_message "You must be logged in to post an answer."], db)
  | LoggedIn u =>
      match ForumQuestion.get (ForumQuestion.by_slug slug) (questions db) with
      | ForumQuestion.DoesNotExist => (Http404, [], db)
      | ForumQuestion.MultipleObjectsReturned => (ServerError, [], db)
      | ForumQuestion.Found question =>
          if String.eqb (method request) "POST" then
            match forms.ForumAnswerForm.clean_content (POST_content request),
                  ForumQuestion.pk question with
            | Some content, Some qpk =>
                let db1 :=
                  set_answers
                    (ForumAnswer.create qpk content u now (answers db)) db in
                let msgs := [success_message "Your answer has been posted!"] in
                let to := HttpResponseRedirect (urls.forum_question slug) in
                if negb (ForumQuestion.is_answered question) then
                  let question := ForumQuestion.set_is_answered true question in
                  match ForumQuestion.save (Some [ForumQuestion.f_is_answered])
                          now question (questions db1) with
                  | Ok (_, tb) => (to, msgs, set_questions tb db1)
                  | _ => (ServerError, [], db1)
                  end
                else (to, msgs, db1)
            | Some _, None => (ServerError, [], db)
            | None, _ =>
                (HttpResponseRedirect (urls.forum_question slug),
                 [error_message "Please correct the errors below."], db)
            end
          else (HttpResponseRedirect (urls.forum_question slug), [], db)
      end
  end.

End views.

(** ** admin.py *)

Module admin.

Module ForumQuestionAdmin.

Import ForumQuestion.

Definition readonly_fields : list field :=
  [f_slug; f_views; f_created_at; f_updated_at].

Definition fieldsets : list (string * list field) :=
  [("Question Information", [f_title; f_slug; f_author; f_category]);
   ("Content", [f_content]);
   ("Status", [f_is_answered; f_views]);
   ("Timestamps", [f_created_at; f_updated_at])].

(** The fields of the change form: those shown and not read-only. *)
Definition form_fields : list field :=
  filter (fun f => negb (mem f readonly_fields))
    (flat_map snd fieldsets).

(** The admin site serves staff who hold the permissions of the page,
    as every superuser does; [is_staff] stands for such a user. *)
Definition may_edit (request : HttpRequest) : bool :=
  match user request with
  | LoggedIn u => User.is_staff u
  | AnonymousUser => false
  end.

(** The model form of these pages; [posted] carries the submitted
    values, of which only [form_fields] are read.  A title of at most 200
    characters and a content are required, both stripped and free of
    null characters. *)
Definition clean (posted : ForumQuestion.t) : option ForumQuestion.t :=
  let title := forms.strip (ForumQuestion.title posted) in
  let content := forms.strip (ForumQuestion.content posted) in
  if Py.truthy title && (String.length title <=? 200) && forms.no_null title
     && Py.truthy content && forms.no_null content
  then Some (mk (pk posted) title content (author posted) (category posted)
               (slug posted) (is_answered posted) (views posted)
               (created_at posted) (updated_at posted))
  else None.

(** Submitting the add form: a new instance with the model's defaults
    receives the form fields and is saved. *)
Definition add_view `{Backend} (request : HttpRequest)
    (posted : ForumQuestion.t)
    (now : Z) (db : Store) : HttpResponse * Store :=
  if may_edit request then
    match clean posted with
    | Some cleaned =>
        let obj :=
          write_fields cleaned form_fields
            (new "" "" (author cleaned) None) in
        match save None now obj (questions db) with
        | Ok (_, tb) =>
            (HttpResponseRedirect urls.admin_changelist, set_questions tb db)
        | _ => (ServerError, db)
        end
    | None => (FormPage, db)
    end
  else (HttpResponseRedirect urls.admin_login, db).

(** Submitting the change form of the question with key [k]: the stored
    object receives the form fields and is saved in full. *)
Definition change_view `{Backend} (request : HttpRequest) (k : nat)
    (posted : ForumQuestion.t) (now : Z) (db : Store)
  : HttpResponse * Store :=
  if may_edit request then
    match get (has_pk k) (questions db) with
    | Found obj =>
        match clean posted with
        | Some cleaned =>
            let obj := write_fields cleaned form_fields obj in
            match save None now obj (questions db) with
            | Ok (_, tb) =>
                (HttpResponseRedirect urls.admin_changelist,
                 set_questions tb db)
            | _ => (ServerError, db)
            end
        | None => (FormPage, db)
        end
    | DoesNotExist => (HttpResponseRedirect urls.admin_changelist, db)
    | MultipleObjectsReturned => (ServerError, db)
    end
  else (HttpResponseRedirect urls.admin_login, db).

(** Confirming the deletion of the question with key [k]; its answers
    go with it ([on_delete=models.CASCADE]). *)
Definition delete_view (request : HttpRequest) (k : nat) (db : Store)
  : HttpResponse * Store :=
  if may_edit request then
    (HttpResponseRedirect urls.admin_changelist,
     set_answers
       (ForumAnswer.mk_table
          (filter (fun a => negb (ForumAnswer.question a =? k))
             (ForumAnswer.rows (answers db)))
          (ForumAnswer.next_pk (answers db)))
       (set_questions
          (mk_table
             (filter (fun q => negb (has_pk k q)) (rows (questions db)))
             (next_pk (questions db)))
          db))
  else (HttpResponseRedirect urls.admin_login, db).

End ForumQuestionAdmin.

End admin.

(** ** The program as a transition system

    One constructor per request that reads the feeds or writes the
    question table: the routes of [urls.py] for the forum and the two
    APIs, and the add, change and delete pages that [admin.py] registers
    for [ForumQuestion].  The remaining pages write other tables only. *)

Inductive Op : Type :=
| api_blog_feed (request : HttpRequest)
| api_notifications (request : HttpRequest)
| blog_detail (slug : string)
| forum_question_detail (request : HttpRequest) (slug : string) (now : Z)
| ask_question (request : HttpRequest) (now : Z)
| answer (request : HttpRequest) (slug : string) (now : Z)
| admin_add (request : HttpRequest) (posted : ForumQuestion.t) (now : Z)
| admin_change (request : HttpRequest) (k : nat) (posted : ForumQuestion.t)
    (now : Z)
| admin_delete (request : HttpRequest) (k : nat).

Section Program.

Variable storage_url : string -> string.
Context `{Backend}.

(** URL dispatch: a slug the converter rejects matches no route, and of
    the routes that match the first one in [urlpatterns] serves the
    request: [forum/ask/] stands before [forum/<slug:slug>/]. *)
Definition handle (op : Op) (db : Store) : HttpResponse * Store :=
  match op with
  | api_blog_feed request => (views.blog_feed_api storage_url request db, db)
  | api_notifications request => (views.notifications_api request db, db)
  | blog_detail slug =>
      if urls.slug_converter slug then (views.BlogPostDetailView slug db, db)
      else (Http404, db)
  | forum_question_detail request slug now =>
      if String.eqb slug "ask" then
        if is_authenticated (user request) then (FormPage, db)
        else (HttpResponseRedirect urls.login, db)
      else if urls.slug_converter slug then views.get_object slug now db
      else (Http404, db)
  | ask_question request now =>
      if String.eqb (method request) "POST" then
        let '(r, _, db') := views.AskQuestionView_post request now db in
        (r, db')
      else if is_authenticated (user request) then (FormPage, db)
      else (HttpResponseRedirect urls.login, db)
  | answer request slug now =>
      if urls.slug_converter slug then
        let '(r, _, db') := views.post_answer request slug now db in (r, db')
      else (Http404, db)
  | admin_add request posted now =>
      admin.ForumQuestionAdmin.add_view request posted now db
  | admin_change request k posted now =>
      admin.ForumQuestionAdmin.change_view request k posted now db
  | admin_delete request k =>
      admin.ForumQuestionAdmin.delete_view request k db
  end.

Definition step (op : Op) (db : Store) : Store := snd (handle op db).

(** The store after a sequence of requests. *)
Definition run (ops : list Op) (db : Store) : Store :=
  fold_left (fun d op => step op d) ops db.

End Program.

(** An operation of [views.py], as opposed to one of the admin site. *)
Definition is_view_op (op : Op) : bool :=
  match op with
  | admin_add _ _ _ | admin_change _ _ _ _ | admin_delete _ _ => false
  | _ => true
  end.

(** What the schema promises of the question table: primary keys are
    present, unique and below the next one to be handed out, and slugs
    are unique. *)
Definition wf_questions (tb : ForumQuestion.table) : Prop :=
  NoDup (map ForumQuestion.pk (ForumQuestion.rows tb))
  /\ NoDup (map ForumQuestion.slug (ForumQuestion.rows tb))
  /\ Forall (fun q => exists k, ForumQuestion.pk q = Some k
                                /\ k < ForumQuestion.next_pk tb)
       (ForumQuestion.rows tb).

Definition empty_store : Store :=
  mk_store [] [] [] (ForumQuestion.mk_table [] 1) (ForumAnswer.mk_table [] 1).

(** The row with primary key [k], if any. *)
Definition question_with_pk (k : nat) (db : Store) : option ForumQuestion.t :=
  find (ForumQuestion.has_pk k) (ForumQuestion.rows (questions db)).

(** Successive fetches of one question's detail page, one per clock
    reading. *)
Definition fetch_all `{Backend} (slug : string) (nows : list Z) (db : Store)
  : Store :=
  fold_left (fun d now => snd (views.get_object slug now d)) nows db.

(** The entries of a JSON response. *)
Definition response_blogs (r : HttpResponse) : list BlogEntry.t :=
  match r with
  | JsonResponse _ (blogs_body l) => l
  | _ => []
  end.

Definition response_notifications (r : HttpResponse)
  : list NotificationEntry.t :=
  match r with
  | JsonResponse _ (notifications_body l _) => l
  | _ => []
  end.

(** The slug a save left on the instance, when the save succeeded. *)
Definition saved_slug (r : outcome (ForumQuestion.t * ForumQuestion.table))
  : option string :=
  match r with
  | Ok (obj, _) => Some (ForumQuestion.slug obj)
  | _ => None
  end.

(** The [i]-th slug tried by the loop of [ForumQuestion.save]: the base
    form, then [base-1], [base-2], ... *)
Definition candidate (base_slug : string) (i : nat) : string :=
  match i with
  | 0 => base_slug
  | S _ => base_slug ++ "-" ++ Py.str i
  end.

(** ** The answers of a question *)

(** [ForumAnswer.Meta.ordering = ['-is_accepted', 'created_at']]:
    accepted answers first, then by creation time, oldest first. *)
Definition answer_precedes (a b : ForumAnswer.t) : bool :=
  if Bool.eqb (ForumAnswer.is_accepted a) (ForumAnswer.is_accepted b)
  then (ForumAnswer.created_at a <=? ForumAnswer.created_at b)%Z
  else ForumAnswer.is_accepted a.

Fixpoint insert_answer (a : ForumAnswer.t) (l : list ForumAnswer.t)
  : list ForumAnswer.t :=
  match l with
  | [] => [a]
  | b :: r => if answer_precedes a b then a :: l else b :: insert_answer a r
  end.

Definition order_answers (l : list ForumAnswer.t) : list ForumAnswer.t :=
  fold_right insert_answer [] l.

(** [question.answers]: the reverse side of [ForumAnswer.question], for
    the question with key [k]. *)
Definition answers_of (k : nat) (db : Store) : list ForumAnswer.t :=
  filter (fun a => ForumAnswer.question a =? k) (ForumAnswer.rows (answers db)).

(** [ForumQuestionDetailView.get_context_data]:
    [context['answers'] = self.object.answers.select_related('author')] *)
Definition context_answers (k : nat) (db : Store) : list ForumAnswer.t :=
  order_answers (answers_of k db).

(** [ForumQuestion.answer_count] of the question with key [k]:
    [self.answers.count()] *)
Definition answer_count (k : nat) (db : Store) : nat :=
  length (answers_of k db).

(** Every answer belongs to a stored question. *)
Definition answers_attached (db : Store) : Prop :=
  forall a, In a (ForumAnswer.rows (answers db)) ->
            exists q, In q (ForumQuestion.rows (questions db))
                      /\ ForumQuestion.pk q = Some (ForumAnswer.question a).

(** ** [SearchResultsView] *)

(** [needle in hay], on strings. *)
Fixpoint contains (needle hay : string) : bool :=
  match hay with
  | EmptyString => prefix needle hay
  | String _ rest => prefix needle hay || contains needle rest
  end.

Definition lower (s : string) : string :=
  string_of_list_ascii (map Py.lower_char (list_ascii_of_string s)).

(** The lookup [field__icontains=query]: a substring test that ignores
    the case of ASCII letters. *)
Definition icontains (query value : string) : bool :=
  contains (lower query) (lower value).

Record search_context : Type := mk_search_context {
  search_query : string;
  blog_results : list BlogPost.t;
  forum_results : list ForumQuestion.t
}.

(** [SearchResultsView.get_context_data]; [q] is [request.GET.get('q')]. *)
Definition SearchResultsView (q : option string) (db : Store)
  : search_context :=
  let query := forms.strip (match q with Some s => s | None => "" end) in
  if Py.truthy query then
    mk_search_context query
      (order_by_desc BlogPost.created_at
         (filter (fun p => icontains query (BlogPost.title p)
                           || icontains query (BlogPost.content p))
            (filter BlogPost.is_published (blog_posts db))))
      (order_by_desc ForumQuestion.created_at
         (filter (fun x => icontains query (ForumQuestion.title x)
                           || icontains query (ForumQuestion.content x))
            (ForumQuestion.rows (questions db))))
  else mk_search_context query [] [].

(** ** management/commands/clear_featured_images.py *)

Definition set_featured_image (v : option string) (p : BlogPost.t)
  : BlogPost.t :=
  BlogPost.mk (BlogPost.pk p) (BlogPost.title p) (BlogPost.content p)
    (BlogPost.author p) (BlogPost.category p) v (BlogPost.slug p)
    (BlogPost.is_published p) (BlogPost.created_at p).

(** [BlogPost.objects.exclude(featured_image='')]: the rows whose file
    name is not the empty string; a [NULL] name is not the empty string. *)
Definition with_featured_image_name (p : BlogPost.t) : bool :=
  match BlogPost.featured_image p with
  | Some name => negb (String.eqb name "")
  | None => true
  end.

(** [post.save()] of a loaded post: the rows with its key take its
    columns ([updated_at], refreshed by every save, is not a column of
    the model here).  The slug written is the stored one, so the unique
    constraint has nothing new to reject. *)
Definition BlogPost_save (post : BlogPost.t) (posts : list BlogPost.t)
  : list BlogPost.t :=
  map (fun r => if BlogPost.pk r =? BlogPost.pk post then post else r) posts.

Inductive command_output : Type :=
| WARNING (text : string)
| SUCCESS (text : string).

(** [Command.handle] *)
Definition clear_featured_images (db : Store) : command_output * Store :=
  let blog_posts_ := filter with_featured_image_name (blog_posts db) in
  let count := length blog_posts_ in
  if count =? 0 then
    (WARNING "No blog posts with featured images found.", db)
  else
    (SUCCESS ("Successfully cleared featured images from " ++ Py.str count
              ++ " blog post(s)."),
     mk_store (categories db)
       (fold_left
          (fun posts post => BlogPost_save (set_featured_image (Some "") post) posts)
          blog_posts_ (blog_posts db))
       (notifications db) (questions db) (answers db)).

(** ** [SignUpForm] and [SignUpView] *)

Module auth.

(** A row of the user table: the profile, the e-mail address and the
    password hash. *)
Record user : Type := mk_user {
  profile : User.t;
  email : string;
  password : string
}.

Record table : Type := mk_table {
  rows : list user;
  next_pk : nat
}.

Definition username_exists (tb : table) (username : string) : bool :=
  existsb (fun u => String.eqb (User.username (profile u)) username) (rows tb).

Definition email_exists (tb : table) (e : string) : bool :=
  existsb (fun u => String.eqb (email u) e) (rows tb).

End auth.

Module SignUpForm.

Record data : Type := mk {
  first_name : string;
  last_name : string;
  username : string;
  email : string;
  password : string;
  password_confirm : string
}.

Inductive response : Type :=
| redirect_home
| signup_page.

Section Validators.

(** What the framework and the project settings supply: the validators
    of the [username] and [email] model fields, the configured password
    validators and the password hasher. *)
Variable username_validator : string -> bool.
Variable email_validator : string -> bool.
Variable validate_password : string -> bool.
Variable make_password : string -> string.

(** [clean_username]: uniqueness first, then the length. *)
Definition clean_username (tb : auth.table) (username : string)
  : option string :=
  if auth.username_exists tb username then None
  else if String.length username <? 3 then None
  else Some username.

Definition clean_email (tb : auth.table) (email : string) : option string :=
  if auth.email_exists tb email then None else Some email.

Definition clean_password (password : string) : option string :=
  if validate_password password then Some password else None.

(** The fields before their [clean_<name>] hooks: stripped and free of
    null characters; [username] (at most 150 characters), [password] and
    [password_confirm] are required, the names (at most 150) and the
    address (at most 254) are not. *)
Definition field_username (d : data) : option string :=
  let v := forms.strip (username d) in
  if Py.truthy v && (String.length v <=? 150) && forms.no_null v
     && username_validator v
  then Some v else None.

Definition field_email (d : data) : option string :=
  let v := forms.strip (email d) in
  if negb (Py.truthy v) then Some v
  else if (String.length v <=? 254) && forms.no_null v && email_validator v
  then Some v
  else None.

Definition field_name (raw : string) : option string :=
  let v := forms.strip raw in
  if (String.length v <=? 150) && forms.no_null v then Some v else None.

Definition field_required (raw : string) : option string :=
  let v := forms.strip raw in
  if Py.truthy v && forms.no_null v then Some v else None.

Definition bind {A B : Type} (x : option A) (f : A -> option B) : option B :=
  match x with Some a => f a | None => None end.

(** [clean]: the two passwords are compared when both came through. *)
Definition clean (password password_confirm : option string) : bool :=
  match password, password_confirm with
  | Some p, Some c =>
      if Py.truthy p && Py.truthy c then String.eqb p c else true
  | _, _ => true
  end.

(** [is_valid()] with the cleaned data: every field and hook passed and
    [clean] raised nothing. *)
Definition cleaned (tb : auth.table) (d : data) : option data :=
  let first := field_name (first_name d) in
  let last := field_name (last_name d) in
  let uname := bind (field_username d) (clean_username tb) in
  let mail := bind (field_email d) (clean_email tb) in
  let pass := bind (field_required (password d)) clean_password in
  let conf := field_required (password_confirm d) in
  if clean pass conf then
    match first, last, uname, mail, pass, conf with
    | Some f, Some l, Some u, Some m, Some p, Some c => Some (mk f l u m p c)
    | _, _, _, _, _, _ => None
    end
  else None.

(** [save]: the user is built from the model fields, the password is
    hashed, the row is inserted. *)
Definition save (d : data) (tb : auth.table) : auth.user * auth.table :=
  let user :=
    auth.mk_user
      (User.mk (auth.next_pk tb) (username d) (first_name d) (last_name d) false)
      (email d) (make_password (password d)) in
  (user, auth.mk_table (auth.rows tb ++ [user]) (S (auth.next_pk tb))).

(** [SignUpView] on POST: [form_valid] saves, logs the new user in and
    redirects home; an invalid form is shown again.  The result carries
    the user of the session. *)
Definition SignUpView_post (d : data) (session : request_user)
    (tb : auth.table) : response * request_user * auth.table :=
  match cleaned tb d with
  | Some c =>
      let '(user, tb') := save c tb in
      (redirect_home, LoggedIn (auth.profile user), tb')
  | None => (signup_page, session, tb)
  end.

End Validators.

End SignUpForm.

(** What the specification asks of the featured-image field: an
    absolute locator, one that starts with a scheme (a letter, then
    letters, digits, [+], [-] or [.], up to a colon). *)
Fixpoint scheme_then_colon (s : string) : bool :=
  match s with
  | EmptyString => false
  | String c r =>
      if (c =? ":")%char then true
      else if Py.islower c || Py.isupper c || Py.isdigit c
              || (c =? "+")%char || (c =? "-")%char || (c =? ".")%char
      then scheme_then_colon r
      else false
  end.

Definition is_absolute (url : string) : bool :=
  match url with
  | EmptyString => false
  | String c r => (Py.islower c || Py.isupper c) && scheme_then_colon r
  end.


(** [a] may stand before [b] in a question's list of answers. *)
Definition answers_in_order (a b : ForumAnswer.t) : Prop :=
  (ForumAnswer.is_accepted a = true /\ ForumAnswer.is_accepted b = false)
  \/ (ForumAnswer.is_accepted a = ForumAnswer.is_accepted b
      /\ (ForumAnswer.created_at a <= ForumAnswer.created_at b)%Z).

(** ** [CategoryView] and [SubCategoryView] *)

Module SubCategory.

Record t : Type := mk {
  pk : nat;
  category : nat;               (* primary key of the [Category] *)
  name : string;
  slug : string
}.

End SubCategory.

Inductive category_response : Type :=
| CategoryNotFound
| CategoryError            (* MultipleObjectsReturned, uncaught *)
| CategoryPage (category : Category.t) (subcategories : list SubCategory.t)
    (page_title : string)
| SubCategoryPage (category : Category.t) (subcategory : SubCategory.t)
    (page_title : string).

(** [CategoryView.get_context_data]:
    [category = get_object_or_404(Category, slug=category_slug)],
    [subcategories = category.subcategories.all()] *)
Definition CategoryView (category_slug : string) (cats : list Category.t)
    (subs : list SubCategory.t) : category_response :=
  match filter (fun c => String.eqb (Category.slug c) category_slug) cats with
  | [] => CategoryNotFound
  | [category] =>
      CategoryPage category
        (filter (fun s => SubCategory.category s =? Category.pk category) subs)
        (Category.name category ++ " - OnlyStudies")
  | _ => CategoryError
  end.

(** [SubCategoryView.get_context_data]:
    [get_object_or_404(SubCategory, category=category, slug=subcategory_slug)]
    after the lookup of the category. *)
Definition SubCategoryView (category_slug subcategory_slug : string)
    (cats : list Category.t) (subs : list SubCategory.t) : category_response :=
  match filter (fun c => String.eqb (Category.slug c) category_slug) cats with
  | [] => CategoryNotFound
  | [category] =>
      match filter (fun s => (SubCategory.category s =? Category.pk category)
                             && String.eqb (SubCategory.slug s) subcategory_slug)
              subs with
      | [] => CategoryNotFound
      | [subcategory] =>
          SubCategoryPage category subcategory
            (SubCategory.name subcategory ++ " - OnlyStudies")
      | _ => CategoryError
      end
  | _ => CategoryError
  end.

(** * Properties *)

(** ** Decimal numerals and candidate slugs *)

Lemma str_inj (a b : nat) : Py.str a = Py.str b -> a = b.
Proof.
  unfold Py.str. intro H.
  apply (f_equal NilEmpty.uint_of_string) in H.
  rewrite !NilEmpty.usu in H.
  injection H as H. now apply Unsigned.to_uint_inj.
Qed.

Lemma append_cancel_l (p a b : string) : p ++ a = p ++ b -> a = b.
Proof.
  induction p as [|c p IH]; simpl; intro H; [assumption|].
  injection H as H. auto.
Qed.

Lemma suffixed_inj (base_slug : string) (a b : nat) :
  base_slug ++ "-" ++ Py.str a = base_slug ++ "-" ++ Py.str b -> a = b.
Proof.
  intro H. apply append_cancel_l in H. simpl in H.
  injection H as H. now apply str_inj.
Qed.

Lemma suffixed_NoDup (base_slug : string) (n : nat) :
  NoDup (map (fun k => base_slug ++ "-" ++ Py.str k) (seq 1 n)).
Proof.
  apply Finite.Injective_map_NoDup.
  - intros a b. apply suffixed_inj.
  - apply seq_NoDup.
Qed.

(** ** The probing loop *)

Section Probe.

Variable exists_ : string -> bool.
Variable base_slug : string.

Lemma probe_unfold (fuel i : nat) :
  ForumQuestion.probe exists_ base_slug (S fuel) (candidate base_slug i) (S i)
  = if exists_ (candidate base_slug i)
    then ForumQuestion.probe exists_ base_slug fuel
           (candidate base_slug (S i)) (S (S i))
    else Some (candidate base_slug i).
Proof. reflexivity. Qed.

(** Started on candidate [i], the loop stops on the first absent
    candidate [m >= i], given one test of fuel per candidate. *)
Lemma probe_first_absent (fuel i m : nat) :
  i <= m -> m - i < fuel ->
  (forall j, i <= j < m -> exists_ (candidate base_slug j) = true) ->
  exists_ (candidate base_slug m) = false ->
  ForumQuestion.probe exists_ base_slug fuel (candidate base_slug i) (S i)
  = Some (candidate base_slug m).
Proof.
  revert i. induction fuel as [|fuel IH]; intros i Him Hfuel Hbelow Hm.
  - lia.
  - rewrite probe_unfold.
    destruct (Nat.eq_dec i m) as [->|Hne].
    + now rewrite Hm.
    + rewrite (Hbelow i) by lia.
      apply IH; try lia; [|assumption].
      intros j Hj. apply Hbelow. lia.
Qed.

(** Among the candidates up to [b], if one is absent there is a first. *)
Lemma first_absent_below (b : nat) :
  (exists j, j <= b /\ exists_ (candidate base_slug j) = false) ->
  exists m, m <= b /\ exists_ (candidate base_slug m) = false
            /\ forall j, j < m -> exists_ (candidate base_slug j) = true.
Proof.
  induction b as [|b IH]; intros [j [Hj Hf]].
  - exists 0. replace j with 0 in Hf by lia. repeat split; auto; lia.
  - destruct (Nat.eq_dec j (S b)) as [->|Hne].
    + destruct (existsb (fun k => negb (exists_ (candidate base_slug k)))
                  (seq 0 (S b))) eqn:E.
      * apply existsb_exists in E. destruct E as [k [Hk Hkf]].
        apply in_seq in Hk. apply negb_true_iff in Hkf.
        destruct IH as [m [Hm [Hmf Hlt]]]; [exists k; split; [lia|assumption]|].
        exists m. repeat split; auto.
      * exists (S b). repeat split; auto.
        intros k Hk.
        rewrite <- not_true_iff_false in E.
        destruct (exists_ (candidate base_slug k)) eqn:Ek; [reflexivity|].
        exfalso. apply E. apply existsb_exists. exists k. split.
        -- apply in_seq. lia.
        -- now rewrite Ek.
    + destruct IH as [m [Hm [Hmf Hlt]]]; [exists j; split; [lia|assumption]|].
      exists m. repeat split; auto.
Qed.

End Probe.

(** A table of [n] rows cannot hold all of [base-1] ... [base-(n+1)]. *)
Lemma some_candidate_absent (tb : ForumQuestion.table) (base_slug : string) :
  exists j, j <= S (length (ForumQuestion.rows tb))
            /\ ForumQuestion.slug_exists tb (candidate base_slug j) = false.
Proof.
  set (n := length (ForumQuestion.rows tb)).
  destruct (forallb (fun k => ForumQuestion.slug_exists tb (candidate base_slug k))
              (seq 1 (S n))) eqn:E.
  - exfalso.
    assert (Hincl : incl (map (fun k => base_slug ++ "-" ++ Py.str k) (seq 1 (S n)))
                         (map ForumQuestion.slug (ForumQuestion.rows tb))).
    { intros s Hs. apply in_map_iff in Hs. destruct Hs as [k [<- Hk]].
      rewrite forallb_forall in E. specialize (E k Hk).
      apply in_seq in Hk. destruct k as [|k]; [lia|].
      unfold ForumQuestion.slug_exists in E. apply existsb_exists in E.
      destruct E as [r [Hr Heq]]. apply String.eqb_eq in Heq.
      apply in_map_iff. exists r. split; [exact Heq | exact Hr]. }
    apply NoDup_incl_length in Hincl; [|apply suffixed_NoDup].
    rewrite !length_map, length_seq in Hincl. subst n. lia.
  - rewrite <- not_true_iff_false in E.
    destruct (existsb (fun k => negb (ForumQuestion.slug_exists tb (candidate base_slug k)))
                (seq 1 (S n))) eqn:E'.
    + apply existsb_exists in E'. destruct E' as [k [Hk Hkf]].
      apply in_seq in Hk. apply negb_true_iff in Hkf.
      exists k. split; [lia | assumption].
    + exfalso. apply E. apply forallb_forall. intros k Hk.
      destruct (ForumQuestion.slug_exists tb (candidate base_slug k)) eqn:Ek;
        [reflexivity|].
      rewrite <- not_true_iff_false in E'. exfalso. apply E'.
      apply existsb_exists. exists k. split; [assumption | now rewrite Ek].
Qed.

(** The loop of [save] terminates within its fuel, on the first candidate
    that no row carries. *)
Lemma probe_total (tb : ForumQuestion.table) (base_slug : string) :
  exists m,
    ForumQuestion.probe (ForumQuestion.slug_exists tb) base_slug
      (ForumQuestion.probe_fuel tb) base_slug 1
    = Some (candidate base_slug m)
    /\ ForumQuestion.slug_exists tb (candidate base_slug m) = false
    /\ forall j, j < m ->
         ForumQuestion.slug_exists tb (candidate base_slug j) = true.
Proof.
  destruct (first_absent_below (ForumQuestion.slug_exists tb) base_slug
              (S (length (ForumQuestion.rows tb)))
              (some_candidate_absent tb base_slug)) as [m [Hm [Hf Hlt]]].
  exists m. split; [|split; assumption].
  change base_slug with (candidate base_slug 0) at 2.
  apply probe_first_absent; try assumption; unfold ForumQuestion.probe_fuel; try lia.
  intros j Hj. apply Hlt. lia.
Qed.

(** The row written by the first save of an instance without a slug. *)
Lemma save_without_slug `{BE : Backend} (q : ForumQuestion.t) (now : Z)
    (tb : ForumQuestion.table) :
  ForumQuestion.pk q = None -> ForumQuestion.slug q = "" ->
  exists m,
    let s := candidate (text.slugify (ForumQuestion.title q)) m in
    let obj :=
      ForumQuestion.set_pk (Some (ForumQuestion.next_pk tb))
        (ForumQuestion.set_updated_at now
           (ForumQuestion.set_created_at now (ForumQuestion.set_slug s q))) in
    ForumQuestion.save None now q tb
    = Ok (obj,
          ForumQuestion.mk_table (ForumQuestion.rows tb ++ [obj])
            (S (ForumQuestion.next_pk tb)))
    /\ ForumQuestion.slug_exists tb s = false
    /\ forall j, j < m ->
         ForumQuestion.slug_exists tb
           (candidate (text.slugify (ForumQuestion.title q)) j) = true.
Proof.
  intros Hpk Hslug.
  destruct (probe_total tb (text.slugify (ForumQuestion.title q)))
    as [m [Hp [Hf Hlt]]].
  exists m. cbv zeta. split; [|split; assumption].
  unfold ForumQuestion.save. rewrite Hslug. cbn [Py.truthy String.eqb negb].
  rewrite Hp. unfold ForumQuestion.Model_save.
  cbn [ForumQuestion.pk ForumQuestion.set_slug ForumQuestion.set_pk
       ForumQuestion.set_updated_at ForumQuestion.set_created_at
       ForumQuestion.slug].
  rewrite Hpk, Hf. do 3 f_equal. lia.
Qed.

(** The result of the loop depends on the table only through the set of
    its slugs. *)
Lemma probe_ext (e1 e2 : string -> bool) (base_slug : string)
    (fuel : nat) (slug : string) (counter : nat) :
  (forall s, e1 s = e2 s) ->
  ForumQuestion.probe e1 base_slug fuel slug counter
  = ForumQuestion.probe e2 base_slug fuel slug counter.
Proof.
  intro H. revert slug counter.
  induction fuel as [|fuel IH]; intros slug counter; simpl; [reflexivity|].
  rewrite H, IH. reflexivity.
Qed.

(** [C1] Creating a ForumQuestion with title T and no preset slug, on any
    table of existing questions, succeeds and assigns slugify(T) when no
    row carries it, and otherwise the first of slugify(T)-1, slugify(T)-2,
    ... (probed in this order) that no row carries; the assigned slug is
    a function of the title and of the set of existing slugs.  Starting
    from the empty store, asking "Tips for Passing Your MBA Exams" twice
    yields the slugs tips-for-passing-your-mba-exams and
    tips-for-passing-your-mba-exams-1. *)
Theorem slug_assigned_by_sequential_probing `{BE : Backend} :
  (forall (q : ForumQuestion.t) (now : Z) (tb : ForumQuestion.table),
      ForumQuestion.pk q = None -> ForumQuestion.slug q = "" ->
      let base_slug := text.slugify (ForumQuestion.title q) in
      exists obj tb',
        ForumQuestion.save None now q tb = Ok (obj, tb')
        /\ In obj (ForumQuestion.rows tb')
        /\ (if ForumQuestion.slug_exists tb base_slug
            then exists k,
                1 <= k
                /\ ForumQuestion.slug obj = base_slug ++ "-" ++ Py.str k
                /\ ForumQuestion.slug_exists tb (ForumQuestion.slug obj) = false
                /\ forall j, 1 <= j < k ->
                     ForumQuestion.slug_exists tb
                       (base_slug ++ "-" ++ Py.str j) = true
            else ForumQuestion.slug obj = base_slug)
        /\ forall (q2 : ForumQuestion.t) (now2 : Z) (tb2 : ForumQuestion.table),
            ForumQuestion.pk q2 = None -> ForumQuestion.slug q2 = "" ->
            ForumQuestion.title q2 = ForumQuestion.title q ->
            (forall s, ForumQuestion.slug_exists tb2 s
                       = ForumQuestion.slug_exists tb s) ->
            saved_slug (ForumQuestion.save None now2 q2 tb2)
            = Some (ForumQuestion.slug obj))
  /\ (let request :=
        mk_request
          (LoggedIn (User.mk 1 "student" "" "" false)) "POST"
          "Tips for Passing Your MBA Exams"
          "How should I plan the last month before the exams?" None in
      let '(r1, _, db1) := views.AskQuestionView_post request 10 empty_store in
      let '(r2, _, db2) := views.AskQuestionView_post request 20 db1 in
      r1 = HttpResponseRedirect
             (urls.forum_question "tips-for-passing-your-mba-exams")
      /\ r2 = HttpResponseRedirect
                (urls.forum_question "tips-for-passing-your-mba-exams-1")
      /\ map ForumQuestion.slug (ForumQuestion.rows (questions db2))
         = ["tips-for-passing-your-mba-exams";
            "tips-for-passing-your-mba-exams-1"]).
Proof.
  split.
  - intros q now tb Hpk Hslug base_slug.
    destruct (save_without_slug q now tb Hpk Hslug) as [m [Hsave [Hf Hlt]]].
    cbv zeta in Hsave. fold base_slug in Hsave, Hf, Hlt.
    eexists. eexists. split; [exact Hsave|].
    split; [cbn [ForumQuestion.rows]; apply in_or_app; right; left; reflexivity|].
    split.
    + cbn [ForumQuestion.slug ForumQuestion.set_pk ForumQuestion.set_updated_at
           ForumQuestion.set_created_at ForumQuestion.set_slug].
      destruct m as [|m].
      * simpl in Hf. rewrite Hf. reflexivity.
      * assert (H0 := Hlt 0 ltac:(lia)). cbn [candidate] in H0. rewrite H0.
        exists (S m). split; [lia|]. split; [reflexivity|].
        split; [exact Hf|].
        intros j Hj. destruct j as [|j]; [lia|].
        apply (Hlt (S j)). lia.
    + intros q2 now2 tb2 Hpk2 Hslug2 Htitle Hsame.
      unfold ForumQuestion.save at 1.
      rewrite Hslug2. cbn [Py.truthy String.eqb negb].
      assert (Hfuel : exists m2,
                 ForumQuestion.probe (ForumQuestion.slug_exists tb2) base_slug
                   (ForumQuestion.probe_fuel tb2) base_slug 1
                 = Some (candidate base_slug m2)
                 /\ ForumQuestion.slug_exists tb2 (candidate base_slug m2) = false
                 /\ forall j, j < m2 ->
                      ForumQuestion.slug_exists tb2 (candidate base_slug j) = true)
        by apply probe_total.
      destruct Hfuel as [m2 [Hp2 [Hf2 Hlt2]]].
      rewrite Htitle. fold base_slug. rewrite Hp2.
      assert (m2 = m) as ->.
      { destruct (Nat.lt_trichotomy m2 m) as [Hlt'|[Heq|Hgt]]; [|assumption|].
        - specialize (Hlt m2 Hlt'). rewrite <- Hsame in Hlt. congruence.
        - specialize (Hlt2 m Hgt). rewrite Hsame in Hlt2. congruence. }
      unfold ForumQuestion.Model_save.
      cbn [ForumQuestion.pk ForumQuestion.set_slug ForumQuestion.set_pk
           ForumQuestion.set_updated_at ForumQuestion.set_created_at
           ForumQuestion.slug].
      rewrite Hpk2, Hf2. reflexivity.
  - vm_compute. repeat split.
Qed.

(** The first save of a fresh question on the empty table. *)
Lemma slug_assigned_by_sequential_probing_witness :
  exists obj tb',
    ForumQuestion.save None 5
      (ForumQuestion.new "Tips for Passing Your MBA Exams" "content"
         (User.mk 1 "student" "" "" false) None)
      (ForumQuestion.mk_table [] 1)
    = Ok (obj, tb')
    /\ ForumQuestion.slug obj = "tips-for-passing-your-mba-exams".
Proof.
  destruct (proj1 slug_assigned_by_sequential_probing
              (ForumQuestion.new "Tips for Passing Your MBA Exams" "content"
                 (User.mk 1 "student" "" "" false) None)
              5%Z (ForumQuestion.mk_table [] 1) eq_refl eq_refl)
    as [obj [tb' [Hsave [_ [Hslug _]]]]].
  exists obj, tb'. split; [exact Hsave | exact Hslug].
Defined.

(** ** Saving with a slug already set *)

(** With a slug on the instance, [save] is [Model.save]: the loop and
    [slugify] are not reached. *)
Lemma save_with_slug `{BE : Backend}
    (fs : option (list ForumQuestion.field)) (now : Z)
    (q : ForumQuestion.t) (tb : ForumQuestion.table) :
  ForumQuestion.slug q <> "" ->
  ForumQuestion.save fs now q tb = ForumQuestion.Model_save fs now q tb.
Proof.
  intro H. unfold ForumQuestion.save, Py.truthy.
  apply String.eqb_neq in H. rewrite H. reflexivity.
Qed.

(** [C9] A first save (no primary key yet) of a ForumQuestion whose slug
    the caller has set to a non-empty string neither normalises nor probes:
    when some row already carries that slug the unique constraint rejects
    the write, otherwise the row is inserted with the slug exactly as
    given. *)
Theorem preset_slug_stored_as_given `{BE : Backend}
    (q : ForumQuestion.t) (now : Z)
    (tb : ForumQuestion.table) :
  ForumQuestion.pk q = None -> ForumQuestion.slug q <> "" ->
  let obj :=
    ForumQuestion.set_pk (Some (ForumQuestion.next_pk tb))
      (ForumQuestion.set_updated_at now (ForumQuestion.set_created_at now q)) in
  ForumQuestion.slug obj = ForumQuestion.slug q
  /\ ForumQuestion.save None now q tb
     = if ForumQuestion.slug_exists tb (ForumQuestion.slug q)
       then IntegrityError
       else Ok (obj,
                ForumQuestion.mk_table (ForumQuestion.rows tb ++ [obj])
                  (S (ForumQuestion.next_pk tb))).
Proof.
  intros Hpk Hslug obj. split; [reflexivity|].
  rewrite save_with_slug by assumption.
  unfold ForumQuestion.Model_save. rewrite Hpk.
  cbn [ForumQuestion.slug ForumQuestion.set_pk ForumQuestion.set_updated_at
       ForumQuestion.set_created_at].
  destruct (ForumQuestion.slug_exists tb (ForumQuestion.slug q)); [reflexivity|].
  subst obj. do 3 f_equal. lia.
Qed.

(** A slug that [slugify] would rewrite is stored untouched, and a second
    instance with the same slug is rejected. *)
Lemma preset_slug_stored_as_given_witness :
  let q :=
    ForumQuestion.mk None "Exam tips" "What works?" (User.mk 1 "student" "" "" false)
      None "Exam Tips!" false 0 0 0 in
  exists obj tb,
    ForumQuestion.save None 7 q (ForumQuestion.mk_table [] 1) = Ok (obj, tb)
    /\ map ForumQuestion.slug (ForumQuestion.rows tb) = ["Exam Tips!"]
    /\ ForumQuestion.save None 8 q tb = IntegrityError.
Proof.
  intro q.
  destruct (preset_slug_stored_as_given q 7 (ForumQuestion.mk_table [] 1) eq_refl)
    as [_ H1]; [discriminate|].
  eexists. eexists. split; [exact H1|]. split; [reflexivity|].
  match goal with |- ForumQuestion.save None 8 q ?tb = _ =>
    destruct (preset_slug_stored_as_given q 8 tb eq_refl) as [_ H2];
      [discriminate | exact H2]
  end.
Defined.

(** Whatever the columns written, a save of an instance that has a slug
    leaves the slug of the instance alone. *)
Lemma save_keeps_nonempty_slug `{BE : Backend}
    (fs : option (list ForumQuestion.field))
    (now : Z) (q obj : ForumQuestion.t) (tb tb' : ForumQuestion.table) :
  ForumQuestion.slug q <> "" ->
  ForumQuestion.save fs now q tb = Ok (obj, tb') ->
  ForumQuestion.slug obj = ForumQuestion.slug q.
Proof.
  intros Hslug. rewrite save_with_slug by assumption.
  unfold ForumQuestion.Model_save.
  destruct (ForumQuestion.pk q) as [k|].
  - destruct (existsb (ForumQuestion.has_pk k) (ForumQuestion.rows tb)).
    + destruct (ForumQuestion.mem ForumQuestion.f_views _ && _); [discriminate|].
      destruct (ForumQuestion.mem ForumQuestion.f_slug _ && _); [discriminate|].
      intro H. injection H as <- _.
      destruct (ForumQuestion.mem ForumQuestion.f_updated_at _); reflexivity.
    + destruct fs; [discriminate|].
      destruct (ForumQuestion.slug_exists tb _); [discriminate|].
      intro H. injection H as <- _. reflexivity.
  - destruct fs; [discriminate|].
    destruct (ForumQuestion.slug_exists tb _); [discriminate|].
    intro H. injection H as <- _. reflexivity.
Qed.

(** [C8] At the failing input: a question whose title has no letter or
    digit gets the empty slug at its first save, and the next full save
    computes a slug again, from the title then in force.  Through the
    application: the question is added on the admin site, then its title
    is edited on the admin change form. *)
Theorem empty_slug_is_recomputed :
  let student := User.mk 1 "student" "" "" false in
  let q := ForumQuestion.new "??????????" "Does anybody know the answer?"
             student None in
  (exists obj1 tb1 obj2 tb2,
      ForumQuestion.save None 10 q (ForumQuestion.mk_table [] 1) = Ok (obj1, tb1)
      /\ ForumQuestion.slug obj1 = ""
      /\ ForumQuestion.save None 20 obj1 tb1 = Ok (obj2, tb2)
      /\ ForumQuestion.slug obj2 = "-1"
      /\ map ForumQuestion.slug (ForumQuestion.rows tb2) = ["-1"])
  /\ (let staff :=
        mk_request (LoggedIn (User.mk 2 "staff" "" "" true)) "POST" "" "" None in
      let add :=
        admin_add staff
          (ForumQuestion.mk None "??????????" "Does anybody know the answer?"
             student None "" false 0 0 0) 10 in
      let edit :=
        admin_change staff 1
          (ForumQuestion.mk None "Which exam comes first?"
             "Does anybody know the answer?" student None "" false 0 0 0)
          20 in
      let db1 := run (fun name => name) [add] empty_store in
      let db2 := run (fun name => name) [add; edit] empty_store in
      map ForumQuestion.slug (ForumQuestion.rows (questions db1)) = [""]
      /\ map ForumQuestion.slug (ForumQuestion.rows (questions db2))
         = ["which-exam-comes-first"]
      /\ map ForumQuestion.pk (ForumQuestion.rows (questions db2)) = [Some 1]).
Proof.
  split.
  - do 4 eexists. repeat split.
  - vm_compute. repeat split.
Qed.

(** ** Ordered, sliced query sets *)

Section QuerySetFacts.

Variable A : Type.
Variable key : A -> Z.

Lemma insert_desc_perm (x : A) (l : list A) :
  Permutation (insert_desc key x l) (x :: l).
Proof.
  induction l as [|y r IH]; simpl; [reflexivity|].
  destruct (key y <=? key x)%Z; [reflexivity|].
  rewrite IH. apply perm_swap.
Qed.

Lemma order_by_desc_perm (l : list A) : Permutation (order_by_desc key l) l.
Proof.
  induction l as [|x l IH]; simpl; [reflexivity|].
  rewrite insert_desc_perm. now constructor.
Qed.

Lemma insert_desc_sorted (x : A) (l : list A) :
  newest_first key l -> newest_first key (insert_desc key x l).
Proof.
  unfold newest_first.
  induction l as [|y r IH]; simpl; intro Hs.
  - constructor; constructor.
  - apply StronglySorted_inv in Hs. destruct Hs as [Hr Hy].
    destruct (key y <=? key x)%Z eqn:E.
    + apply Z.leb_le in E. constructor.
      * constructor; assumption.
      * constructor; [assumption|].
        eapply Forall_impl; [|exact Hy]. cbv beta. intros; lia.
    + apply Z.leb_gt in E. constructor; [auto|].
      eapply Permutation_Forall; [symmetry; apply insert_desc_perm|].
      constructor; [lia | assumption].
Qed.

Lemma order_by_desc_sorted (l : list A) :
  newest_first key (order_by_desc key l).
Proof.
  induction l as [|x l IH]; simpl.
  - constructor.
  - now apply insert_desc_sorted.
Qed.

Lemma newest_first_app_l (a b : list A) :
  newest_first key (a ++ b) -> newest_first key a.
Proof.
  unfold newest_first. induction a as [|x a IH]; simpl; intro H.
  - constructor.
  - apply StronglySorted_inv in H. destruct H as [Hs Hx].
    constructor; [auto|].
    apply Forall_app in Hx. tauto.
Qed.

Lemma In_limit (n : nat) (x : A) (l : list A) : In x (limit n l) -> In x l.
Proof.
  intro H. rewrite <- (firstn_skipn n l). apply in_or_app. now left.
Qed.

(** [ORDER BY key DESC LIMIT n] yields the [n] newest rows. *)
Lemma limit_order_by_newest_n (n : nat) (l : list A) :
  newest_n key n l (limit n (order_by_desc key l)).
Proof.
  exists (skipn n (order_by_desc key l)). unfold limit.
  rewrite firstn_skipn. split; [apply order_by_desc_perm|].
  split; [apply order_by_desc_sorted|].
  rewrite length_firstn.
  now rewrite (Permutation_length (order_by_desc_perm l)).
Qed.

Lemma newest_n_length (n : nat) (l r : list A) :
  newest_n key n l r -> length r <= n.
Proof. intros [rest [_ [_ H]]]. lia. Qed.

Lemma newest_n_sorted (n : nat) (l r : list A) :
  newest_n key n l r -> newest_first key r.
Proof. intros [rest [_ [H _]]]. eapply newest_first_app_l; eassumption. Qed.

Lemma newest_n_In (n : nat) (l r : list A) (x : A) :
  newest_n key n l r -> In x r -> In x l.
Proof.
  intros [rest [H _]] Hx.
  eapply Permutation_in; [exact H|]. apply in_or_app. now left.
Qed.

(** With room for at least one row, the slice is empty only when
    nothing matches. *)
Lemma newest_n_nil (n : nat) (l : list A) :
  0 < n -> newest_n key n l [] -> l = [].
Proof.
  intros Hn [rest [_ [_ H]]]. simpl in H.
  destruct l; [reflexivity | simpl in H; lia].
Qed.

End QuerySetFacts.

Arguments limit_order_by_newest_n {A} key n l.
Arguments newest_n_length {A} key n l r.
Arguments newest_n_sorted {A} key n l r.
Arguments newest_n_In {A} key n l r x.
Arguments newest_n_nil {A} key n l.

(** Serialising rows keeps their order when it keeps their key. *)
Lemma newest_first_map (A B : Type) (f : A -> B) (ka : A -> Z) (kb : B -> Z)
    (l : list A) :
  (forall x, kb (f x) = ka x) ->
  newest_first ka l -> newest_first kb (map f l).
Proof.
  intros Hk Hs. unfold newest_first in *.
  induction Hs as [|p r Hr IH Hp]; simpl; constructor; [assumption|].
  apply Forall_map. eapply Forall_impl; [|exact Hp].
  cbv beta. intros b Hb. now rewrite !Hk.
Qed.

(** ** The blog feed *)

(** [C4] In every store the blog feed API answers with the entries of at
    most 5 posts, all of them stored with is_published = true, ordered by
    decreasing creation time; they are the 5 newest published posts (all
    of them when fewer exist). *)
Theorem blog_feed_five_newest_published
    (storage_url : string -> string) (request : HttpRequest) (db : Store) :
  exists posts,
    views.blog_feed_api storage_url request db
    = JsonResponse 200 (blogs_body (map (views.blog_entry storage_url) posts))
    /\ length (response_blogs (views.blog_feed_api storage_url request db)) <= 5
    /\ Forall (fun p => In p (blog_posts db) /\ BlogPost.is_published p = true)
         posts
    /\ newest_first BlogPost.created_at posts
    /\ newest_first BlogEntry.created_at
         (response_blogs (views.blog_feed_api storage_url request db))
    /\ newest_n BlogPost.created_at 5
         (filter BlogPost.is_published (blog_posts db)) posts.
Proof.
  exists (views.blog_feed_posts db).
  assert (Hn : newest_n BlogPost.created_at 5
                 (filter BlogPost.is_published (blog_posts db))
                 (views.blog_feed_posts db))
    by apply limit_order_by_newest_n.
  assert (Hs : newest_first BlogPost.created_at (views.blog_feed_posts db))
    by (eapply newest_n_sorted; exact Hn).
  split; [reflexivity|].
  split.
  { cbn [views.blog_feed_api response_blogs]. rewrite length_map.
    eapply newest_n_length; exact Hn. }
  split.
  { apply Forall_forall. intros p Hp.
    apply (newest_n_In _ _ _ _ _ Hn) in Hp. now apply filter_In in Hp. }
  split; [exact Hs|].
  split; [|exact Hn].
  cbn [views.blog_feed_api response_blogs].
  apply (newest_first_map _ _ _ BlogPost.created_at); [reflexivity | exact Hs].
Qed.

(** [C7] as stated, refuted: with the default file storage under
    [MEDIA_URL = "/media/"] the feed entry of a post with an image holds
    the path [/media/blog/plan.png], without scheme or host.  The view
    hands on the URL of the storage and adds nothing to it. *)
Lemma featured_image_url_is_relative :
  let storage_url := fun name => "/media/" ++ name in
  let author := User.mk 1 "teacher" "Ada" "Byron" false in
  let post :=
    BlogPost.mk 1 "Revision plans" "Start early." author None
      (Some "blog/plan.png") "revision-plans" true 100 in
  let db :=
    mk_store [] [post] [] (ForumQuestion.mk_table [] 1)
      (ForumAnswer.mk_table [] 1) in
  map BlogEntry.featured_image
    (response_blogs
       (views.blog_feed_api storage_url
          (mk_request AnonymousUser "GET" "" "" None) db))
  = [Some "/media/blog/plan.png"]
  /\ is_absolute "/media/blog/plan.png" = false
  /\ is_absolute "https://media.example.org/blog/plan.png" = true.
Proof.
  vm_compute. repeat split.
Qed.

(** [C7] amended: every entry of the blog feed API serialises some
    stored post; its featured-image field is the URL that the storage
    backend gives for the post's image file, unchanged, when the post has
    an image (so it is absolute exactly when the storage's URL is), and
    null when the post has none. *)
Theorem featured_image_url_or_null
    (storage_url : string -> string)
    (request : HttpRequest) (db : Store) (e : BlogEntry.t) :
  In e (response_blogs (views.blog_feed_api storage_url request db)) ->
  exists post,
    In post (blog_posts db)
    /\ e = views.blog_entry storage_url post
    /\ if BlogPost.has_featured_image post
       then exists name,
           BlogPost.featured_image post = Some name
           /\ name <> ""
           /\ BlogEntry.featured_image e = Some (storage_url name)
       else BlogEntry.featured_image e = None.
Proof.
  intros He.
  cbn [views.blog_feed_api response_blogs] in He.
  apply in_map_iff in He. destruct He as [post [<- Hpost]].
  exists post. split.
  { apply In_limit in Hpost.
    apply (Permutation_in _ (order_by_desc_perm _ _ _)) in Hpost.
    now apply filter_In in Hpost. }
  split; [reflexivity|].
  unfold BlogPost.has_featured_image, views.blog_entry.
  cbn [BlogEntry.featured_image].
  destruct (BlogPost.featured_image post) as [name|]; [|reflexivity].
  destruct (Py.truthy name) eqn:E; [|reflexivity].
  exists name. repeat split.
  intros ->. discriminate E.
Qed.

(** A post with an image behind a storage that serves [https] URLs. *)
Lemma featured_image_url_or_null_witness :
  let storage_url := fun name => "https://media.example.org/" ++ name in
  let author := User.mk 1 "teacher" "Ada" "Byron" false in
  let post :=
    BlogPost.mk 1 "Revision plans" "Start early." author None
      (Some "blog/plan.png") "revision-plans" true 100 in
  let db :=
    mk_store [] [post] [] (ForumQuestion.mk_table [] 1)
      (ForumAnswer.mk_table [] 1) in
  exists p,
    In p (blog_posts db)
    /\ views.blog_entry storage_url post = views.blog_entry storage_url p
    /\ if BlogPost.has_featured_image p
       then exists name,
           BlogPost.featured_image p = Some name
           /\ name <> ""
           /\ BlogEntry.featured_image (views.blog_entry storage_url post)
              = Some (storage_url name)
       else BlogEntry.featured_image (views.blog_entry storage_url post) = None.
Proof.
  intros storage_url author post db.
  apply (featured_image_url_or_null storage_url
           (mk_request AnonymousUser "GET" "" "" None) db
           (views.blog_entry storage_url post)).
  left. reflexivity.
Defined.

(** ** The notification feed *)

(** [C3] In every store: an unauthenticated caller of the notifications
    API gets status 401, an empty notification list and the error text;
    an authenticated caller gets status 200 and the entries of at most 5
    notifications, each stored for that caller with is_read = false,
    ordered by decreasing creation time; they are the 5 newest of the
    caller's unread notifications. *)
Theorem notifications_api_own_unread (request : HttpRequest) (db : Store) :
  (user request = AnonymousUser ->
   views.notifications_api request db
   = JsonResponse 401 (notifications_body [] (Some "User not authenticated")))
  /\ (forall u, user request = LoggedIn u ->
      exists ns,
        views.notifications_api request db
        = JsonResponse 200
            (notifications_body (map views.notification_entry ns) None)
        /\ length (response_notifications (views.notifications_api request db))
           <= 5
        /\ Forall (fun n => In n (notifications db)
                            /\ User.pk (Notification.user n) = User.pk u
                            /\ Notification.is_read n = false) ns
        /\ Forall (fun e => NotificationEntry.is_read e = false)
             (response_notifications (views.notifications_api request db))
        /\ newest_first NotificationEntry.created_at
             (response_notifications (views.notifications_api request db))
        /\ newest_n Notification.created_at 5
             (filter (fun n => User.same (Notification.user n) u
                               && negb (Notification.is_read n))
                (notifications db))
             ns).
Proof.
  split.
  - intro H. unfold views.notifications_api. now rewrite H.
  - intros u H. exists (views.notifications_of u db).
    assert (Hn : newest_n Notification.created_at 5
                   (filter (fun n => User.same (Notification.user n) u
                                     && negb (Notification.is_read n))
                      (notifications db))
                   (views.notifications_of u db))
      by apply limit_order_by_newest_n.
    assert (Hall : Forall (fun n => In n (notifications db)
                            /\ User.pk (Notification.user n) = User.pk u
                            /\ Notification.is_read n = false)
                     (views.notifications_of u db)).
    { apply Forall_forall. intros n Hin.
      apply (newest_n_In _ _ _ _ _ Hn) in Hin.
      apply filter_In in Hin. destruct Hin as [Hin Hp].
      apply andb_true_iff in Hp. destruct Hp as [Hu Hr].
      apply Nat.eqb_eq in Hu. apply negb_true_iff in Hr. auto. }
    unfold views.notifications_api. rewrite H.
    cbn [response_notifications].
    split; [reflexivity|].
    split; [rewrite length_map; eapply newest_n_length; exact Hn|].
    split; [exact Hall|].
    split.
    { apply Forall_map. eapply Forall_impl; [|exact Hall].
      cbv beta. intros n [_ [_ Hr]]. exact Hr. }
    split; [|exact Hn].
    apply (newest_first_map _ _ _ Notification.created_at); [reflexivity|].
    eapply newest_n_sorted; exact Hn.
Qed.

(** A caller with one unread and one read notification, next to another
    user's: anonymous gets 401, the caller gets the unread one only. *)
Lemma notifications_api_own_unread_witness :
  let alice := User.mk 1 "alice" "" "" false in
  let bob := User.mk 2 "bob" "" "" false in
  let db :=
    mk_store [] []
      [Notification.mk 1 alice "Unread" "m" "system" false None 10;
       Notification.mk 2 alice "Read" "m" "system" true None 20;
       Notification.mk 3 bob "Other" "m" "forum" false None 30]
      (ForumQuestion.mk_table [] 1) (ForumAnswer.mk_table [] 1) in
  views.notifications_api (mk_request AnonymousUser "GET" "" "" None) db
  = JsonResponse 401 (notifications_body [] (Some "User not authenticated"))
  /\ exists ns,
      views.notifications_api (mk_request (LoggedIn alice) "GET" "" "" None) db
      = JsonResponse 200
          (notifications_body (map views.notification_entry ns) None)
      /\ Forall (fun n => In n (notifications db)
                          /\ User.pk (Notification.user n) = 1
                          /\ Notification.is_read n = false) ns.
Proof.
  intros alice bob db. split.
  - exact (proj1 (notifications_api_own_unread
                    (mk_request AnonymousUser "GET" "" "" None) db) eq_refl).
  - destruct (proj2 (notifications_api_own_unread
                       (mk_request (LoggedIn alice) "GET" "" "" None) db)
                alice eq_refl) as [ns [Heq [_ [Hall _]]]].
    exists ns. split; [exact Heq | exact Hall].
Defined.

(** ** Related posts *)

(** [C2] as stated, refuted: of two published posts without category,
    each is related to the other. *)
Lemma related_posts_of_uncategorised_nonempty :
  let author := User.mk 1 "teacher" "" "" false in
  let first :=
    BlogPost.mk 1 "First" "One." author None None "first" true 100 in
  let second :=
    BlogPost.mk 2 "Second" "Two." author None None "second" true 200 in
  let db :=
    mk_store [] [first; second] [] (ForumQuestion.mk_table [] 1)
      (ForumAnswer.mk_table [] 1) in
  BlogPost.is_published first = true
  /\ BlogPost.category first = None
  /\ views.related_posts first db = [second]
  /\ views.related_posts first db <> []
  /\ views.BlogPostDetailView "first" db = BlogDetailPage first [second].
Proof.
  cbv zeta. repeat split. discriminate.
Qed.

(** [C2] amended: for a post without category the related posts are the
    4 newest (newest first) of the other published posts that have no
    category either; the result is empty exactly when no such post is
    stored. *)
Theorem related_posts_of_uncategorised (post : BlogPost.t) (db : Store) :
  BlogPost.category post = None ->
  let related := views.related_posts post db in
  newest_n BlogPost.created_at 4
    (filter (fun p => negb (BlogPost.pk p =? BlogPost.pk post))
       (filter (fun p => BlogPost.is_published p
                         && same_category (BlogPost.category p) None)
          (blog_posts db)))
    related
  /\ Forall (fun p => In p (blog_posts db)
                      /\ BlogPost.is_published p = true
                      /\ BlogPost.category p = None
                      /\ BlogPost.pk p <> BlogPost.pk post) related
  /\ (related = [] <->
      forall p, In p (blog_posts db) -> BlogPost.is_published p = true ->
                BlogPost.category p = None -> BlogPost.pk p = BlogPost.pk post).
Proof.
  intros Hcat related. subst related. unfold views.related_posts.
  rewrite Hcat.
  set (others :=
         filter (fun p => negb (BlogPost.pk p =? BlogPost.pk post))
           (filter (fun p => BlogPost.is_published p
                             && same_category (BlogPost.category p) None)
              (blog_posts db))).
  assert (Hn : newest_n BlogPost.created_at 4 others
                 (limit 4 (order_by_desc BlogPost.created_at others)))
    by apply limit_order_by_newest_n.
  assert (Hothers : forall p, In p others <->
             In p (blog_posts db) /\ BlogPost.is_published p = true
             /\ BlogPost.category p = None
             /\ BlogPost.pk p <> BlogPost.pk post).
  { intro p. subst others. rewrite !filter_In, andb_true_iff, negb_true_iff,
      Nat.eqb_neq.
    destruct (BlogPost.category p); simpl; intuition congruence. }
  split; [exact Hn|]. split.
  - apply Forall_forall. intros p Hp. apply Hothers.
    eapply newest_n_In; eassumption.
  - split.
    + intros Hnil p Hin Hpub Hnone.
      rewrite Hnil in Hn. apply newest_n_nil in Hn; [|lia].
      destruct (Nat.eq_dec (BlogPost.pk p) (BlogPost.pk post)) as [|Hne];
        [assumption|].
      exfalso. assert (Hp : In p others) by (apply Hothers; auto).
      rewrite Hn in Hp. exact Hp.
    + intro Hall.
      assert (Hnil : others = []).
      { clearbody others. destruct others as [|p r]; [reflexivity|]. exfalso.
        assert (Hp : In p (p :: r)) by (left; reflexivity).
        apply Hothers in Hp. destruct Hp as [Hin [Hpub [Hnone Hne]]].
        apply Hne. now apply Hall. }
      rewrite Hnil. reflexivity.
Qed.

(** A lone uncategorised post has no related posts. *)
Lemma related_posts_of_uncategorised_witness :
  let post :=
    BlogPost.mk 1 "First" "One." (User.mk 1 "teacher" "" "" false) None None
      "first" true 100 in
  let db :=
    mk_store [] [post] [] (ForumQuestion.mk_table [] 1)
      (ForumAnswer.mk_table [] 1) in
  Forall (fun p => In p (blog_posts db)
                   /\ BlogPost.is_published p = true
                   /\ BlogPost.category p = None
                   /\ BlogPost.pk p <> BlogPost.pk post)
    (views.related_posts post db).
Proof.
  intros post db.
  exact (proj1 (proj2 (related_posts_of_uncategorised post db eq_refl))).
Defined.

(** ** Updates of single columns *)

Lemma has_pk_write_fields (k : nat) (src : ForumQuestion.t)
    (fs : list ForumQuestion.field) (r : ForumQuestion.t) :
  ForumQuestion.has_pk k (ForumQuestion.write_fields src fs r)
  = ForumQuestion.has_pk k r.
Proof.
  induction fs as [|f fs IH]; simpl; [reflexivity|].
  rewrite <- IH. destruct f; reflexivity.
Qed.

Lemma filter_map_same (A : Type) (p : A -> bool) (f : A -> A) (l : list A) :
  (forall x, p (f x) = p x) -> filter p (map f l) = map f (filter p l).
Proof.
  intro H. induction l as [|x l IH]; simpl; [reflexivity|].
  rewrite H. destruct (p x); simpl; now rewrite IH.
Qed.

Lemma find_map_same (A : Type) (p : A -> bool) (f : A -> A) (l : list A) :
  (forall x, p (f x) = p x) ->
  find p (map f l) = option_map f (find p l).
Proof.
  intro H. induction l as [|x l IH]; simpl; [reflexivity|].
  rewrite H. destruct (p x); simpl; [reflexivity | exact IH].
Qed.

Lemma find_app_some (A : Type) (p : A -> bool) (l l' : list A) (x : A) :
  find p l = Some x -> find p (l ++ l') = Some x.
Proof.
  induction l as [|y l IH]; simpl; [discriminate|].
  destruct (p y); auto.
Qed.

(** The row a lookup found is in the table, alone in matching. *)
Lemma get_Found (p : ForumQuestion.t -> bool) (tb : ForumQuestion.table)
    (q : ForumQuestion.t) :
  ForumQuestion.get p tb = ForumQuestion.Found q ->
  filter p (ForumQuestion.rows tb) = [q].
Proof.
  unfold ForumQuestion.get.
  destruct (filter p (ForumQuestion.rows tb)) as [|x [|y l]];
    try discriminate.
  intro H. now injection H as ->.
Qed.

Lemma get_Found_In (p : ForumQuestion.t -> bool) (tb : ForumQuestion.table)
    (q : ForumQuestion.t) :
  ForumQuestion.get p tb = ForumQuestion.Found q ->
  In q (ForumQuestion.rows tb) /\ p q = true.
Proof.
  intro H. apply get_Found in H.
  apply filter_In. rewrite H. now left.
Qed.

Lemma existsb_has_pk (k : nat) (q : ForumQuestion.t)
    (tb : ForumQuestion.table) :
  In q (ForumQuestion.rows tb) -> ForumQuestion.pk q = Some k ->
  existsb (ForumQuestion.has_pk k) (ForumQuestion.rows tb) = true.
Proof.
  intros Hin Hpk. apply existsb_exists. exists q. split; [assumption|].
  unfold ForumQuestion.has_pk. rewrite Hpk. apply Nat.eqb_refl.
Qed.

(** [save(update_fields=[f])] for [f] one of [views], [is_answered]:
    column [f] of the rows with the instance's key is overwritten, and
    nothing else is; a count written has to fit its column. *)
Lemma save_one_column `{BE : Backend} (f : ForumQuestion.field) (now : Z)
    (q : ForumQuestion.t) (tb : ForumQuestion.table) (k : nat) :
  f = ForumQuestion.f_views /\ in_range (ForumQuestion.views q) = true
  \/ f = ForumQuestion.f_is_answered ->
  ForumQuestion.pk q = Some k ->
  existsb (ForumQuestion.has_pk k) (ForumQuestion.rows tb) = true ->
  exists obj,
    ForumQuestion.save (Some [f]) now q tb
    = Ok (obj,
          ForumQuestion.mk_table
            (map (fun r => if ForumQuestion.has_pk k r
                           then ForumQuestion.write_field q f r else r)
               (ForumQuestion.rows tb))
            (ForumQuestion.next_pk tb))
    /\ ForumQuestion.views obj = ForumQuestion.views q
    /\ ForumQuestion.is_answered obj = ForumQuestion.is_answered q
    /\ ForumQuestion.pk obj = ForumQuestion.pk q.
Proof.
  intros Hf Hpk Hex. unfold ForumQuestion.save.
  destruct (negb (Py.truthy (ForumQuestion.slug q))).
  - destruct (probe_total tb (text.slugify (ForumQuestion.title q)))
      as [m [Hp _]].
    rewrite Hp. unfold ForumQuestion.Model_save.
    cbn [ForumQuestion.pk ForumQuestion.set_slug]. rewrite Hpk, Hex.
    destruct Hf as [[-> Hr] | ->]; cbn; try rewrite Hr; cbn; eexists;
      (split; [reflexivity|]); repeat split; assumption.
  - unfold ForumQuestion.Model_save. rewrite Hpk, Hex.
    destruct Hf as [[-> Hr] | ->]; cbn; try rewrite Hr; cbn; eexists;
      (split; [reflexivity|]); repeat split; assumption.
Qed.

(** The same save of a count that does not fit the column fails. *)
Lemma save_views_out_of_range `{BE : Backend} (now : Z) (q : ForumQuestion.t)
    (tb : ForumQuestion.table) (k : nat) :
  in_range (ForumQuestion.views q) = false ->
  ForumQuestion.pk q = Some k ->
  existsb (ForumQuestion.has_pk k) (ForumQuestion.rows tb) = true ->
  ForumQuestion.save (Some [ForumQuestion.f_views]) now q tb = OutOfRange.
Proof.
  intros Hr Hpk Hex. unfold ForumQuestion.save.
  destruct (negb (Py.truthy (ForumQuestion.slug q))).
  - destruct (probe_total tb (text.slugify (ForumQuestion.title q)))
      as [m [Hp _]].
    rewrite Hp. unfold ForumQuestion.Model_save.
    cbn [ForumQuestion.pk ForumQuestion.set_slug]. rewrite Hpk, Hex.
    cbn. now rewrite Hr.
  - unfold ForumQuestion.Model_save. rewrite Hpk, Hex. cbn. now rewrite Hr.
Qed.

(** ** The views counter *)

Lemma in_range_spec `{BE : Backend} (v : Z) :
  in_range v = true <-> (- integer_max - 1 <= v <= integer_max)%Z.
Proof. unfold in_range. rewrite andb_true_iff, !Z.leb_le. tauto. Qed.

Lemma in_range_succ `{BE : Backend} (v : Z) :
  in_range v = true -> (v + 1 <= integer_max)%Z -> in_range (v + 1) = true.
Proof. rewrite !in_range_spec. lia. Qed.

(** A fetch whose new count fits the column writes it to the row. *)
Lemma get_object_found `{BE : Backend} (slug : string) (now : Z) (db : Store)
    (q : ForumQuestion.t) (k : nat) :
  ForumQuestion.get (ForumQuestion.by_slug slug) (questions db)
  = ForumQuestion.Found q ->
  ForumQuestion.pk q = Some k ->
  in_range (ForumQuestion.views q + 1) = true ->
  exists obj,
    views.get_object slug now db
    = (QuestionPage obj,
       set_questions
         (ForumQuestion.mk_table
            (map (fun r => if ForumQuestion.has_pk k r
                           then ForumQuestion.set_views
                                  (ForumQuestion.views q + 1)%Z r
                           else r)
               (ForumQuestion.rows (questions db)))
            (ForumQuestion.next_pk (questions db)))
         db)
    /\ ForumQuestion.views obj = (ForumQuestion.views q + 1)%Z.
Proof.
  intros Hget Hpk Hr. unfold views.get_object. rewrite Hget.
  destruct (get_Found_In _ _ _ Hget) as [Hin _].
  destruct (save_one_column ForumQuestion.f_views now
              (ForumQuestion.set_views (ForumQuestion.views q + 1)%Z q)
              (questions db) k (or_introl (conj eq_refl Hr)) Hpk
              (existsb_has_pk k q _ Hin Hpk))
    as [obj [Hsave [Hviews _]]].
  rewrite Hsave. exists obj. split; [reflexivity | exact Hviews].
Qed.

(** A fetch whose new count does not fit the column fails on the save:
    the request ends in a server error and the store is as before. *)
Lemma get_object_out_of_range `{BE : Backend} (slug : string) (now : Z)
    (db : Store) (q : ForumQuestion.t) (k : nat) :
  ForumQuestion.get (ForumQuestion.by_slug slug) (questions db)
  = ForumQuestion.Found q ->
  ForumQuestion.pk q = Some k ->
  in_range (ForumQuestion.views q + 1) = false ->
  views.get_object slug now db = (ServerError, db).
Proof.
  intros Hget Hpk Hr. unfold views.get_object. rewrite Hget.
  destruct (get_Found_In _ _ _ Hget) as [Hin _].
  rewrite (save_views_out_of_range now
             (ForumQuestion.set_views (ForumQuestion.views q + 1)%Z q)
             (questions db) k Hr Hpk (existsb_has_pk k q _ Hin Hpk)).
  reflexivity.
Qed.

Lemma get_by_slug_after_update (slug : string) (tb : ForumQuestion.table)
    (q : ForumQuestion.t) (k n : nat) (upd : ForumQuestion.t -> ForumQuestion.t) :
  (forall r, ForumQuestion.slug (upd r) = ForumQuestion.slug r) ->
  ForumQuestion.get (ForumQuestion.by_slug slug) tb = ForumQuestion.Found q ->
  ForumQuestion.pk q = Some k ->
  ForumQuestion.get (ForumQuestion.by_slug slug)
    (ForumQuestion.mk_table
       (map (fun r => if ForumQuestion.has_pk k r then upd r else r)
          (ForumQuestion.rows tb)) n)
  = ForumQuestion.Found (upd q).
Proof.
  intros Hupd Hget Hpk. apply get_Found in Hget.
  unfold ForumQuestion.get. cbn [ForumQuestion.rows].
  rewrite filter_map_same.
  - rewrite Hget. simpl. unfold ForumQuestion.has_pk.
    rewrite Hpk, Nat.eqb_refl. reflexivity.
  - intro r. unfold ForumQuestion.by_slug.
    destruct (ForumQuestion.has_pk k r); [now rewrite Hupd | reflexivity].
Qed.

Lemma fetch_all_cons `{BE : Backend}
    (slug : string) (now : Z) (nows : list Z) (db : Store) :
  fetch_all slug (now :: nows) db
  = fetch_all slug nows (snd (views.get_object slug now db)).
Proof. reflexivity. Qed.

Lemma fetch_all_views `{BE : Backend}
    (slug : string) (nows : list Z) (db : Store)
    (q : ForumQuestion.t) (k : nat) :
  ForumQuestion.get (ForumQuestion.by_slug slug) (questions db)
  = ForumQuestion.Found q ->
  ForumQuestion.pk q = Some k ->
  in_range (ForumQuestion.views q) = true ->
  (ForumQuestion.views q + Z.of_nat (length nows) <= integer_max)%Z ->
  ForumQuestion.get (ForumQuestion.by_slug slug)
    (questions (fetch_all slug nows db))
  = ForumQuestion.Found
      (ForumQuestion.set_views
         (ForumQuestion.views q + Z.of_nat (length nows))%Z q).
Proof.
  revert db q.
  induction nows as [|now nows IH]; intros db q Hget Hpk Hr Hmax.
  - simpl. rewrite Z.add_0_r. rewrite Hget. now destruct q.
  - rewrite fetch_all_cons. cbn [length] in Hmax.
    assert (Hr1 : in_range (ForumQuestion.views q + 1) = true)
      by (apply in_range_succ; [assumption | lia]).
    destruct (get_object_found slug now db q k Hget Hpk Hr1)
      as [obj [Hfetch _]].
    rewrite Hfetch. cbn [snd].
    rewrite (IH _ (ForumQuestion.set_views (ForumQuestion.views q + 1)%Z q)).
    + unfold ForumQuestion.set_views.
      cbn [ForumQuestion.views ForumQuestion.pk ForumQuestion.title
           ForumQuestion.content ForumQuestion.author ForumQuestion.category
           ForumQuestion.slug ForumQuestion.is_answered
           ForumQuestion.created_at ForumQuestion.updated_at].
      do 2 f_equal. cbn [length]. lia.
    + cbn [questions set_questions].
      apply (get_by_slug_after_update slug (questions db) q k _
               (ForumQuestion.set_views (ForumQuestion.views q + 1)%Z));
        [reflexivity | assumption | assumption].
    + exact Hpk.
    + exact Hr1.
    + cbn [ForumQuestion.views ForumQuestion.set_views]. lia.
Qed.

(** ** What each request does to the question table *)

Lemma save_update_fields_needs_pk `{BE : Backend}
    (fs : list ForumQuestion.field) (now : Z)
    (q : ForumQuestion.t) (tb : ForumQuestion.table) :
  ForumQuestion.pk q = None ->
  forall r, ForumQuestion.save (Some fs) now q tb <> Ok r.
Proof.
  intros Hpk r. unfold ForumQuestion.save.
  destruct (negb (Py.truthy (ForumQuestion.slug q))).
  - destruct (ForumQuestion.probe _ _ _ _ _); [|discriminate].
    unfold ForumQuestion.Model_save.
    cbn [ForumQuestion.pk ForumQuestion.set_slug]. rewrite Hpk. discriminate.
  - unfold ForumQuestion.Model_save. rewrite Hpk. discriminate.
Qed.

(** A full save of an instance whose key is in the table rewrites the
    rows with that key from an instance that differs from the saved one
    at most in [slug] and [updated_at]. *)
Lemma save_full_update `{BE : Backend} (now : Z) (q obj : ForumQuestion.t)
    (tb tb' : ForumQuestion.table) (k : nat) :
  ForumQuestion.pk q = Some k ->
  existsb (ForumQuestion.has_pk k) (ForumQuestion.rows tb) = true ->
  ForumQuestion.save None now q tb = Ok (obj, tb') ->
  exists src,
    ForumQuestion.rows tb'
    = map (fun r => if ForumQuestion.has_pk k r
                    then ForumQuestion.write_fields src ForumQuestion.all_fields r
                    else r)
        (ForumQuestion.rows tb)
    /\ ForumQuestion.views src = ForumQuestion.views q
    /\ ForumQuestion.is_answered src = ForumQuestion.is_answered q.
Proof.
  intros Hpk Hex. unfold ForumQuestion.save.
  destruct (negb (Py.truthy (ForumQuestion.slug q))).
  - destruct (ForumQuestion.probe _ _ _ _ _) as [s|]; [|discriminate].
    unfold ForumQuestion.Model_save.
    cbn [ForumQuestion.pk ForumQuestion.set_slug]. rewrite Hpk, Hex.
    destruct (_ && _); [discriminate|].
    destruct (_ && _); [discriminate|].
    intro H. injection H as _ <-.
    exists (ForumQuestion.set_updated_at now (ForumQuestion.set_slug s q)).
    split; [reflexivity|]. split; reflexivity.
  - unfold ForumQuestion.Model_save. rewrite Hpk, Hex.
    destruct (_ && _); [discriminate|].
    destruct (_ && _); [discriminate|].
    intro H. injection H as _ <-.
    exists (ForumQuestion.set_updated_at now q).
    split; [reflexivity|]. split; reflexivity.
Qed.

Lemma get_object_rows `{BE : Backend} (slug : string) (now : Z) (db : Store) :
  snd (views.get_object slug now db) = db
  \/ exists q0 k0,
      In q0 (ForumQuestion.rows (questions db))
      /\ ForumQuestion.pk q0 = Some k0
      /\ ForumQuestion.rows (questions (snd (views.get_object slug now db)))
         = map (fun r => if ForumQuestion.has_pk k0 r
                         then ForumQuestion.set_views
                                (ForumQuestion.views q0 + 1)%Z r
                         else r)
             (ForumQuestion.rows (questions db)).
Proof.
  destruct (ForumQuestion.get (ForumQuestion.by_slug slug) (questions db))
    as [q0| |] eqn:Hget.
  - destruct (ForumQuestion.pk q0) as [k0|] eqn:Hpk.
    + destruct (in_range (ForumQuestion.views q0 + 1)) eqn:Hr.
      * right. exists q0, k0.
        destruct (get_object_found slug now db q0 k0 Hget Hpk Hr)
          as [obj [-> _]].
        split; [apply (get_Found_In _ _ _ Hget)|].
        split; [exact Hpk | reflexivity].
      * left. now rewrite (get_object_out_of_range slug now db q0 k0).
    + left. unfold views.get_object. rewrite Hget.
      destruct (ForumQuestion.save _ _ _ _) as [[o t]| | | | |] eqn:E;
        try reflexivity.
      exfalso. revert E. apply save_update_fields_needs_pk. exact Hpk.
  - left. unfold views.get_object. now rewrite Hget.
  - left. unfold views.get_object. now rewrite Hget.
Qed.

Lemma AskQuestionView_post_rows `{BE : Backend}
    (request : HttpRequest) (now : Z) (db : Store) :
  let db' := snd (views.AskQuestionView_post request now db) in
  db' = db
  \/ exists obj,
      ForumQuestion.rows (questions db')
      = (ForumQuestion.rows (questions db) ++ [obj])%list.
Proof.
  cbv zeta. unfold views.AskQuestionView_post.
  destruct (user request) as [|u]; [now left|].
  destruct (forms.ForumQuestionForm.cleaned _ _) as [[[t c] cat]|]; [|now left].
  destruct (save_without_slug (ForumQuestion.new t c u cat) now (questions db)
              eq_refl eq_refl) as [m [Hsave _]].
  cbv zeta in Hsave. rewrite Hsave. right. eexists.
  destruct (urls.slug_converter _); reflexivity.
Qed.

Lemma post_answer_rows `{BE : Backend}
    (request : HttpRequest) (slug : string) (now : Z)
    (db : Store) :
  let db' := snd (views.post_answer request slug now db) in
  questions db' = questions db
  \/ exists k0,
      ForumQuestion.rows (questions db')
      = map (fun r => if ForumQuestion.has_pk k0 r
                      then ForumQuestion.set_is_answered true r else r)
          (ForumQuestion.rows (questions db)).
Proof.
  cbv zeta. unfold views.post_answer.
  destruct (user request) as [|u]; [now left|].
  destruct (ForumQuestion.get _ _) as [q0| |] eqn:Hget; try (now left).
  destruct (String.eqb (method request) "POST"); [|now left].
  destruct (forms.ForumAnswerForm.clean_content _) as [content|]; [|now left].
  destruct (ForumQuestion.pk q0) as [k0|] eqn:Hpk; [|now left].
  destruct (ForumQuestion.is_answered q0); [now left|].
  cbn [negb].
  destruct (get_Found_In _ _ _ Hget) as [Hin _].
  destruct (save_one_column ForumQuestion.f_is_answered now
              (ForumQuestion.set_is_answered true q0) (questions db) k0
              (or_intror eq_refl) Hpk (existsb_has_pk k0 q0 _ Hin Hpk))
    as [obj [Hsave _]].
  cbn [questions set_answers]. rewrite Hsave. right. exists k0. reflexivity.
Qed.

Lemma change_view_rows `{BE : Backend} (request : HttpRequest) (k0 : nat)
    (posted : ForumQuestion.t) (now : Z) (db : Store) :
  let db' := snd (admin.ForumQuestionAdmin.change_view request k0 posted now db) in
  db' = db
  \/ exists o src,
      ForumQuestion.get (ForumQuestion.has_pk k0) (questions db)
      = ForumQuestion.Found o
      /\ ForumQuestion.rows (questions db')
         = map (fun r => if ForumQuestion.has_pk k0 r
                         then ForumQuestion.write_fields src
                                ForumQuestion.all_fields r
                         else r)
             (ForumQuestion.rows (questions db))
      /\ ForumQuestion.views src = ForumQuestion.views o.
Proof.
  cbv zeta. unfold admin.ForumQuestionAdmin.change_view.
  destruct (admin.ForumQuestionAdmin.may_edit request); [|now left].
  destruct (ForumQuestion.get _ _) as [o| |] eqn:Hget; try (now left).
  destruct (admin.ForumQuestionAdmin.clean posted) as [cleaned|]; [|now left].
  destruct (ForumQuestion.save _ _ _ _) as [[x t]| | | | |] eqn:E;
    try (now left).
  right.
  destruct (get_Found_In _ _ _ Hget) as [Hin Hk].
  assert (Hpk : ForumQuestion.pk o = Some k0).
  { unfold ForumQuestion.has_pk in Hk.
    destruct (ForumQuestion.pk o) as [j|]; [|discriminate].
    apply Nat.eqb_eq in Hk. now subst. }
  apply save_full_update with (k := k0) in E.
  - destruct E as [src [Hrows [Hviews _]]].
    exists o, src. split; [reflexivity|]. split; [exact Hrows | exact Hviews].
  - exact Hpk.
  - now apply (existsb_has_pk k0 o).
Qed.

Lemma add_view_rows `{BE : Backend}
    (request : HttpRequest) (posted : ForumQuestion.t)
    (now : Z) (db : Store) :
  let db' := snd (admin.ForumQuestionAdmin.add_view request posted now db) in
  db' = db
  \/ exists obj,
      ForumQuestion.rows (questions db')
      = (ForumQuestion.rows (questions db) ++ [obj])%list.
Proof.
  cbv zeta. unfold admin.ForumQuestionAdmin.add_view.
  destruct (admin.ForumQuestionAdmin.may_edit request); [|now left].
  destruct (admin.ForumQuestionAdmin.clean posted) as [cleaned|]; [|now left].
  match goal with |- context [ForumQuestion.save None now ?o ?tb] =>
    destruct (save_without_slug o now tb eq_refl eq_refl) as [m [Hsave _]]
  end.
  cbv zeta in Hsave. rewrite Hsave. right. eexists. reflexivity.
Qed.

Lemma NoDup_map_eq (A B : Type) (f : A -> B) (l : list A) (x y : A) :
  NoDup (map f l) -> In x l -> In y l -> f x = f y -> x = y.
Proof.
  induction l as [|a l IH]; simpl; intros Hnd Hx Hy Hf; [contradiction|].
  apply NoDup_cons_iff in Hnd. destruct Hnd as [Hna Hnd].
  destruct Hx as [->|Hx], Hy as [->|Hy]; auto.
  - exfalso. apply Hna. rewrite Hf. now apply in_map.
  - exfalso. apply Hna. rewrite <- Hf. now apply in_map.
Qed.

Lemma find_filter_same (A : Type) (p g : A -> bool) (l : list A) :
  (forall y, p y = true -> g y = true) ->
  find p (filter g l) = find p l.
Proof.
  intro H. induction l as [|a l IH]; simpl; [reflexivity|].
  destruct (g a) eqn:Eg; simpl.
  - now rewrite IH.
  - destruct (p a) eqn:Ep; [|exact IH].
    apply H in Ep. congruence.
Qed.

Lemma has_pk_eq (k : nat) (q : ForumQuestion.t) :
  ForumQuestion.has_pk k q = true <-> ForumQuestion.pk q = Some k.
Proof.
  unfold ForumQuestion.has_pk. destruct (ForumQuestion.pk q) as [j|].
  - rewrite Nat.eqb_eq. split; congruence.
  - split; discriminate.
Qed.

Lemma snd_drop_messages (A B : Type) (x : HttpResponse * A * B) :
  snd (let '(r, _, d) := x in (r, d)) = snd x.
Proof. now destruct x as [[r m] d]. Qed.

(** One request changes the row with key [k], when it stays, in one of
    four ways. *)
Lemma step_row_cases `{BE : Backend}
    (storage_url : string -> string) (op : Op) (db : Store)
    (k : nat) (q q' : ForumQuestion.t) :
  NoDup (map ForumQuestion.pk (ForumQuestion.rows (questions db))) ->
  question_with_pk k db = Some q ->
  question_with_pk k (step storage_url op db) = Some q' ->
  q' = q
  \/ q' = ForumQuestion.set_views (ForumQuestion.views q + 1)%Z q
  \/ q' = ForumQuestion.set_is_answered true q
  \/ (is_view_op op = false /\ ForumQuestion.views q' = ForumQuestion.views q).
Proof.
  intros Hnd Hq. unfold question_with_pk in *.
  assert (Hsame : forall d, d = db ->
            find (ForumQuestion.has_pk k) (ForumQuestion.rows (questions d))
            = Some q' -> q' = q)
    by (intros d -> H; congruence).
  destruct (find_some _ _ Hq) as [Hin Hk]. apply has_pk_eq in Hk.
  unfold step.
  destruct op as [request|request|slug|request slug now|request now
                 |request slug now|request posted now|request k0 posted now
                 |request k0];
    cbn [handle].
  - left. now apply (Hsame db).
  - left. now apply (Hsame db).
  - left. destruct (urls.slug_converter slug); now apply (Hsame db).
  - destruct (String.eqb slug "ask");
      [left; destruct (is_authenticated _); now apply (Hsame db)|].
    destruct (urls.slug_converter slug); [|left; now apply (Hsame db)].
    destruct (get_object_rows slug now db) as [->|[q0 [j [Hin0 [Hpk0 ->]]]]];
      [left; now apply (Hsame db)|].
    rewrite find_map_same, Hq.
    2:{ intro r. destruct (ForumQuestion.has_pk j r); reflexivity. }
    cbn [option_map]. intro H. injection H as <-.
    destruct (ForumQuestion.has_pk j q) eqn:Ej; [|now left].
    right. left. apply has_pk_eq in Ej.
    assert (q0 = q) as -> by (apply (NoDup_map_eq _ _ _ _ _ _ Hnd); congruence).
    reflexivity.
  - destruct (String.eqb (method request) "POST");
      [|left; destruct (is_authenticated (user request));
        now apply (Hsame db)].
    rewrite snd_drop_messages.
    destruct (AskQuestionView_post_rows request now db) as [->|[obj ->]];
      [left; now apply (Hsame db)|].
    rewrite (find_app_some _ _ _ _ _ Hq). left. congruence.
  - destruct (urls.slug_converter slug); [|left; now apply (Hsame db)].
    rewrite snd_drop_messages.
    destruct (post_answer_rows request slug now db) as [->|[j ->]];
      [left; congruence|].
    rewrite find_map_same, Hq.
    2:{ intro r. destruct (ForumQuestion.has_pk j r); reflexivity. }
    cbn [option_map]. intro H. injection H as <-.
    destruct (ForumQuestion.has_pk j q); auto.
  - destruct (add_view_rows request posted now db) as [->|[obj ->]];
      [left; now apply (Hsame db)|].
    rewrite (find_app_some _ _ _ _ _ Hq). left. congruence.
  - destruct (change_view_rows request k0 posted now db)
      as [->|[o [src [Hget [-> Hviews]]]]]; [left; now apply (Hsame db)|].
    rewrite find_map_same, Hq.
    2:{ intro r. destruct (ForumQuestion.has_pk k0 r); [|reflexivity].
        apply has_pk_write_fields. }
    cbn [option_map]. intro H. injection H as <-.
    destruct (ForumQuestion.has_pk k0 q) eqn:Ej; [|now left].
    right. right. right. split; [reflexivity|].
    assert (Ho : In q [o]).
    { rewrite <- (get_Found _ _ _ Hget). apply filter_In. auto. }
    destruct Ho as [->|[]]. exact Hviews.
  - unfold admin.ForumQuestionAdmin.delete_view.
    destruct (admin.ForumQuestionAdmin.may_edit request);
      [|left; now apply (Hsame db)].
    cbn [snd questions set_answers set_questions ForumQuestion.rows].
    intro H. left.
    destruct (Nat.eq_dec k k0) as [->|Hne].
    + apply find_some in H. destruct H as [H1 H2].
      apply filter_In in H1. destruct H1 as [_ H1]. rewrite H2 in H1.
      discriminate.
    + rewrite find_filter_same in H; [congruence|].
      intros y Hy. apply has_pk_eq in Hy. apply negb_true_iff.
      apply not_true_iff_false. intro Hy0. apply has_pk_eq in Hy0. congruence.
Qed.

(** [C6] as stated, refuted: on SQLite a question whose counter has
    reached the largest value of the column is fetched; the save of the
    next count fails, the request ends in a server error, and after three
    fetches the counter is where it was, not three higher. *)
Lemma views_stay_at_column_maximum :
  let q :=
    ForumQuestion.mk (Some 1) "Which exam comes first?" "Does anybody know?"
      (User.mk 1 "student" "" "" false) None "which-exam-comes-first"
      false 9223372036854775807 10 10 in
  let db :=
    mk_store [] [] [] (ForumQuestion.mk_table [q] 2)
      (ForumAnswer.mk_table [] 1) in
  views.get_object "which-exam-comes-first" 20 db = (ServerError, db)
  /\ fetch_all "which-exam-comes-first" [20; 30; 40]%Z db = db
  /\ option_map ForumQuestion.views
       (question_with_pk 1
          (fetch_all "which-exam-comes-first" [20; 30; 40]%Z db))
     = Some 9223372036854775807%Z.
Proof.
  vm_compute. repeat split.
Qed.

(** [C6] amended: fetching the detail page of a stored question any
    number of times, whoever asks, leaves its row with views increased by
    the number of fetches and otherwise unchanged, as long as the count
    stays within the range of the integer column; each such fetch answers
    with the question page and a count one higher.  A fetch whose count
    would leave that range ends in a server error and changes nothing.
    No request ever lowers the views of a row that it leaves in a table
    with unique keys. *)
Theorem views_incremented_once_per_fetch `{BE : Backend} :
  (forall (slug : string) (nows : list Z) (db : Store)
          (q : ForumQuestion.t) (k : nat),
      ForumQuestion.get (ForumQuestion.by_slug slug) (questions db)
      = ForumQuestion.Found q ->
      ForumQuestion.pk q = Some k ->
      in_range (ForumQuestion.views q) = true ->
      ((ForumQuestion.views q + Z.of_nat (length nows) <= integer_max)%Z ->
       ForumQuestion.get (ForumQuestion.by_slug slug)
         (questions (fetch_all slug nows db))
       = ForumQuestion.Found
           (ForumQuestion.set_views
              (ForumQuestion.views q + Z.of_nat (length nows))%Z q))
      /\ ((ForumQuestion.views q < integer_max)%Z ->
          forall now, exists obj,
            views.get_object slug now db
            = (QuestionPage obj, fetch_all slug [now] db)
            /\ ForumQuestion.views obj = (ForumQuestion.views q + 1)%Z)
      /\ (ForumQuestion.views q = integer_max ->
          forall now, views.get_object slug now db = (ServerError, db)))
  /\ (forall (storage_url : string -> string) (op : Op) (db : Store)
             (k : nat) (q q' : ForumQuestion.t),
      NoDup (map ForumQuestion.pk (ForumQuestion.rows (questions db))) ->
      question_with_pk k db = Some q ->
      question_with_pk k (step storage_url op db) = Some q' ->
      (ForumQuestion.views q <= ForumQuestion.views q')%Z).
Proof.
  split.
  - intros slug nows db q k Hget Hpk Hr. split; [|split].
    + intro Hmax. now apply (fetch_all_views slug nows db q k).
    + intros Hlt now.
      assert (Hr1 : in_range (ForumQuestion.views q + 1) = true)
        by (apply in_range_succ; [assumption | lia]).
      destruct (get_object_found slug now db q k Hget Hpk Hr1)
        as [obj [Hf Hv]].
      exists obj. split; [|exact Hv].
      unfold fetch_all. cbn [fold_left]. rewrite Hf. reflexivity.
    + intros Hmax now.
      apply (get_object_out_of_range slug now db q k Hget Hpk).
      apply not_true_iff_false. rewrite in_range_spec. lia.
  - intros storage_url op db k q q' Hnd Hq Hq'.
    destruct (step_row_cases storage_url op db k q q' Hnd Hq Hq')
      as [->|[->|[->|[_ ->]]]]; cbn [ForumQuestion.views ForumQuestion.set_views
                                     ForumQuestion.set_is_answered]; lia.
Qed.

(** Three fetches of a question seen 4 times, on SQLite; then a fourth
    request. *)
Lemma views_incremented_once_per_fetch_witness :
  let q :=
    ForumQuestion.mk (Some 1) "Which exam comes first?" "Does anybody know?"
      (User.mk 1 "student" "" "" false) None "which-exam-comes-first"
      false 4 10 10 in
  let db :=
    mk_store [] [] [] (ForumQuestion.mk_table [q] 2)
      (ForumAnswer.mk_table [] 1) in
  ForumQuestion.get (ForumQuestion.by_slug "which-exam-comes-first")
    (questions (fetch_all "which-exam-comes-first" [20; 30; 40]%Z db))
  = ForumQuestion.Found (ForumQuestion.set_views 7 q)
  /\ (4 <= 5)%Z.
Proof.
  intros q db. split.
  - apply (proj1 (proj1 (@views_incremented_once_per_fetch sqlite3)
                    "which-exam-comes-first" [20; 30; 40]%Z db q 1
                    eq_refl eq_refl eq_refl)).
    vm_compute. discriminate.
  - apply (proj2 (@views_incremented_once_per_fetch sqlite3)
             (fun name => name)
             (forum_question_detail
                (mk_request AnonymousUser "GET" "" "" None)
                "which-exam-comes-first" 50) db 1 q
             (ForumQuestion.set_views 5 q)).
    + simpl. repeat constructor. intros [].
    + reflexivity.
    + reflexivity.
Defined.

(** ** The answered flag *)

(** [C5] as stated, refuted: a question is asked and answered, then a
    staff member submits its admin change form with the "is answered" box
    unticked. *)
Lemma is_answered_reset_on_admin_change_form :
  let student := User.mk 1 "student" "" "" false in
  let tutor := User.mk 2 "tutor" "" "" true in
  let ask :=
    ask_question
      (mk_request (LoggedIn student) "POST" "How do I prepare for finals?"
         "I have four weeks left and three subjects." None) 10 in
  let reply :=
    answer
      (mk_request (LoggedIn tutor) "POST" "" "Start with the past papers." None)
      "how-do-i-prepare-for-finals" 20 in
  let edit :=
    admin_change (mk_request (LoggedIn tutor) "POST" "" "" None) 1
      (ForumQuestion.mk None "How do I prepare for finals?"
         "I have four weeks left and three subjects." student None "" false
         0 0 0) 30 in
  let db2 := run (fun name => name) [ask; reply] empty_store in
  let db3 := step (fun name => name) edit db2 in
  option_map ForumQuestion.is_answered (question_with_pk 1 db2) = Some true
  /\ length (ForumAnswer.rows (answers db2)) = 1
  /\ option_map ForumQuestion.is_answered (question_with_pk 1 db3) = Some false
  /\ length (ForumAnswer.rows (answers db3)) = 1.
Proof.
  vm_compute. repeat split.
Qed.

(** [C5] amended: a valid answer posted by a logged-in caller to a stored
    question is appended to the answers and leaves the question with
    is_answered = true, whether it was false (the first answer) or already
    true; and no request handled by views.py turns the flag of a stored
    question from true to false.  (The admin change form, where
    is_answered is an editable field, can.) *)
Theorem is_answered_set_by_answers_kept_by_views `{BE : Backend} :
  (forall (request : HttpRequest) (slug : string) (now : Z) (db : Store)
          (q : ForumQuestion.t) (k : nat) (u : User.t) (content : string),
      user request = LoggedIn u ->
      method request = "POST" ->
      forms.ForumAnswerForm.clean_content (POST_content request) = Some content ->
      ForumQuestion.get (ForumQuestion.by_slug slug) (questions db)
      = ForumQuestion.Found q ->
      ForumQuestion.pk q = Some k ->
      exists db',
        views.post_answer request slug now db
        = (HttpResponseRedirect (urls.forum_question slug),
           [success_message "Your answer has been posted!"], db')
        /\ ForumQuestion.get (ForumQuestion.by_slug slug) (questions db')
           = ForumQuestion.Found (ForumQuestion.set_is_answered true q)
        /\ ForumAnswer.rows (answers db')
           = (ForumAnswer.rows (answers db)
              ++ [ForumAnswer.mk (ForumAnswer.next_pk (answers db)) k content u
                    false now now])%list)
  /\ (forall (storage_url : string -> string) (op : Op) (db : Store)
             (k : nat) (q q' : ForumQuestion.t),
      is_view_op op = true ->
      NoDup (map ForumQuestion.pk (ForumQuestion.rows (questions db))) ->
      question_with_pk k db = Some q ->
      ForumQuestion.is_answered q = true ->
      question_with_pk k (step storage_url op db) = Some q' ->
      ForumQuestion.is_answered q' = true).
Proof.
  split.
  - intros request slug now db q k u content Hu Hm Hc Hget Hpk.
    unfold views.post_answer. rewrite Hu, Hget, Hm, Hc, Hpk.
    cbn [String.eqb Ascii.eqb Bool.eqb andb].
    destruct (ForumQuestion.is_answered q) eqn:Ea; cbn [negb].
    + eexists. split; [reflexivity|]. split; [|reflexivity].
      cbn [questions set_answers]. rewrite Hget. f_equal.
      destruct q; cbn in *; now subst.
    + destruct (get_Found_In _ _ _ Hget) as [Hin _].
      destruct (save_one_column ForumQuestion.f_is_answered now
                  (ForumQuestion.set_is_answered true q) (questions db) k
                  (or_intror eq_refl) Hpk (existsb_has_pk k q _ Hin Hpk))
        as [obj [Hsave _]].
      cbn [questions set_answers]. rewrite Hsave.
      eexists. split; [reflexivity|]. split; [|reflexivity].
      cbn [questions set_questions].
      apply (get_by_slug_after_update slug (questions db) q k _
               (ForumQuestion.set_is_answered true));
        [reflexivity | assumption | assumption].
  - intros storage_url op db k q q' Hop Hnd Hq Ha Hq'.
    destruct (step_row_cases storage_url op db k q q' Hnd Hq Hq')
      as [->|[->|[->|[Hadmin _]]]]; try assumption; try reflexivity.
    congruence.
Qed.

(** A first answer to an unanswered question; then a fetch of the
    answered question. *)
Lemma is_answered_set_by_answers_kept_by_views_witness :
  let student := User.mk 1 "student" "" "" false in
  let q :=
    ForumQuestion.mk (Some 1) "Which exam comes first?" "Does anybody know?"
      student None "which-exam-comes-first" false 4 10 10 in
  let db :=
    mk_store [] [] [] (ForumQuestion.mk_table [q] 2)
      (ForumAnswer.mk_table [] 1) in
  let request :=
    mk_request (LoggedIn student) "POST" "" "  The written one, in May.  " None in
  (exists db',
      views.post_answer request "which-exam-comes-first" 20 db
      = (HttpResponseRedirect (urls.forum_question "which-exam-comes-first"),
         [success_message "Your answer has been posted!"], db')
      /\ ForumQuestion.get (ForumQuestion.by_slug "which-exam-comes-first")
           (questions db')
         = ForumQuestion.Found (ForumQuestion.set_is_answered true q)
      /\ ForumAnswer.rows (answers db')
         = [ForumAnswer.mk 1 1 "The written one, in May." student false 20 20])
  /\ ForumQuestion.is_answered
       (ForumQuestion.set_views 5 (ForumQuestion.set_is_answered true q))
     = true.
Proof.
  intros student q db request. split.
  - exact (proj1 is_answered_set_by_answers_kept_by_views request
             "which-exam-comes-first" 20%Z db q 1 student
             "The written one, in May." eq_refl eq_refl eq_refl eq_refl eq_refl).
  - apply (proj2 is_answered_set_by_answers_kept_by_views (fun name => name)
             (forum_question_detail
                (mk_request AnonymousUser "GET" "" "" None)
                "which-exam-comes-first" 30)
             (mk_store [] [] []
                (ForumQuestion.mk_table [ForumQuestion.set_is_answered true q] 2)
                (ForumAnswer.mk_table [] 1))
             1 (ForumQuestion.set_is_answered true q)).
    + reflexivity.
    + simpl. repeat constructor. intros [].
    + reflexivity.
    + reflexivity.
    + reflexivity.
Defined.

(** [C10] For a logged-in caller and the slug of a stored question, a
    request to the answer endpoint with a method other than POST answers
    with a redirect to the question's detail page, leaves no message and
    returns the store as it was: no answer is created and no row of the
    question table, is_answered included, is touched. *)
Theorem non_post_answer_request_changes_nothing `{BE : Backend}
    (request : HttpRequest) (slug : string) (now : Z) (db : Store)
    (u : User.t) (q : ForumQuestion.t) :
  user request = LoggedIn u ->
  ForumQuestion.get (ForumQuestion.by_slug slug) (questions db)
  = ForumQuestion.Found q ->
  method request <> "POST" ->
  views.post_answer request slug now db
  = (HttpResponseRedirect (urls.forum_question slug), [], db).
Proof.
  intros Hu Hget Hm. unfold views.post_answer. rewrite Hu, Hget.
  apply String.eqb_neq in Hm. rewrite Hm. reflexivity.
Qed.

(** A GET on the answer endpoint of a stored question. *)
Lemma non_post_answer_request_changes_nothing_witness :
  let student := User.mk 1 "student" "" "" false in
  let q :=
    ForumQuestion.mk (Some 1) "Which exam comes first?" "Does anybody know?"
      student None "which-exam-comes-first" false 4 10 10 in
  let db :=
    mk_store [] [] [] (ForumQuestion.mk_table [q] 2)
      (ForumAnswer.mk_table [] 1) in
  let request :=
    mk_request (LoggedIn student) "GET" "" "The written one, in May." None in
  views.post_answer request "which-exam-comes-first" 20 db
  = (HttpResponseRedirect (urls.forum_question "which-exam-comes-first"),
     [], db).
Proof.
  intros student q db request.
  apply (non_post_answer_request_changes_nothing request
           "which-exam-comes-first" 20%Z db student q);
    [reflexivity | reflexivity | discriminate].
Defined.

(** ** The schema invariant *)

Lemma pk_write_fields (src : ForumQuestion.t) (fs : list ForumQuestion.field)
    (r : ForumQuestion.t) :
  ForumQuestion.pk (ForumQuestion.write_fields src fs r) = ForumQuestion.pk r.
Proof.
  induction fs as [|f fs IH]; simpl; [reflexivity|].
  rewrite <- IH. destruct f; reflexivity.
Qed.

Lemma slug_write_fields (src : ForumQuestion.t)
    (fs : list ForumQuestion.field) (r : ForumQuestion.t) :
  ForumQuestion.slug (ForumQuestion.write_fields src fs r)
  = if ForumQuestion.mem ForumQuestion.f_slug fs
    then ForumQuestion.slug src else ForumQuestion.slug r.
Proof.
  induction fs as [|f fs IH]; simpl; [reflexivity|].
  destruct f; simpl; try exact IH; reflexivity.
Qed.

Lemma slug_exists_false (tb : ForumQuestion.table) (s : string) :
  ForumQuestion.slug_exists tb s = false ->
  ~ In s (map ForumQuestion.slug (ForumQuestion.rows tb)).
Proof.
  intros H Hin. apply in_map_iff in Hin. destruct Hin as [r [Hr Hin]].
  apply not_true_iff_false in H. apply H.
  apply existsb_exists. exists r. split; [assumption|].
  now apply String.eqb_eq.
Qed.

(** Appending a row with a fresh key and a fresh slug. *)
Lemma wf_insert (tb : ForumQuestion.table) (obj : ForumQuestion.t) (k : nat) :
  wf_questions tb ->
  ForumQuestion.pk obj = Some k ->
  ~ In (Some k) (map ForumQuestion.pk (ForumQuestion.rows tb)) ->
  ForumQuestion.slug_exists tb (ForumQuestion.slug obj) = false ->
  wf_questions
    (ForumQuestion.mk_table (ForumQuestion.rows tb ++ [obj])
       (Nat.max (ForumQuestion.next_pk tb) (S k))).
Proof.
  intros [Hpk [Hslug Hall]] Hk Hfresh Hs. unfold wf_questions.
  cbn [ForumQuestion.rows ForumQuestion.next_pk]. rewrite !map_app.
  split; [|split].
  - apply NoDup_app; [assumption | repeat constructor; intros [] |].
    intros x Hx [<-|[]]. simpl in Hx. rewrite Hk in Hx. contradiction.
  - apply NoDup_app; [assumption | repeat constructor; intros [] |].
    intros x Hx [<-|[]]. revert Hx. now apply slug_exists_false.
  - apply Forall_app. split.
    + eapply Forall_impl; [|exact Hall]. cbv beta.
      intros q [j [Hj Hlt]]. exists j. split; [assumption | lia].
    + constructor; [|constructor]. exists k. split; [assumption | lia].
Qed.

(** Rewriting the row with key [k]; its new slug is on no other row. *)
Lemma NoDup_slug_update (k : nat) (s : string)
    (upd : ForumQuestion.t -> ForumQuestion.t) (l : list ForumQuestion.t) :
  NoDup (map ForumQuestion.pk l) ->
  NoDup (map ForumQuestion.slug l) ->
  (forall r, In r l -> ForumQuestion.has_pk k r = true ->
             ForumQuestion.slug (upd r) = s) ->
  (forall r, In r l -> ForumQuestion.has_pk k r = false ->
             ForumQuestion.slug r <> s) ->
  NoDup (map ForumQuestion.slug
           (map (fun r => if ForumQuestion.has_pk k r then upd r else r) l)).
Proof.
  induction l as [|a l IH]; simpl; intros Hpk Hslug Hupd Hother;
    [constructor|].
  apply NoDup_cons_iff in Hpk. destruct Hpk as [Hpa Hpk].
  apply NoDup_cons_iff in Hslug. destruct Hslug as [Hsa Hslug].
  assert (IH' := IH Hpk Hslug (fun r Hr => Hupd r (or_intror Hr))
                   (fun r Hr => Hother r (or_intror Hr))).
  constructor; [|exact IH'].
  rewrite map_map. intro Hin. apply in_map_iff in Hin.
  destruct Hin as [r [Heq Hr]].
  destruct (ForumQuestion.has_pk k a) eqn:Ea, (ForumQuestion.has_pk k r) eqn:Er.
  - apply has_pk_eq in Ea, Er. apply Hpa. rewrite Ea, <- Er. now apply in_map.
  - rewrite (Hupd a (or_introl eq_refl) Ea) in Heq.
    now apply (Hother r (or_intror Hr) Er).
  - rewrite (Hupd r (or_intror Hr) Er) in Heq.
    now apply (Hother a (or_introl eq_refl) Ea).
  - apply Hsa. rewrite <- Heq. now apply in_map.
Qed.

Lemma slug_taken_by_other_false (tb : ForumQuestion.table) (k : nat)
    (s : string) (r : ForumQuestion.t) :
  ForumQuestion.slug_taken_by_other tb k s = false ->
  In r (ForumQuestion.rows tb) -> ForumQuestion.has_pk k r = false ->
  ForumQuestion.slug r <> s.
Proof.
  intros H Hin Hk Heq. apply not_true_iff_false in H. apply H.
  apply existsb_exists. exists r. split; [assumption|].
  rewrite Hk. simpl. now apply String.eqb_eq.
Qed.

Lemma Model_save_wf `{BE : Backend}
    (fs : option (list ForumQuestion.field)) (now : Z)
    (q obj : ForumQuestion.t) (tb tb' : ForumQuestion.table) :
  wf_questions tb ->
  ForumQuestion.Model_save fs now q tb = Ok (obj, tb') ->
  wf_questions tb'.
Proof.
  intros Hwf. unfold ForumQuestion.Model_save.
  destruct (ForumQuestion.pk q) as [k|] eqn:Hpk.
  - destruct (existsb (ForumQuestion.has_pk k) (ForumQuestion.rows tb)) eqn:Hex.
    + set (cols := match fs with
                   | Some l => l
                   | None => ForumQuestion.all_fields
                   end).
      set (src := if ForumQuestion.mem ForumQuestion.f_updated_at cols
                  then ForumQuestion.set_updated_at now q else q).
      destruct (ForumQuestion.mem ForumQuestion.f_views cols
                && negb (in_range (ForumQuestion.views src)));
        [discriminate|].
      destruct (ForumQuestion.mem ForumQuestion.f_slug cols) eqn:Hm;
        cbn [andb].
      * destruct (ForumQuestion.slug_taken_by_other tb k
                    (ForumQuestion.slug src)) eqn:Ht; [discriminate|].
        intro H. injection H as _ <-.
        destruct Hwf as [Hp [Hs Hall]]. unfold wf_questions.
        cbn [ForumQuestion.rows ForumQuestion.next_pk].
        split; [|split].
        -- rewrite map_map. erewrite map_ext; [exact Hp|].
           intro r. cbv beta.
           destruct (ForumQuestion.has_pk k r); [|reflexivity].
           apply pk_write_fields.
        -- apply (NoDup_slug_update k (ForumQuestion.slug src)); try assumption.
           ++ intros r _ _. rewrite slug_write_fields. now rewrite Hm.
           ++ intros r Hr Hk. now apply (slug_taken_by_other_false tb k).
        -- apply Forall_map. eapply Forall_impl; [|exact Hall]. cbv beta.
           intros r [j [Hj Hlt]]. exists j. split; [|assumption].
           destruct (ForumQuestion.has_pk k r); [|assumption].
           now rewrite pk_write_fields.
      * intro H. injection H as _ <-.
        destruct Hwf as [Hp [Hs Hall]]. unfold wf_questions.
        cbn [ForumQuestion.rows ForumQuestion.next_pk].
        split; [|split].
        -- rewrite map_map. erewrite map_ext; [exact Hp|].
           intro r. cbv beta.
           destruct (ForumQuestion.has_pk k r); [|reflexivity].
           apply pk_write_fields.
        -- rewrite map_map. erewrite map_ext; [exact Hs|].
           intro r. cbv beta.
           destruct (ForumQuestion.has_pk k r); [|reflexivity].
           rewrite slug_write_fields. now rewrite Hm.
        -- apply Forall_map. eapply Forall_impl; [|exact Hall]. cbv beta.
           intros r [j [Hj Hlt]]. exists j. split; [|assumption].
           destruct (ForumQuestion.has_pk k r); [|assumption].
           now rewrite pk_write_fields.
    + destruct fs; [discriminate|].
      destruct (ForumQuestion.slug_exists tb _) eqn:Hs; [discriminate|].
      intro H. injection H as _ <-.
      apply wf_insert; try assumption; [reflexivity|].
      intro Hin. apply in_map_iff in Hin. destruct Hin as [r [Hr Hin]].
      apply not_true_iff_false in Hex. apply Hex.
      apply existsb_exists. exists r. split; [assumption|].
      now apply has_pk_eq.
  - destruct fs; [discriminate|].
    destruct (ForumQuestion.slug_exists tb _) eqn:Hs; [discriminate|].
    intro H. injection H as _ <-.
    apply wf_insert; try assumption; [reflexivity|].
    intro Hin. apply in_map_iff in Hin. destruct Hin as [r [Hr Hin]].
    destruct Hwf as [_ [_ Hall]]. rewrite Forall_forall in Hall.
    destruct (Hall r Hin) as [j [Hj Hlt]]. rewrite Hj in Hr.
    injection Hr as ->. lia.
Qed.

Lemma save_wf `{BE : Backend} (fs : option (list ForumQuestion.field)) (now : Z)
    (q obj : ForumQuestion.t) (tb tb' : ForumQuestion.table) :
  wf_questions tb ->
  ForumQuestion.save fs now q tb = Ok (obj, tb') ->
  wf_questions tb'.
Proof.
  intro Hwf. unfold ForumQuestion.save.
  destruct (negb (Py.truthy (ForumQuestion.slug q))).
  - destruct (ForumQuestion.probe _ _ _ _ _); [|discriminate].
    now apply Model_save_wf.
  - now apply Model_save_wf.
Qed.

(** A request leaves the question table alone, writes it through one
    [save], or deletes the rows of one key. *)
Lemma step_questions `{BE : Backend}
    (storage_url : string -> string) (op : Op) (db : Store) :
  questions (step storage_url op db) = questions db
  \/ (exists fs now q obj,
        ForumQuestion.save fs now q (questions db)
        = Ok (obj, questions (step storage_url op db)))
  \/ (exists k,
        questions (step storage_url op db)
        = ForumQuestion.mk_table
            (filter (fun q => negb (ForumQuestion.has_pk k q))
               (ForumQuestion.rows (questions db)))
            (ForumQuestion.next_pk (questions db))).
Proof.
  unfold step.
  destruct op as [request|request|slug|request slug now|request now
                 |request slug now|request posted now|request k0 posted now
                 |request k0];
    cbn [handle].
  - now left.
  - now left.
  - destruct (urls.slug_converter slug); now left.
  - destruct (String.eqb slug "ask");
      [destruct (is_authenticated _); now left|].
    destruct (urls.slug_converter slug); [|now left].
    unfold views.get_object.
    destruct (ForumQuestion.get _ _) as [q0| |]; try (now left).
    destruct (ForumQuestion.save _ _ _ _) as [[o t]| | | | |] eqn:E;
      try (now left).
    right. left. do 4 eexists. exact E.
  - destruct (String.eqb (method request) "POST");
      [|destruct (is_authenticated (user request)); now left].
    rewrite snd_drop_messages. unfold views.AskQuestionView_post.
    destruct (user request) as [|u]; [now left|].
    destruct (forms.ForumQuestionForm.cleaned _ _) as [[[t c] cat]|];
      [|now left].
    destruct (ForumQuestion.save _ _ _ _) as [[o tb]| | | | |] eqn:E;
      try (now left).
    right. left. do 4 eexists.
    destruct (urls.slug_converter _); exact E.
  - destruct (urls.slug_converter slug); [|now left].
    rewrite snd_drop_messages. unfold views.post_answer.
    destruct (user request) as [|u]; [now left|].
    destruct (ForumQuestion.get _ _) as [q0| |]; try (now left).
    destruct (String.eqb (method request) "POST"); [|now left].
    destruct (forms.ForumAnswerForm.clean_content _) as [content|];
      [|now left].
    destruct (ForumQuestion.pk q0) as [k0|]; [|now left].
    destruct (negb (ForumQuestion.is_answered q0)); [|now left].
    destruct (ForumQuestion.save _ _ _ _) as [[o tb]| | | | |] eqn:E;
      try (now left).
    right. left. do 4 eexists. exact E.
  - unfold admin.ForumQuestionAdmin.add_view.
    destruct (admin.ForumQuestionAdmin.may_edit request); [|now left].
    destruct (admin.ForumQuestionAdmin.clean posted) as [cleaned|];
      [|now left].
    destruct (ForumQuestion.save _ _ _ _) as [[o tb]| | | | |] eqn:E;
      try (now left).
    right. left. do 4 eexists. exact E.
  - unfold admin.ForumQuestionAdmin.change_view.
    destruct (admin.ForumQuestionAdmin.may_edit request); [|now left].
    destruct (ForumQuestion.get _ _) as [o| |]; try (now left).
    destruct (admin.ForumQuestionAdmin.clean posted) as [cleaned|];
      [|now left].
    destruct (ForumQuestion.save _ _ _ _) as [[x tb]| | | | |] eqn:E;
      try (now left).
    right. left. do 4 eexists. exact E.
  - unfold admin.ForumQuestionAdmin.delete_view.
    destruct (admin.ForumQuestionAdmin.may_edit request); [|now left].
    right. right. exists k0. reflexivity.
Qed.

(** Deleting the rows of one key keeps a column free of duplicates. *)
Lemma delete_keeps_distinct (B : Type) (col : ForumQuestion.t -> B) (k : nat)
    (rows : list ForumQuestion.t) :
  NoDup (map col rows) ->
  NoDup (map col (filter (fun q => negb (ForumQuestion.has_pk k q)) rows)).
Proof.
  induction rows as [|a rows IH]; cbn [filter map]; intro H; [constructor|].
  apply NoDup_cons_iff in H. destruct H as [Ha H].
  destruct (negb (ForumQuestion.has_pk k a)); cbn [map]; [|auto].
  constructor; [|auto].
  intro Hin. apply Ha. apply in_map_iff in Hin.
  destruct Hin as [x [Hx Hin]]. apply filter_In in Hin.
  rewrite <- Hx. apply in_map. tauto.
Qed.

(** Every request keeps the question table well formed: the slug chosen
    by [save] never collides, and keys are never reused. *)
Lemma step_wf `{BE : Backend}
    (storage_url : string -> string) (op : Op) (db : Store) :
  wf_questions (questions db) ->
  wf_questions (questions (step storage_url op db)).
Proof.
  intro Hwf.
  destruct (step_questions storage_url op db)
    as [->|[[fs [now [q [obj E]]]]|[k ->]]].
  - assumption.
  - eapply save_wf; eassumption.
  - destruct Hwf as [Hp [Hs Hall]]. unfold wf_questions.
    cbn [ForumQuestion.rows ForumQuestion.next_pk].
    split; [now apply delete_keeps_distinct|].
    split; [now apply delete_keeps_distinct|].
    apply Forall_forall. intros r Hr. apply filter_In in Hr.
    rewrite Forall_forall in Hall. apply Hall. tauto.
Qed.

(** All stores reached from the empty one have well-formed questions. *)
Lemma run_wf `{BE : Backend}
    (storage_url : string -> string) (ops : list Op) (db : Store) :
  wf_questions (questions db) ->
  wf_questions (questions (run storage_url ops db)).
Proof.
  revert db. induction ops as [|op ops IH]; intros db Hwf; simpl.
  - assumption.
  - apply IH. now apply step_wf.
Qed.

Lemma empty_store_wf : wf_questions (questions empty_store).
Proof. repeat split; constructor. Qed.

(** ** Sample runs *)

Example slugify_tips :
  text.slugify "Tips for Passing Your MBA Exams"
  = "tips-for-passing-your-mba-exams".
Proof. reflexivity. Qed.

Example slugify_separators :
  text.slugify "  --Hello,   World!__ " = "hello-world".
Proof. reflexivity. Qed.

Example slugify_no_letters : text.slugify "??????????" = "".
Proof. reflexivity. Qed.

(** Characters above 127: e-acute (233) keeps its base letter, the
    no-break space (160) separates, sharp s (223) leaves nothing and one
    half (189) leaves its two digits. *)
Example slugify_latin1 :
  text.slugify ("Caf" ++ String "233"%char " exam tips") = "cafe-exam-tips"
  /\ text.slugify ("exam" ++ String "160"%char "tips") = "exam-tips"
  /\ text.slugify ("Stra" ++ String "223"%char "e " ++ String "189"%char "")
     = "strae-12"
  /\ text.slugify
       (string_of_list_ascii (repeat "233"%char 10)) = "eeeeeeeeee".
Proof. vm_compute. repeat split. Qed.

Example str_decimal : Py.str 12 = "12".
Proof. reflexivity. Qed.

(** A form field strips the no-break space (160) and the next-line
    character (133) with the blanks, and refuses a null character. *)
Example answer_form_strips_and_refuses_null :
  forms.strip (String "160"%char ("  In May. " ++ String "133"%char ""))
  = "In May."
  /\ forms.ForumAnswerForm.clean_content
       (String "160"%char ("  In May. " ++ String "160"%char "")) = None
  /\ forms.ForumAnswerForm.clean_content
       ("The written one" ++ String "000"%char ", in May.") = None
  /\ forms.ForumAnswerForm.clean_content "  The written one, in May.  "
     = Some "The written one, in May.".
Proof. vm_compute. repeat split. Qed.

Example third_identical_title :
  let tb :=
    ForumQuestion.mk_table
      [ForumQuestion.mk (Some 1) "Exam tips" "c" (User.mk 1 "a" "" "" false)
         None "exam-tips" false 0 1 1;
       ForumQuestion.mk (Some 2) "Exam tips" "c" (User.mk 1 "a" "" "" false)
         None "exam-tips-1" false 0 2 2] 3 in
  saved_slug
    (ForumQuestion.save None 3
       (ForumQuestion.new "Exam Tips" "c" (User.mk 1 "a" "" "" false) None) tb)
  = Some "exam-tips-2".
Proof. reflexivity. Qed.

(** A title without letters or digits passes the form of the ask page;
    the row is written with an empty slug and the redirect to its detail
    page cannot be built. *)
Example ask_with_empty_slug :
  let request :=
    mk_request (LoggedIn (User.mk 1 "student" "" "" false)) "POST"
      "??????????" "Does anybody know the answer?" None in
  let '(r, db) := handle (fun name => name) (ask_question request 10) empty_store in
  r = ServerError
  /\ map ForumQuestion.slug (ForumQuestion.rows (questions db)) = [""].
Proof. vm_compute. split; reflexivity. Qed.

(** * Further properties *)

(** ** Slugs, once non-empty, stay *)

Lemma Model_save_full_slug `{BE : Backend} (now : Z) (q obj : ForumQuestion.t)
    (tb tb' : ForumQuestion.table) (k : nat) :
  ForumQuestion.pk q = Some k ->
  existsb (ForumQuestion.has_pk k) (ForumQuestion.rows tb) = true ->
  ForumQuestion.slug q <> "" ->
  ForumQuestion.save None now q tb = Ok (obj, tb') ->
  forall r r',
    find (ForumQuestion.has_pk k) (ForumQuestion.rows tb) = Some r ->
    find (ForumQuestion.has_pk k) (ForumQuestion.rows tb') = Some r' ->
    ForumQuestion.slug r' = ForumQuestion.slug q.
Proof.
  intros Hpk Hex Hslug. rewrite save_with_slug by assumption.
  unfold ForumQuestion.Model_save. rewrite Hpk, Hex.
  destruct (_ && _); [discriminate|].
  destruct (_ && _); [discriminate|].
  intro H. injection H as _ <-. intros r r' Hr.
  cbn [ForumQuestion.rows]. rewrite find_map_same, Hr.
  2:{ intro x. destruct (ForumQuestion.has_pk k x) eqn:Ex; exact Ex. }
  cbn [option_map]. intro H. injection H as <-.
  apply find_some in Hr. destruct Hr as [_ ->]. reflexivity.
Qed.

(** [X1] A request never changes the slug of a stored question whose
    slug is not empty, as long as the question stays in the table: not
    the detail page, not an answer, not the admin change form with an
    edited title. *)
Theorem nonempty_slug_is_never_rewritten `{BE : Backend}
    (storage_url : string -> string) (op : Op) (db : Store) (k : nat)
    (q q' : ForumQuestion.t) :
  NoDup (map ForumQuestion.pk (ForumQuestion.rows (questions db))) ->
  question_with_pk k db = Some q ->
  ForumQuestion.slug q <> "" ->
  question_with_pk k (step storage_url op db) = Some q' ->
  ForumQuestion.slug q' = ForumQuestion.slug q.
Proof.
  intros Hnd Hq Hslug.
  destruct op as [request|request|slug|request slug now|request now
                 |request slug now|request posted now|request k0 posted now
                 |request k0];
    try (intro Hq';
         destruct (step_row_cases storage_url _ db k q q' Hnd Hq Hq')
           as [->|[->|[->|[Hadmin _]]]];
         [reflexivity | reflexivity | reflexivity | discriminate Hadmin]).
  - (* admin add *)
    unfold step, question_with_pk in *. cbn [handle].
    destruct (add_view_rows request posted now db) as [->|[obj ->]].
    + congruence.
    + rewrite (find_app_some _ _ _ _ _ Hq). congruence.
  - (* admin change *)
    unfold step, question_with_pk in *. cbn [handle].
    unfold admin.ForumQuestionAdmin.change_view.
    destruct (admin.ForumQuestionAdmin.may_edit request);
      [|cbn [snd]; congruence].
    destruct (ForumQuestion.get _ _) as [o| |] eqn:Hget;
      try (cbn [snd]; congruence).
    destruct (admin.ForumQuestionAdmin.clean posted) as [cleaned|];
      [|cbn [snd]; congruence].
    destruct (ForumQuestion.save _ _ _ _) as [[x tb]| | | | |] eqn:E;
      try (cbn [snd]; congruence).
    cbn [snd questions set_questions]. intro Hq'.
    destruct (get_Found_In _ _ _ Hget) as [Hin Hk0].
    destruct (find_some _ _ Hq) as [Hinq Hkq].
    destruct (Nat.eq_dec k k0) as [->|Hne].
    + assert (Ho : In q [o]).
      { rewrite <- (get_Found _ _ _ Hget). apply filter_In. auto. }
      destruct Ho as [->|[]].
      apply has_pk_eq in Hk0.
      eapply (Model_save_full_slug now _ x (questions db) tb k0) in E;
        [| exact Hk0 | now apply (existsb_has_pk k0 q) | exact Hslug
         | exact Hq | exact Hq'].
      exact E.
    + apply has_pk_eq in Hk0.
      apply save_full_update with (k := k0) in E;
        [| exact Hk0 | now apply (existsb_has_pk k0 o)].
      destruct E as [src [Hrows _]]. rewrite Hrows in Hq'.
      rewrite find_map_same, Hq in Hq'.
      2:{ intro r. destruct (ForumQuestion.has_pk k0 r); [|reflexivity].
          apply has_pk_write_fields. }
      cbn [option_map] in Hq'. injection Hq' as <-.
      apply has_pk_eq in Hkq.
      assert (Hf : ForumQuestion.has_pk k0 q = false).
      { apply not_true_iff_false. intro H. apply has_pk_eq in H. congruence. }
      now rewrite Hf.
  - (* admin delete *)
    intro Hq'.
    destruct (step_row_cases storage_url _ db k q q' Hnd Hq Hq')
      as [->|[->|[->|[_ Hv]]]]; try reflexivity.
    unfold step, question_with_pk in *. cbn [handle] in Hq'.
    unfold admin.ForumQuestionAdmin.delete_view in Hq'.
    destruct (admin.ForumQuestionAdmin.may_edit request);
      cbn [snd questions set_answers set_questions ForumQuestion.rows] in Hq';
      [|congruence].
    destruct (find_some _ _ Hq') as [Hin' Hk'].
    apply filter_In in Hin'. destruct Hin' as [Hin' Hnk].
    destruct (find_some _ _ Hq) as [Hin Hk].
    apply has_pk_eq in Hk, Hk'.
    assert (q' = q) as ->
      by (apply (NoDup_map_eq _ _ _ _ _ _ Hnd); congruence).
    reflexivity.
Qed.

(** The title of a stored question is edited on the admin change form. *)
Lemma nonempty_slug_is_never_rewritten_witness :
  let student := User.mk 1 "student" "" "" false in
  let q :=
    ForumQuestion.mk (Some 1) "Which exam comes first?" "Does anybody know?"
      student None "which-exam-comes-first" false 4 10 10 in
  let db :=
    mk_store [] [] [] (ForumQuestion.mk_table [q] 2)
      (ForumAnswer.mk_table [] 1) in
  let edit :=
    admin_change
      (mk_request (LoggedIn (User.mk 2 "staff" "" "" true)) "POST" "" "" None) 1
      (ForumQuestion.mk None "When is the oral exam?" "Does anybody know?"
         student None "" false 0 0 0) 20 in
  option_map (fun x => (ForumQuestion.title x, ForumQuestion.slug x))
    (question_with_pk 1 (step (fun name => name) edit db))
  = Some ("When is the oral exam?", "which-exam-comes-first").
Proof.
  intros student q db edit.
  destruct (question_with_pk 1 (step (fun name => name) edit db))
    as [q'|] eqn:E.
  - cbn [option_map]. f_equal. f_equal.
    + vm_compute in E. injection E as <-. reflexivity.
    + apply (nonempty_slug_is_never_rewritten (fun name => name) edit db 1 q q');
        [simpl; repeat constructor; intros [] | reflexivity | discriminate
        | exact E].
  - vm_compute in E. discriminate E.
Defined.

(** ** Unique keys and slugs *)

(** [X2] Every request keeps the primary keys and the slugs of the
    question table free of duplicates and the keys below the next one to
    be handed out; so does every sequence of requests from the empty
    store. *)
Theorem requests_keep_keys_and_slugs_unique `{BE : Backend} :
  (forall (storage_url : string -> string) (op : Op) (db : Store),
      wf_questions (questions db) ->
      wf_questions (questions (step storage_url op db)))
  /\ (forall (storage_url : string -> string) (ops : list Op),
      wf_questions (questions (run storage_url ops empty_store))).
Proof.
  split.
  - intros storage_url op db. apply step_wf.
  - intros storage_url ops. apply run_wf. apply empty_store_wf.
Qed.

(** The same title asked twice: two rows, two slugs. *)
Lemma requests_keep_keys_and_slugs_unique_witness :
  let ask :=
    ask_question
      (mk_request (LoggedIn (User.mk 1 "student" "" "" false)) "POST"
         "Which exam comes first?" "Does anybody know the answer?" None) 10 in
  let db := step (fun name => name) ask empty_store in
  wf_questions (questions (step (fun name => name) ask db))
  /\ map ForumQuestion.slug
       (ForumQuestion.rows (questions (step (fun name => name) ask db)))
     = ["which-exam-comes-first"; "which-exam-comes-first-1"].
Proof.
  intros ask db. split; [|reflexivity].
  apply (proj1 requests_keep_keys_and_slugs_unique (fun name => name) ask db).
  unfold wf_questions. simpl.
  split; [repeat constructor; intros []|].
  split; [repeat constructor; intros []|].
  repeat constructor. exists 1. split; [reflexivity | lia].
Defined.

(** ** Asking a question *)

Lemma clean_title_bounds (d : forms.ForumQuestionForm.data) (t : string) :
  forms.ForumQuestionForm.clean_title d = Some t ->
  t = forms.strip (forms.ForumQuestionForm.title d)
  /\ 10 <= String.length t <= 200
  /\ forms.no_null t = true.
Proof.
  unfold forms.ForumQuestionForm.clean_title.
  destruct (Py.truthy _ && (_ <=? 200) && _ && negb (_ <? 10)) eqn:E;
    [|discriminate].
  intro H. injection H as <-.
  apply andb_true_iff in E. destruct E as [E E3].
  apply andb_true_iff in E. destruct E as [E E0].
  apply andb_true_iff in E. destruct E as [_ E2].
  apply Nat.leb_le in E2. apply negb_true_iff, Nat.ltb_ge in E3.
  auto.
Qed.

Lemma clean_content_bounds (d : forms.ForumQuestionForm.data) (c : string) :
  forms.ForumQuestionForm.clean_content d = Some c ->
  c = forms.strip (forms.ForumQuestionForm.content d)
  /\ 20 <= String.length c
  /\ forms.no_null c = true.
Proof.
  unfold forms.ForumQuestionForm.clean_content.
  destruct (Py.truthy _ && _ && negb (_ <? 20)) eqn:E; [|discriminate].
  intro H. injection H as <-.
  apply andb_true_iff in E. destruct E as [E E2].
  apply andb_true_iff in E. destruct E as [_ E0].
  apply negb_true_iff, Nat.ltb_ge in E2. auto.
Qed.

(** [X3] A logged-in caller who posts a valid question form always gets
    a row written (the unique constraint never rejects the slug chosen by
    the loop): the table grows by exactly one question, whose author is
    the caller, whose title (10 to 200 characters) and content (at least
    20) are the stripped form values, free of null characters, with no
    views, not answered, created at the time of the request; all other
    tables are untouched. *)
Theorem ask_appends_question_of_caller `{BE : Backend}
    (request : HttpRequest) (now : Z) (db : Store) (u : User.t) :
  user request = LoggedIn u ->
  forms.ForumQuestionForm.cleaned (categories db)
    (forms.ForumQuestionForm.mk (POST_title request) (POST_content request)
       (POST_category request)) <> None ->
  exists obj,
    snd (views.AskQuestionView_post request now db)
    = set_questions
        (ForumQuestion.mk_table
           (ForumQuestion.rows (questions db) ++ [obj])
           (S (ForumQuestion.next_pk (questions db))))
        db
    /\ ForumQuestion.pk obj = Some (ForumQuestion.next_pk (questions db))
    /\ ForumQuestion.author obj = u
    /\ ForumQuestion.title obj = forms.strip (POST_title request)
    /\ ForumQuestion.content obj = forms.strip (POST_content request)
    /\ 10 <= String.length (ForumQuestion.title obj) <= 200
    /\ 20 <= String.length (ForumQuestion.content obj)
    /\ forms.no_null (ForumQuestion.title obj) = true
    /\ forms.no_null (ForumQuestion.content obj) = true
    /\ ForumQuestion.views obj = 0%Z
    /\ ForumQuestion.is_answered obj = false
    /\ ForumQuestion.created_at obj = now
    /\ ForumQuestion.slug_exists (questions db) (ForumQuestion.slug obj) = false.
Proof.
  intros Hu Hvalid. unfold views.AskQuestionView_post. rewrite Hu.
  unfold forms.ForumQuestionForm.cleaned in *.
  destruct (forms.ForumQuestionForm.clean_title _) as [t|] eqn:Et;
    [|contradiction].
  destruct (forms.ForumQuestionForm.clean_content _) as [c|] eqn:Ec;
    [|contradiction].
  destruct (forms.ForumQuestionForm.clean_category _ _) as [cat|];
    [|contradiction].
  apply clean_title_bounds in Et. destruct Et as [Et [Htl Htn]].
  apply clean_content_bounds in Ec. destruct Ec as [Ec [Hcl Hcn]].
  cbn [forms.ForumQuestionForm.title forms.ForumQuestionForm.content] in Et, Ec.
  destruct (save_without_slug (ForumQuestion.new t c u cat) now (questions db)
              eq_refl eq_refl) as [m [Hsave [Hfree _]]].
  cbv zeta in Hsave. rewrite Hsave. eexists. split.
  { destruct (urls.slug_converter _); reflexivity. }
  cbn. repeat split; try assumption; lia.
Qed.

(** A first question on the empty store. *)
Lemma ask_appends_question_of_caller_witness :
  let student := User.mk 1 "student" "" "" false in
  let request :=
    mk_request (LoggedIn student) "POST" "  Which exam comes first?  "
      "Does anybody know the answer?" None in
  exists obj,
    ForumQuestion.rows
      (questions (snd (views.AskQuestionView_post request 10 empty_store)))
    = [obj]
    /\ ForumQuestion.author obj = student
    /\ ForumQuestion.title obj = "Which exam comes first?".
Proof.
  intros student request.
  destruct (ask_appends_question_of_caller request 10%Z empty_store student
              eq_refl)
    as [obj [Hdb [_ [Ha [Ht _]]]]]; [discriminate|].
  exists obj. rewrite Hdb. split; [reflexivity|]. split; [exact Ha|].
  rewrite Ht. reflexivity.
Defined.

(** [X4] The ask page writes nothing for an anonymous caller, who is
    sent to the login page, and nothing when the stripped title is
    shorter than 10 or longer than 200 characters, the stripped content
    shorter than 20, or either holds a null character: the form is shown
    again. *)
Theorem ask_rejections_write_nothing `{BE : Backend}
    (request : HttpRequest) (now : Z) (db : Store) :
  (user request = AnonymousUser ->
   views.AskQuestionView_post request now db
   = (HttpResponseRedirect urls.login, [], db))
  /\ (forall u, user request = LoggedIn u ->
      String.length (forms.strip (POST_title request)) < 10
      \/ 200 < String.length (forms.strip (POST_title request))
      \/ String.length (forms.strip (POST_content request)) < 20
      \/ forms.no_null (forms.strip (POST_title request)) = false
      \/ forms.no_null (forms.strip (POST_content request)) = false ->
      views.AskQuestionView_post request now db = (FormPage, [], db)).
Proof.
  split.
  - intro Hu. unfold views.AskQuestionView_post. now rewrite Hu.
  - intros u Hu Hbad. unfold views.AskQuestionView_post. rewrite Hu.
    unfold forms.ForumQuestionForm.cleaned.
    destruct (forms.ForumQuestionForm.clean_title _) as [t|] eqn:Et;
      [|reflexivity].
    destruct (forms.ForumQuestionForm.clean_content _) as [c|] eqn:Ec;
      [|reflexivity].
    exfalso.
    apply clean_title_bounds in Et. destruct Et as [Et [Htl Htn]].
    apply clean_content_bounds in Ec. destruct Ec as [Ec [Hcl Hcn]].
    cbn [forms.ForumQuestionForm.title forms.ForumQuestionForm.content] in Et, Ec.
    subst t c.
    destruct Hbad as [H|[H|[H|[H|H]]]]; try lia; congruence.
Qed.

(** A nine-character title, padded with blanks. *)
Lemma ask_rejections_write_nothing_witness :
  views.AskQuestionView_post
    (mk_request (LoggedIn (User.mk 1 "student" "" "" false)) "POST"
       "   Too short     " "Does anybody know the answer?" None)
    10 empty_store
  = (FormPage, [], empty_store)
  /\ views.AskQuestionView_post
       (mk_request AnonymousUser "POST" "Which exam comes first?"
          "Does anybody know the answer?" None)
       10 empty_store
     = (HttpResponseRedirect urls.login, [], empty_store).
Proof.
  split.
  - match goal with |- views.AskQuestionView_post ?r _ _ = _ =>
      apply (proj2 (ask_rejections_write_nothing r 10%Z empty_store)
               (User.mk 1 "student" "" "" false) eq_refl)
    end.
    left. vm_compute. lia.
  - match goal with |- views.AskQuestionView_post ?r _ _ = _ =>
      exact (proj1 (ask_rejections_write_nothing r 10%Z empty_store) eq_refl)
    end.
Defined.

(** ** Slugs fit the URL pattern *)












(** A question whose title slugifies to [ask]: the redirect after asking
    leads to the ask page, not to the question. *)
Example ask_slug_leads_to_ask_page :
  let student := mk_request (LoggedIn (User.mk 1 "student" "" "" false)) in
  let request :=
    student "POST" "Ask!!!!!!!" "Does anybody know the answer?" None in
  let '(r, db) :=
    handle (fun name => name) (ask_question request 10) empty_store in
  r = HttpResponseRedirect (urls.forum_question "ask")
  /\ handle (fun name => name)
       (forum_question_detail (student "GET" "" "" None) "ask" 20) db
     = (FormPage, db)
  /\ option_map ForumQuestion.views (question_with_pk 1 db) = Some 0%Z.
Proof. vm_compute. repeat split. Qed.

(** ** Answers that are not taken *)

Lemma answer_content_too_short (content : string) :
  String.length (forms.strip content) < 10 ->
  forms.ForumAnswerForm.clean_content content = None.
Proof.
  intro H. unfold forms.ForumAnswerForm.clean_content.
  apply Nat.ltb_lt in H. rewrite H. cbn [negb]. now rewrite andb_false_r.
Qed.

Lemma get_missing (slug : string) (tb : ForumQuestion.table) :
  ForumQuestion.slug_exists tb slug = false ->
  ForumQuestion.get (ForumQuestion.by_slug slug) tb = ForumQuestion.DoesNotExist.
Proof.
  intro H. unfold ForumQuestion.get.
  destruct (filter _ _) as [|q l] eqn:E; [reflexivity|]. exfalso.
  assert (Hq : In q (filter (ForumQuestion.by_slug slug) (ForumQuestion.rows tb)))
    by (rewrite E; now left).
  apply filter_In in Hq. destruct Hq as [Hin Hs].
  apply not_true_iff_false in H. apply H.
  apply existsb_exists. exists q. split; assumption.
Qed.

(** [X6] An anonymous caller of the answer endpoint is redirected to the
    login page with the message "You must be logged in to post an
    answer.", whatever the method, the content and the slug, even a slug
    that names no question; nothing is written. *)
Theorem anonymous_answer_is_redirected_to_login `{BE : Backend}
    (request : HttpRequest) (slug : string) (now : Z) (db : Store) :
  user request = AnonymousUser ->
  views.post_answer request slug now db
  = (HttpResponseRedirect urls.login,
     [error_message "You must be logged in to post an answer."], db).
Proof. intro H. unfold views.post_answer. now rewrite H. Qed.

Lemma anonymous_answer_is_redirected_to_login_witness :
  views.post_answer
    (mk_request AnonymousUser "POST" "" "The written one, in May." None)
    "no-such-question" 20 empty_store
  = (HttpResponseRedirect urls.login,
     [error_message "You must be logged in to post an answer."], empty_store).
Proof.
  apply (anonymous_answer_is_redirected_to_login
           (mk_request AnonymousUser "POST" "" "The written one, in May." None)
           "no-such-question" 20%Z empty_store eq_refl).
Defined.

(** [X7] A logged-in caller who posts to a stored question an answer
    whose stripped content has fewer than 10 characters is redirected to
    the question with the message "Please correct the errors below.";
    no answer is stored and the question is not marked answered. *)
Theorem short_answer_is_not_stored `{BE : Backend}
    (request : HttpRequest) (slug : string) (now : Z) (db : Store)
    (u : User.t) (q : ForumQuestion.t) :
  user request = LoggedIn u ->
  method request = "POST" ->
  ForumQuestion.get (ForumQuestion.by_slug slug) (questions db)
  = ForumQuestion.Found q ->
  String.length (forms.strip (POST_content request)) < 10 ->
  views.post_answer request slug now db
  = (HttpResponseRedirect (urls.forum_question slug),
     [error_message "Please correct the errors below."], db).
Proof.
  intros Hu Hm Hget Hshort. unfold views.post_answer.
  rewrite Hu, Hget, Hm, (answer_content_too_short _ Hshort). reflexivity.
Qed.

Lemma short_answer_is_not_stored_witness :
  let student := User.mk 1 "student" "" "" false in
  let q :=
    ForumQuestion.mk (Some 1) "Which exam comes first?" "Does anybody know?"
      student None "which-exam-comes-first" false 4 10 10 in
  let db :=
    mk_store [] [] [] (ForumQuestion.mk_table [q] 2)
      (ForumAnswer.mk_table [] 1) in
  let request :=
    mk_request (LoggedIn student) "POST" "" "    In May.       " None in
  views.post_answer request "which-exam-comes-first" 20 db
  = (HttpResponseRedirect (urls.forum_question "which-exam-comes-first"),
     [error_message "Please correct the errors below."], db).
Proof.
  intros student q db request.
  apply (short_answer_is_not_stored request "which-exam-comes-first" 20%Z db
           student q eq_refl eq_refl eq_refl).
  vm_compute. lia.
Defined.

(** [X8] For a slug that no stored question carries, the detail page
    and, for a logged-in caller, the answer endpoint respond "not found"
    and write nothing: no view is counted, no answer stored. *)
Theorem unknown_slug_is_not_found `{BE : Backend}
    (request : HttpRequest) (slug : string) (now : Z) (db : Store)
    (u : User.t) :
  ForumQuestion.slug_exists (questions db) slug = false ->
  views.get_object slug now db = (Http404, db)
  /\ (user request = LoggedIn u ->
      views.post_answer request slug now db = (Http404, [], db)).
Proof.
  intro H. apply get_missing in H. split.
  - unfold views.get_object. now rewrite H.
  - intro Hu. unfold views.post_answer. now rewrite Hu, H.
Qed.

Lemma unknown_slug_is_not_found_witness :
  let student := User.mk 1 "student" "" "" false in
  let request :=
    mk_request (LoggedIn student) "POST" "" "The written one, in May." None in
  views.get_object "no-such-question" 20 empty_store = (Http404, empty_store)
  /\ views.post_answer request "no-such-question" 20 empty_store
     = (Http404, [], empty_store).
Proof.
  intros student request.
  destruct (unknown_slug_is_not_found request "no-such-question" 20%Z
              empty_store student eq_refl) as [H1 H2].
  split; [exact H1 | exact (H2 eq_refl)].
Defined.

(** ** What a feed entry shows *)

Lemma slice_to_length (n : nat) (s : string) :
  String.length (Py.slice_to n s) = Nat.min n (String.length s).
Proof.
  unfold Py.slice_to. revert s.
  induction n as [|n IH]; intros [|c s]; simpl; auto.
Qed.

Lemma slice_to_prefix (n : nat) (s : string) :
  prefix (Py.slice_to n s) s = true.
Proof.
  unfold Py.slice_to. revert s.
  induction n as [|n IH]; intros [|c s]; simpl; auto.
  rewrite IH. destruct (ascii_dec c c); [reflexivity | contradiction].
Qed.

Lemma slice_to_short (n : nat) (s : string) :
  String.length s <= n -> Py.slice_to n s = s.
Proof.
  unfold Py.slice_to. revert s.
  induction n as [|n IH]; intros [|c s]; simpl; intro H;
    try reflexivity; try lia.
  rewrite IH by lia. reflexivity.
Qed.

(** [X9] Every entry of the blog feed serialises a stored post: its
    content is the first 200 characters of the post's content (all of it
    when the post is shorter), its category is the category name, or
    "General" for a post without category, and its author is the
    stripped full name of the post's author, or the username when that
    full name is blank, hence never empty when the username is not. *)
Theorem blog_entry_shows_truncated_content
    (storage_url : string -> string) (request : HttpRequest) (db : Store)
    (e : BlogEntry.t) :
  In e (response_blogs (views.blog_feed_api storage_url request db)) ->
  exists post,
    In post (blog_posts db)
    /\ BlogEntry.id e = BlogPost.pk post
    /\ String.length (BlogEntry.content e)
       = Nat.min 200 (String.length (BlogPost.content post))
    /\ prefix (BlogEntry.content e) (BlogPost.content post) = true
    /\ (String.length (BlogPost.content post) <= 200 ->
        BlogEntry.content e = BlogPost.content post)
    /\ BlogEntry.category e
       = match BlogPost.category post with
         | Some c => Category.name c
         | None => "General"
         end
    /\ (User.username (BlogPost.author post) <> "" -> BlogEntry.author e <> "")
    /\ (User.get_full_name (BlogPost.author post) <> "" ->
        BlogEntry.author e = User.get_full_name (BlogPost.author post))
    /\ (User.get_full_name (BlogPost.author post) = "" ->
        BlogEntry.author e = User.username (BlogPost.author post)).
Proof.
  intro He. cbn [views.blog_feed_api response_blogs] in He.
  apply in_map_iff in He. destruct He as [post [<- Hpost]].
  exists post. split.
  { apply In_limit in Hpost.
    apply (Permutation_in _ (order_by_desc_perm _ _ _)) in Hpost.
    now apply filter_In in Hpost. }
  unfold views.blog_entry.
  cbn [BlogEntry.id BlogEntry.content BlogEntry.category BlogEntry.author].
  split; [reflexivity|].
  split; [apply slice_to_length|].
  split; [apply slice_to_prefix|].
  split; [apply slice_to_short|].
  split; [reflexivity|].
  unfold Py.truthy. split; [|split].
  - intro Hu.
    destruct (String.eqb (User.get_full_name (BlogPost.author post)) "") eqn:E;
      cbn [negb]; [exact Hu | now apply String.eqb_neq].
  - intro Hn. apply String.eqb_neq in Hn. rewrite Hn. reflexivity.
  - intro Hn. rewrite Hn. reflexivity.
Qed.

Lemma blog_entry_shows_truncated_content_witness :
  let author := User.mk 1 "teacher" "  " "" false in
  let post :=
    BlogPost.mk 7 "Revision plans" "Start early." author None None
      "revision-plans" true 100 in
  let db :=
    mk_store [] [post] [] (ForumQuestion.mk_table [] 1)
      (ForumAnswer.mk_table [] 1) in
  exists p,
    In p (blog_posts db)
    /\ BlogEntry.id (views.blog_entry (fun name => name) post) = BlogPost.pk p.
Proof.
  intros author post db.
  destruct (blog_entry_shows_truncated_content (fun name => name)
              (mk_request AnonymousUser "GET" "" "" None) db
              (views.blog_entry (fun name => name) post))
    as [p [Hin [Hid _]]]; [left; reflexivity|].
  exists p. split; [exact Hin | exact Hid].
Defined.

(** The author shown: the full name, or the username of an author whose
    names are blank. *)
Example blog_entry_author_sample :
  let entry_of := fun author =>
    BlogEntry.author
      (views.blog_entry (fun name => name)
         (BlogPost.mk 7 "Revision plans" "Start early." author None None
            "revision-plans" true 100)) in
  entry_of (User.mk 1 "teacher" " Ada" "Byron " false) = "Ada Byron"
  /\ entry_of (User.mk 1 "teacher" "Ada" "" false) = "Ada"
  /\ entry_of (User.mk 1 "teacher" "  " "" false) = "teacher".
Proof. vm_compute. repeat split. Qed.

(** ** Related posts and the detail page *)

(** [X10] For any post, the related posts of its detail page are the 4
    newest (newest first) of the other published posts with the same
    category reference: never the post itself, never an unpublished post,
    never a post of another category. *)
Theorem related_posts_share_category (post : BlogPost.t) (db : Store) :
  newest_n BlogPost.created_at 4
    (filter (fun p => negb (BlogPost.pk p =? BlogPost.pk post))
       (filter (fun p => BlogPost.is_published p
                         && same_category (BlogPost.category p)
                              (BlogPost.category post))
          (blog_posts db)))
    (views.related_posts post db)
  /\ length (views.related_posts post db) <= 4
  /\ Forall (fun p => In p (blog_posts db)
                      /\ BlogPost.is_published p = true
                      /\ same_category (BlogPost.category p)
                           (BlogPost.category post) = true
                      /\ BlogPost.pk p <> BlogPost.pk post)
       (views.related_posts post db).
Proof.
  assert (Hn := limit_order_by_newest_n BlogPost.created_at 4
                  (filter (fun p => negb (BlogPost.pk p =? BlogPost.pk post))
                     (filter (fun p => BlogPost.is_published p
                                       && same_category (BlogPost.category p)
                                            (BlogPost.category post))
                        (blog_posts db)))).
  split; [exact Hn|]. split; [eapply newest_n_length; exact Hn|].
  apply Forall_forall. intros p Hp.
  apply (newest_n_In _ _ _ _ _ Hn) in Hp.
  rewrite !filter_In, andb_true_iff, negb_true_iff, Nat.eqb_neq in Hp.
  tauto.
Qed.

(** [X11] The detail page of a blog post answers "not found" exactly
    when no published post carries the slug: a post that is not
    published cannot be read through it. *)
Theorem unpublished_post_is_not_found (slug : string) (db : Store) :
  views.BlogPostDetailView slug db = Http404
  <-> forall p, In p (blog_posts db) -> BlogPost.slug p = slug ->
                BlogPost.is_published p = false.
Proof.
  unfold views.BlogPostDetailView.
  set (sel := fun p => BlogPost.is_published p
                       && String.eqb (BlogPost.slug p) slug).
  split.
  - intros H p Hin Hs.
    destruct (BlogPost.is_published p) eqn:Ep; [|reflexivity]. exfalso.
    assert (Hp : In p (filter sel (blog_posts db))).
    { apply filter_In. split; [assumption|]. unfold sel.
      rewrite Ep. now apply String.eqb_eq. }
    destruct (filter sel (blog_posts db)) as [|x [|y l]];
      [exact Hp | discriminate H | discriminate H].
  - intro H.
    destruct (filter sel (blog_posts db)) as [|x l] eqn:E; [reflexivity|].
    exfalso.
    assert (Hx : In x (filter sel (blog_posts db))) by (rewrite E; now left).
    apply filter_In in Hx. destruct Hx as [Hin Hx]. unfold sel in Hx.
    apply andb_true_iff in Hx. destruct Hx as [Hpub Hs].
    apply String.eqb_eq in Hs. rewrite (H x Hin Hs) in Hpub. discriminate.
Qed.

(** ** Search *)




Example search_ignores_case :
  let author := User.mk 1 "teacher" "" "" false in
  let db :=
    mk_store []
      [BlogPost.mk 1 "MBA Exams" "How to pass." author None None "mba" true 10;
       BlogPost.mk 2 "Draft on exams" "Later." author None None "draft" false 20;
       BlogPost.mk 3 "Holidays" "No EXAM this week." author None None "h" true 30]
      [] (ForumQuestion.mk_table [] 1) (ForumAnswer.mk_table [] 1) in
  map BlogPost.pk (blog_results (SearchResultsView (Some "  exam ") db)) = [3; 1]
  /\ blog_results (SearchResultsView (Some "   ") db) = [].
Proof. split; reflexivity. Qed.

(** ** The order of answers *)

Lemma answer_precedes_spec (a b : ForumAnswer.t) :
  answer_precedes a b = true <-> answers_in_order a b.
Proof.
  unfold answer_precedes, answers_in_order.
  destruct (ForumAnswer.is_accepted a), (ForumAnswer.is_accepted b);
    cbn [Bool.eqb]; rewrite ?Z.leb_le; intuition congruence.
Qed.

Lemma answer_precedes_total (a b : ForumAnswer.t) :
  answer_precedes a b = false -> answers_in_order b a.
Proof.
  unfold answer_precedes, answers_in_order.
  destruct (ForumAnswer.is_accepted a), (ForumAnswer.is_accepted b);
    cbn [Bool.eqb]; rewrite ?Z.leb_gt; intros; try discriminate;
    intuition lia.
Qed.

Lemma answers_in_order_trans (a b c : ForumAnswer.t) :
  answers_in_order a b -> answers_in_order b c -> answers_in_order a c.
Proof.
  unfold answers_in_order.
  destruct (ForumAnswer.is_accepted a), (ForumAnswer.is_accepted b),
    (ForumAnswer.is_accepted c); intuition (try congruence; try lia).
Qed.

Lemma insert_answer_perm (a : ForumAnswer.t) (l : list ForumAnswer.t) :
  Permutation (insert_answer a l) (a :: l).
Proof.
  induction l as [|b l IH]; simpl; [reflexivity|].
  destruct (answer_precedes a b); [reflexivity|].
  rewrite IH. apply perm_swap.
Qed.

Lemma order_answers_perm (l : list ForumAnswer.t) :
  Permutation (order_answers l) l.
Proof.
  induction l as [|a l IH]; simpl; [reflexivity|].
  rewrite insert_answer_perm. now constructor.
Qed.

Lemma insert_answer_sorted (a : ForumAnswer.t) (l : list ForumAnswer.t) :
  StronglySorted answers_in_order l ->
  StronglySorted answers_in_order (insert_answer a l).
Proof.
  induction l as [|b l IH]; simpl; intro Hs.
  - constructor; constructor.
  - apply StronglySorted_inv in Hs. destruct Hs as [Hl Hb].
    destruct (answer_precedes a b) eqn:E.
    + apply answer_precedes_spec in E. constructor.
      * constructor; assumption.
      * constructor; [assumption|].
        eapply Forall_impl; [|exact Hb]. intros c Hc.
        eapply answers_in_order_trans; eassumption.
    + apply answer_precedes_total in E. constructor; [auto|].
      eapply Permutation_Forall; [symmetry; apply insert_answer_perm|].
      constructor; assumption.
Qed.

(** [X13] The answers shown on a question's detail page are all the
    stored answers of that question and no others, accepted answers
    before the rest and, within each group, in the order of their
    creation, oldest first. *)
Theorem answers_accepted_first_then_oldest (k : nat) (db : Store) :
  Permutation (context_answers k db) (answers_of k db)
  /\ StronglySorted answers_in_order (context_answers k db)
  /\ (forall a, In a (context_answers k db) <->
        In a (ForumAnswer.rows (answers db)) /\ ForumAnswer.question a = k).
Proof.
  unfold context_answers. split; [apply order_answers_perm|]. split.
  - induction (answers_of k db) as [|a l IH]; simpl; [constructor|].
    now apply insert_answer_sorted.
  - intro a. split.
    + intro H. apply (Permutation_in _ (order_answers_perm _)) in H.
      unfold answers_of in H. rewrite filter_In, Nat.eqb_eq in H. exact H.
    + intro H.
      apply (Permutation_in _ (Permutation_sym (order_answers_perm _))).
      unfold answers_of. rewrite filter_In, Nat.eqb_eq. exact H.
Qed.

Example answers_order_sample :
  let u := User.mk 1 "tutor" "" "" false in
  let db :=
    mk_store [] [] [] (ForumQuestion.mk_table [] 1)
      (ForumAnswer.mk_table
         [ForumAnswer.mk 1 5 "first" u false 10 10;
          ForumAnswer.mk 2 5 "second" u true 20 20;
          ForumAnswer.mk 3 6 "elsewhere" u true 25 25;
          ForumAnswer.mk 4 5 "third" u false 30 30;
          ForumAnswer.mk 5 5 "fourth" u true 15 40] 6) in
  map ForumAnswer.pk (context_answers 5 db) = [5; 2; 1; 4].
Proof. reflexivity. Qed.

(** ** Answers and their questions *)

Lemma post_answer_stores `{BE : Backend}
    (request : HttpRequest) (slug : string) (now : Z)
    (db : Store) (q : ForumQuestion.t) (k : nat) (u : User.t)
    (content : string) :
  user request = LoggedIn u ->
  method request = "POST" ->
  forms.ForumAnswerForm.clean_content (POST_content request) = Some content ->
  ForumQuestion.get (ForumQuestion.by_slug slug) (questions db)
  = ForumQuestion.Found q ->
  ForumQuestion.pk q = Some k ->
  answers (snd (views.post_answer request slug now db))
  = ForumAnswer.create k content u now (answers db).
Proof.
  intros Hu Hm Hc Hget Hpk. unfold views.post_answer.
  rewrite Hu, Hget, Hm, Hc, Hpk. cbn [String.eqb Ascii.eqb Bool.eqb andb].
  destruct (negb (ForumQuestion.is_answered q)); [|reflexivity].
  destruct (ForumQuestion.save _ _ _ _) as [[o t]| | | | |]; reflexivity.
Qed.

(** [X14] An answer of at least 10 characters once stripped and without
    a null character, posted by a logged-in caller to a stored question,
    raises the answer count of that question by exactly one and leaves
    the count of every other question as it was; the stored answer
    carries the stripped content, the caller as author, the time of the
    request, and is not accepted. *)
Theorem answer_count_grows_by_one `{BE : Backend}
    (request : HttpRequest) (slug : string) (now : Z) (db : Store)
    (q : ForumQuestion.t) (k : nat) (u : User.t) :
  user request = LoggedIn u ->
  method request = "POST" ->
  10 <= String.length (forms.strip (POST_content request)) ->
  forms.no_null (forms.strip (POST_content request)) = true ->
  ForumQuestion.get (ForumQuestion.by_slug slug) (questions db)
  = ForumQuestion.Found q ->
  ForumQuestion.pk q = Some k ->
  let db' := snd (views.post_answer request slug now db) in
  answer_count k db' = S (answer_count k db)
  /\ (forall j, j <> k -> answer_count j db' = answer_count j db)
  /\ ForumAnswer.rows (answers db')
     = (ForumAnswer.rows (answers db)
        ++ [ForumAnswer.mk (ForumAnswer.next_pk (answers db)) k
              (forms.strip (POST_content request)) u false now now])%list.
Proof.
  intros Hu Hm Hlen Hnull Hget Hpk db'.
  assert (Hc : forms.ForumAnswerForm.clean_content (POST_content request)
               = Some (forms.strip (POST_content request))).
  { unfold forms.ForumAnswerForm.clean_content, Py.truthy.
    destruct (String.eqb (forms.strip (POST_content request)) "") eqn:E.
    - apply String.eqb_eq in E. rewrite E in Hlen. simpl in Hlen. lia.
    - apply Nat.ltb_ge in Hlen. rewrite Hlen, Hnull. reflexivity. }
  assert (Ha := post_answer_stores request slug now db q k u _ Hu Hm Hc Hget Hpk).
  fold db' in Ha. unfold answer_count, answers_of. rewrite Ha.
  cbn [ForumAnswer.create ForumAnswer.rows].
  split; [|split; [|reflexivity]].
  - rewrite filter_app, length_app. cbn [filter ForumAnswer.question].
    rewrite Nat.eqb_refl. simpl. lia.
  - intros j Hj. rewrite filter_app, length_app.
    cbn [filter ForumAnswer.question].
    apply Nat.eqb_neq in Hj. rewrite Nat.eqb_sym, Hj. simpl. lia.
Qed.

Lemma answer_count_grows_by_one_witness :
  let student := User.mk 1 "student" "" "" false in
  let q :=
    ForumQuestion.mk (Some 1) "Which exam comes first?" "Does anybody know?"
      student None "which-exam-comes-first" true 4 10 10 in
  let db :=
    mk_store [] [] [] (ForumQuestion.mk_table [q] 2)
      (ForumAnswer.mk_table
         [ForumAnswer.mk 1 1 "The oral one." student false 15 15] 2) in
  let request :=
    mk_request (LoggedIn student) "POST" "" " The written one, in May. " None in
  answer_count 1 (snd (views.post_answer request "which-exam-comes-first" 20 db))
  = 2.
Proof.
  intros student q db request.
  destruct (answer_count_grows_by_one request "which-exam-comes-first" 20%Z
              db q 1 student eq_refl eq_refl)
    as [H _];
    [vm_compute; lia | reflexivity | reflexivity | reflexivity |].
  exact H.
Defined.

Lemma save_keeps_pks `{BE : Backend}
    (fs : option (list ForumQuestion.field)) (now : Z)
    (q obj : ForumQuestion.t) (tb tb' : ForumQuestion.table) :
  ForumQuestion.save fs now q tb = Ok (obj, tb') ->
  forall r, In r (ForumQuestion.rows tb) ->
            exists r', In r' (ForumQuestion.rows tb')
                       /\ ForumQuestion.pk r' = ForumQuestion.pk r.
Proof.
  assert (HM : forall x,
             ForumQuestion.Model_save fs now x tb = Ok (obj, tb') ->
             forall r, In r (ForumQuestion.rows tb) ->
                       exists r', In r' (ForumQuestion.rows tb')
                                  /\ ForumQuestion.pk r' = ForumQuestion.pk r).
  { intro x. unfold ForumQuestion.Model_save.
    assert (Happ : forall o n,
               Ok (o, ForumQuestion.mk_table (ForumQuestion.rows tb ++ [o]) n)
               = Ok (obj, tb') ->
               forall r, In r (ForumQuestion.rows tb) ->
                         exists r', In r' (ForumQuestion.rows tb')
                                    /\ ForumQuestion.pk r' = ForumQuestion.pk r).
    { intros o n H r Hr. injection H as _ <-. exists r.
      split; [apply in_or_app; now left | reflexivity]. }
    destruct (ForumQuestion.pk x) as [k|].
    - destruct (existsb _ _).
      + destruct (_ && _); [discriminate|].
        destruct (_ && _); [discriminate|].
        intros H r Hr. injection H as _ <-. cbn [ForumQuestion.rows].
        eexists. split; [apply in_map; exact Hr|]. cbv beta.
        destruct (ForumQuestion.has_pk k r); [apply pk_write_fields | reflexivity].
      + destruct fs; [discriminate|].
        destruct (ForumQuestion.slug_exists tb _); [discriminate | apply Happ].
    - destruct fs; [discriminate|].
      destruct (ForumQuestion.slug_exists tb _); [discriminate | apply Happ]. }
  unfold ForumQuestion.save.
  destruct (negb _); [|apply HM].
  destruct (ForumQuestion.probe _ _ _ _ _); [apply HM | discriminate].
Qed.

(** A request other than a deletion keeps every key of the question
    table, and adds at most one answer, to a stored question. *)
Lemma step_tables `{BE : Backend}
    (storage_url : string -> string) (op : Op) (db : Store) :
  ((forall r, In r (ForumQuestion.rows (questions db)) ->
              exists r', In r' (ForumQuestion.rows
                                  (questions (step storage_url op db)))
                         /\ ForumQuestion.pk r' = ForumQuestion.pk r)
   /\ (answers (step storage_url op db) = answers db
       \/ exists q0 k0 content u now,
           In q0 (ForumQuestion.rows (questions db))
           /\ ForumQuestion.pk q0 = Some k0
           /\ answers (step storage_url op db)
              = ForumAnswer.create k0 content u now (answers db)))
  \/ exists request k,
      op = admin_delete request k
      /\ step storage_url op db
         = snd (admin.ForumQuestionAdmin.delete_view request k db).
Proof.
  assert (Hid : forall r, In r (ForumQuestion.rows (questions db)) ->
                  exists r', In r' (ForumQuestion.rows (questions db))
                             /\ ForumQuestion.pk r' = ForumQuestion.pk r)
    by (intros r Hr; exists r; auto).
  unfold step.
  destruct op as [request|request|slug|request slug now|request now
                 |request slug now|request posted now|request k0 posted now
                 |request k0];
    cbn [handle];
    [left|left|left|left|left|left|left|left|right; eauto].
  - auto.
  - auto.
  - destruct (urls.slug_converter slug); auto.
  - destruct (String.eqb slug "ask");
      [destruct (is_authenticated _); auto|].
    destruct (urls.slug_converter slug); [|auto].
    unfold views.get_object.
    destruct (ForumQuestion.get _ _) as [q0| |]; auto.
    destruct (ForumQuestion.save _ _ _ _) as [[o t]| | | | |] eqn:E; auto.
    split; [|now left]. exact (save_keeps_pks _ _ _ _ _ _ E).
  - destruct (String.eqb (method request) "POST");
      [|destruct (is_authenticated (user request)); auto].
    rewrite snd_drop_messages. unfold views.AskQuestionView_post.
    destruct (user request) as [|u]; auto.
    destruct (forms.ForumQuestionForm.cleaned _ _) as [[[t c] cat]|]; auto.
    destruct (ForumQuestion.save _ _ _ _) as [[o tb]| | | | |] eqn:E; auto.
    split; [|destruct (urls.slug_converter _); now left].
    destruct (urls.slug_converter _); exact (save_keeps_pks _ _ _ _ _ _ E).
  - destruct (urls.slug_converter slug); [|auto].
    rewrite snd_drop_messages. unfold views.post_answer.
    destruct (user request) as [|u]; auto.
    destruct (ForumQuestion.get _ _) as [q0| |] eqn:Hget; auto.
    destruct (String.eqb (method request) "POST"); auto.
    destruct (forms.ForumAnswerForm.clean_content _) as [content|]; auto.
    destruct (ForumQuestion.pk q0) as [k0|] eqn:Hpk; auto.
    destruct (get_Found_In _ _ _ Hget) as [Hin _].
    assert (Hnew : exists q1 k1 c1 u1 n1,
               In q1 (ForumQuestion.rows (questions db))
               /\ ForumQuestion.pk q1 = Some k1
               /\ ForumAnswer.create k0 content u now (answers db)
                  = ForumAnswer.create k1 c1 u1 n1 (answers db))
      by (exists q0, k0, content, u, now; auto).
    destruct (negb (ForumQuestion.is_answered q0)); [|split; [auto | now right]].
    destruct (ForumQuestion.save _ _ _ _) as [[o tb]| | | | |] eqn:E;
      (split; [|now right]); try exact Hid.
    exact (save_keeps_pks _ _ _ _ _ _ E).
  - unfold admin.ForumQuestionAdmin.add_view.
    destruct (admin.ForumQuestionAdmin.may_edit request); auto.
    destruct (admin.ForumQuestionAdmin.clean posted) as [cleaned|]; auto.
    destruct (ForumQuestion.save _ _ _ _) as [[o tb]| | | | |] eqn:E; auto.
    split; [|now left]. exact (save_keeps_pks _ _ _ _ _ _ E).
  - unfold admin.ForumQuestionAdmin.change_view.
    destruct (admin.ForumQuestionAdmin.may_edit request); auto.
    destruct (ForumQuestion.get _ _) as [o| |]; auto.
    destruct (admin.ForumQuestionAdmin.clean posted) as [cleaned|]; auto.
    destruct (ForumQuestion.save _ _ _ _) as [[x tb]| | | | |] eqn:E; auto.
    split; [|now left]. exact (save_keeps_pks _ _ _ _ _ _ E).
Qed.

(** [X15] No request leaves an answer without its question: when every
    stored answer belongs to a stored question, so it is after any
    request.  Answers are only added to a question that was found, and
    deleting a question on the admin site deletes its answers with it. *)
Theorem answers_stay_attached `{BE : Backend}
    (storage_url : string -> string) (op : Op) (db : Store) :
  answers_attached db -> answers_attached (step storage_url op db).
Proof.
  intro Hatt. unfold answers_attached in *.
  destruct (step_tables storage_url op db)
    as [[Hkeys Hans]|[request [k [-> Hdel]]]].
  - assert (Hold : forall a, In a (ForumAnswer.rows (answers db)) ->
               exists q, In q (ForumQuestion.rows
                                 (questions (step storage_url op db)))
                         /\ ForumQuestion.pk q = Some (ForumAnswer.question a)).
    { intros a Ha. destruct (Hatt a Ha) as [q [Hq Hpk]].
      destruct (Hkeys q Hq) as [q' [Hq' Hpk']]. exists q'.
      split; [assumption | congruence]. }
    destruct Hans as [->|[q0 [k0 [content [u [now [Hq0 [Hpk0 ->]]]]]]]];
      [exact Hold|].
    intros a Ha. cbn [ForumAnswer.create ForumAnswer.rows] in Ha.
    apply in_app_or in Ha. destruct Ha as [Ha|[<-|[]]]; [now apply Hold|].
    cbn [ForumAnswer.question].
    destruct (Hkeys q0 Hq0) as [q' [Hq' Hpk']]. exists q'.
    split; [assumption | congruence].
  - rewrite Hdel. unfold admin.ForumQuestionAdmin.delete_view.
    destruct (admin.ForumQuestionAdmin.may_edit request); cbn [snd];
      [|exact Hatt].
    cbn [answers questions set_answers set_questions ForumAnswer.rows
         ForumQuestion.rows].
    intros a Ha. apply filter_In in Ha. destruct Ha as [Ha Hne].
    apply negb_true_iff, Nat.eqb_neq in Hne.
    destruct (Hatt a Ha) as [q [Hq Hpk]]. exists q. split; [|assumption].
    apply filter_In. split; [assumption|].
    apply negb_true_iff, not_true_iff_false. intro H.
    apply has_pk_eq in H. congruence.
Qed.

Lemma answers_stay_attached_witness :
  let student := User.mk 1 "student" "" "" false in
  let q :=
    ForumQuestion.mk (Some 1) "Which exam comes first?" "Does anybody know?"
      student None "which-exam-comes-first" true 4 10 10 in
  let db :=
    mk_store [] [] [] (ForumQuestion.mk_table [q] 2)
      (ForumAnswer.mk_table
         [ForumAnswer.mk 1 1 "The oral one." student false 15 15] 2) in
  let delete :=
    admin_delete
      (mk_request (LoggedIn (User.mk 2 "staff" "" "" true)) "POST" "" "" None) 1 in
  answers_attached (step (fun name => name) delete db)
  /\ ForumAnswer.rows (answers (step (fun name => name) delete db)) = [].
Proof.
  intros student q db delete. split; [|reflexivity].
  apply (answers_stay_attached (fun name => name) delete db).
  intros a [<-|[]]. exists q. split; [now left | reflexivity].
Defined.

(** [X16] No request to the forum, the feeds or the question pages of
    the admin site writes a blog post, a notification or a category. *)
Theorem forum_requests_leave_other_tables `{BE : Backend}
    (storage_url : string -> string) (op : Op) (db : Store) :
  blog_posts (step storage_url op db) = blog_posts db
  /\ notifications (step storage_url op db) = notifications db
  /\ categories (step storage_url op db) = categories db.
Proof.
  unfold step.
  destruct op as [request|request|slug|request slug now|request now
                 |request slug now|request posted now|request k0 posted now
                 |request k0];
    cbn [handle];
    repeat first [ rewrite !snd_drop_messages
                 | match goal with
                   | |- context [if urls.slug_converter ?x then _ else _] =>
                       destruct (urls.slug_converter x)
                   | |- context [if String.eqb ?x ?y then _ else _] =>
                       destruct (String.eqb x y)
                   | |- context [if is_authenticated ?x then _ else _] =>
                       destruct (is_authenticated x)
                   end ];
    unfold views.get_object, views.AskQuestionView_post, views.post_answer,
      admin.ForumQuestionAdmin.add_view, admin.ForumQuestionAdmin.change_view,
      admin.ForumQuestionAdmin.delete_view;
    repeat match goal with
           | |- context [match ?x with _ => _ end] => destruct x
           end;
    repeat split.
Qed.

(** ** Clearing the featured images *)

Lemma no_name_selected (p : BlogPost.t) :
  with_featured_image_name p = false -> BlogPost.featured_image p = Some "".
Proof.
  unfold with_featured_image_name.
  destruct (BlogPost.featured_image p) as [name|]; [|discriminate].
  intro H. apply negb_false_iff, String.eqb_eq in H. now subst.
Qed.

Lemma set_featured_image_same (p : BlogPost.t) :
  BlogPost.featured_image p = Some "" -> set_featured_image (Some "") p = p.
Proof. destruct p. cbn. now intros ->. Qed.

Lemma fold_save_cleared (sel posts : list BlogPost.t) (r : BlogPost.t) :
  In r (fold_left
          (fun ps post => BlogPost_save (set_featured_image (Some "") post) ps)
          sel posts) ->
  BlogPost.featured_image r = Some ""
  \/ (In r posts /\ forall s, In s sel -> BlogPost.pk s <> BlogPost.pk r).
Proof.
  revert posts. induction sel as [|s sel IH]; intros posts; cbn [fold_left].
  - intro H. right. split; [assumption | intros s []].
  - intro H. destruct (IH _ H) as [Hc|[Hin Hsel]]; [now left|].
    unfold BlogPost_save in Hin. apply in_map_iff in Hin.
    destruct Hin as [x [Hx Hin]]. cbn [BlogPost.pk set_featured_image] in Hx.
    destruct (BlogPost.pk x =? BlogPost.pk s) eqn:E.
    + left. now subst r.
    + right. subst r. split; [assumption|].
      intros s' [<-|Hs']; [|auto].
      apply Nat.eqb_neq in E. congruence.
Qed.

Lemma fold_save_by_key (posts : list BlogPost.t) :
  NoDup (map BlogPost.pk posts) ->
  forall (sel : list BlogPost.t) (h : BlogPost.t -> BlogPost.t),
    (forall r, BlogPost.pk (h r) = BlogPost.pk r) ->
    incl sel posts ->
    fold_left
      (fun ps post => BlogPost_save (set_featured_image (Some "") post) ps)
      sel (map h posts)
    = map (fun r => if existsb (fun s => BlogPost.pk s =? BlogPost.pk r) sel
                    then set_featured_image (Some "") r else h r)
        posts.
Proof.
  intros Hnd sel. induction sel as [|s sel IH]; intros h Hh Hincl;
    cbn [fold_left existsb]; [reflexivity|].
  assert (Hs : In s posts) by (apply Hincl; now left).
  unfold BlogPost_save at 2. rewrite map_map.
  rewrite (map_ext_in _
             (fun r => if BlogPost.pk r =? BlogPost.pk s
                       then set_featured_image (Some "") r else h r)).
  - rewrite (IH (fun r => if BlogPost.pk r =? BlogPost.pk s
                          then set_featured_image (Some "") r else h r)).
    + apply map_ext. intro r. rewrite (Nat.eqb_sym (BlogPost.pk s)).
      destruct (BlogPost.pk r =? BlogPost.pk s); cbn [orb];
        [now destruct (existsb _ sel) | reflexivity].
    + intro r. destruct (BlogPost.pk r =? BlogPost.pk s); [reflexivity | apply Hh].
    + intros x Hx. apply Hincl. now right.
  - intros r Hr. cbv beta. rewrite Hh. cbn [BlogPost.pk set_featured_image].
    destruct (BlogPost.pk r =? BlogPost.pk s) eqn:E; [|reflexivity].
    apply Nat.eqb_eq in E.
    now rewrite (NoDup_map_eq _ _ _ _ _ _ Hnd Hr Hs E).
Qed.

(** [X17] After the command that clears the featured images, no blog
    post has a featured image, so every entry of the blog feed has a null
    image; the other tables are as before; and a second run finds nothing
    to clear, says so and changes nothing. *)
Theorem clear_featured_images_clears_all (db : Store) :
  let db' := snd (clear_featured_images db) in
  (forall p, In p (blog_posts db') ->
             BlogPost.featured_image p = Some ""
             /\ BlogPost.has_featured_image p = false)
  /\ (forall storage_url request e,
         In e (response_blogs (views.blog_feed_api storage_url request db')) ->
         BlogEntry.featured_image e = None)
  /\ length (blog_posts db') = length (blog_posts db)
  /\ categories db' = categories db
  /\ notifications db' = notifications db
  /\ questions db' = questions db
  /\ answers db' = answers db
  /\ clear_featured_images db'
     = (WARNING "No blog posts with featured images found.", db').
Proof.
  cbv zeta.
  assert (Hall : forall p, In p (blog_posts (snd (clear_featured_images db))) ->
                           BlogPost.featured_image p = Some "").
  { intros p. unfold clear_featured_images.
    destruct (length (filter with_featured_image_name (blog_posts db)) =? 0)
      eqn:E; cbn [snd blog_posts].
    - apply Nat.eqb_eq, length_zero_iff_nil in E. intro Hp.
      apply no_name_selected, not_true_iff_false. intro Hsel.
      assert (Hf : In p (filter with_featured_image_name (blog_posts db)))
        by (apply filter_In; auto).
      rewrite E in Hf. exact Hf.
    - intro Hp. destruct (fold_save_cleared _ _ _ Hp) as [Hc|[Hin Hsel]];
        [assumption|].
      apply no_name_selected, not_true_iff_false. intro Hs.
      apply (Hsel p); [apply filter_In; auto | reflexivity]. }
  assert (Hnone : filter with_featured_image_name
                    (blog_posts (snd (clear_featured_images db))) = []).
  { destruct (filter _ _) as [|x l] eqn:E; [reflexivity|]. exfalso.
    assert (Hx : In x (filter with_featured_image_name
                         (blog_posts (snd (clear_featured_images db)))))
      by (rewrite E; now left).
    apply filter_In in Hx. destruct Hx as [Hin Hsel].
    unfold with_featured_image_name in Hsel. rewrite (Hall x Hin) in Hsel.
    discriminate. }
  split.
  { intros p Hp. split; [now apply Hall|].
    unfold BlogPost.has_featured_image. now rewrite (Hall p Hp). }
  split.
  { intros storage_url request e He.
    cbn [views.blog_feed_api response_blogs] in He.
    apply in_map_iff in He. destruct He as [p [<- Hp]].
    apply In_limit in Hp.
    apply (Permutation_in _ (order_by_desc_perm _ _ _)) in Hp.
    apply filter_In in Hp. destruct Hp as [Hp _].
    unfold views.blog_entry. cbn [BlogEntry.featured_image].
    now rewrite (Hall p Hp). }
  split.
  { unfold clear_featured_images.
    destruct (_ =? 0); cbn [snd blog_posts]; [reflexivity|].
    generalize (blog_posts db) at 2 3.
    induction (filter with_featured_image_name (blog_posts db)) as [|s sel IH];
      intro posts; cbn [fold_left]; [reflexivity|].
    rewrite IH. unfold BlogPost_save. apply length_map. }
  assert (Hshape : exists ps,
             snd (clear_featured_images db)
             = mk_store (categories db) ps (notifications db) (questions db)
                 (answers db)).
  { unfold clear_featured_images.
    destruct (_ =? 0); cbn [snd]; [exists (blog_posts db); now destruct db|].
    eauto. }
  destruct Hshape as [ps Hps]. rewrite Hps in Hnone |- *.
  cbn [blog_posts] in Hnone.
  cbn [categories notifications questions answers].
  repeat (split; [reflexivity|]).
  unfold clear_featured_images. cbn [blog_posts]. rewrite Hnone. reflexivity.
Qed.

(** [X18] On a table with unique keys the command keeps every post in
    place, with its key, title, content, author, category, slug,
    publication flag and creation time, and sets its file name to the
    empty string; it reports the number of posts whose file name was not
    the empty string (posts with a NULL name count), or warns when there
    are none. *)
Theorem clear_featured_images_keeps_posts (db : Store) :
  NoDup (map BlogPost.pk (blog_posts db)) ->
  blog_posts (snd (clear_featured_images db))
  = map (set_featured_image (Some "")) (blog_posts db)
  /\ fst (clear_featured_images db)
     = match length (filter with_featured_image_name (blog_posts db)) with
       | 0 => WARNING "No blog posts with featured images found."
       | S n =>
           SUCCESS ("Successfully cleared featured images from "
                    ++ Py.str (S n) ++ " blog post(s).")
       end.
Proof.
  intro Hnd. unfold clear_featured_images.
  destruct (length (filter with_featured_image_name (blog_posts db)))
    as [|n] eqn:E; cbn [Nat.eqb fst snd blog_posts].
  - split; [|reflexivity].
    apply length_zero_iff_nil in E.
    rewrite <- (map_id (blog_posts db)) at 1. apply map_ext_in.
    intros p Hp. symmetry. apply set_featured_image_same, no_name_selected.
    apply not_true_iff_false. intro Hs.
    assert (Hf : In p (filter with_featured_image_name (blog_posts db)))
      by (apply filter_In; auto).
    rewrite E in Hf. exact Hf.
  - split; [|reflexivity].
    rewrite <- (map_id (blog_posts db)) at 2.
    rewrite (fold_save_by_key (blog_posts db) Hnd).
    + apply map_ext_in. intros p Hp. cbv beta.
      destruct (existsb _ _) eqn:Ex; [reflexivity|].
      symmetry. apply set_featured_image_same, no_name_selected.
      apply not_true_iff_false. intro Hs.
      apply not_true_iff_false in Ex. apply Ex.
      apply existsb_exists. exists p.
      split; [apply filter_In; auto | apply Nat.eqb_refl].
    + reflexivity.
    + intros x Hx. now apply filter_In in Hx.
Qed.

Lemma clear_featured_images_keeps_posts_witness :
  let author := User.mk 1 "teacher" "" "" false in
  let db :=
    mk_store []
      [BlogPost.mk 1 "One" "a" author None (Some "blog/a.png") "one" true 10;
       BlogPost.mk 2 "Two" "b" author None (Some "") "two" true 20;
       BlogPost.mk 3 "Three" "c" author None None "three" false 30]
      [] (ForumQuestion.mk_table [] 1) (ForumAnswer.mk_table [] 1) in
  map BlogPost.featured_image (blog_posts (snd (clear_featured_images db)))
  = [Some ""; Some ""; Some ""]
  /\ fst (clear_featured_images db)
     = SUCCESS "Successfully cleared featured images from 2 blog post(s).".
Proof.
  intros author db.
  destruct (clear_featured_images_keeps_posts db) as [H1 H2].
  - simpl. repeat constructor; simpl; intuition discriminate.
  - split; [rewrite H1; reflexivity | rewrite H2; reflexivity].
Defined.

(** ** Signing up *)

Section SignUp.

Variable username_validator : string -> bool.
Variable email_validator : string -> bool.
Variable validate_password : string -> bool.
Variable make_password : string -> string.

Let cleaned :=
  SignUpForm.cleaned username_validator email_validator validate_password.
Let SignUpView_post :=
  SignUpForm.SignUpView_post username_validator email_validator
    validate_password make_password.




End SignUp.


(** ** Category pages *)

(** [X22] A subcategory page is shown only for a subcategory of the
    category named first in the URL: the category carries the first slug,
    the subcategory the second and refers to that category.  A
    subcategory slug under the slug of another category, or under an
    unknown category slug, is not found.  A category page lists the
    subcategories of its category and no others. *)
Theorem subcategory_found_only_under_its_category
    (category_slug subcategory_slug : string) (cats : list Category.t)
    (subs : list SubCategory.t) :
  (forall c s t,
      SubCategoryView category_slug subcategory_slug cats subs
      = SubCategoryPage c s t ->
      In c cats /\ Category.slug c = category_slug
      /\ In s subs /\ SubCategory.slug s = subcategory_slug
      /\ SubCategory.category s = Category.pk c
      /\ t = SubCategory.name s ++ " - OnlyStudies")
  /\ ((forall c, In c cats -> Category.slug c <> category_slug) ->
      SubCategoryView category_slug subcategory_slug cats subs
      = CategoryNotFound
      /\ CategoryView category_slug cats subs = CategoryNotFound)
  /\ (forall c l t,
      CategoryView category_slug cats subs = CategoryPage c l t ->
      In c cats /\ Category.slug c = category_slug
      /\ t = Category.name c ++ " - OnlyStudies"
      /\ forall s, In s l <->
                   In s subs /\ SubCategory.category s = Category.pk c).
Proof.
  unfold SubCategoryView, CategoryView.
  set (sel := fun c => String.eqb (Category.slug c) category_slug).
  assert (Hone : forall c, filter sel cats = [c] ->
                           In c cats /\ Category.slug c = category_slug).
  { intros c H. assert (Hc : In c (filter sel cats)) by (rewrite H; now left).
    apply filter_In in Hc. destruct Hc as [Hin Hs].
    split; [assumption | now apply String.eqb_eq]. }
  split; [|split].
  - intros c s t.
    destruct (filter sel cats) as [|c0 [|c1 l]] eqn:Ec; try discriminate.
    destruct (filter _ subs) as [|s0 [|s1 l]] eqn:Es; try discriminate.
    intro H. injection H as <- <- <-.
    destruct (Hone c0 eq_refl) as [Hin Hslug].
    assert (Hs : In s0 (filter
                          (fun s => (SubCategory.category s =? Category.pk c0)
                                    && String.eqb (SubCategory.slug s)
                                         subcategory_slug) subs))
      by (rewrite Es; now left).
    apply filter_In in Hs. destruct Hs as [Hsin Hs].
    apply andb_true_iff in Hs. destruct Hs as [Hk Hss].
    apply Nat.eqb_eq in Hk. apply String.eqb_eq in Hss. repeat split; auto.
  - intro Hnone.
    assert (Hnil : filter sel cats = []).
    { destruct (filter sel cats) as [|c l] eqn:E; [reflexivity|]. exfalso.
      assert (Hc : In c (filter sel cats)) by (rewrite E; now left).
      apply filter_In in Hc. destruct Hc as [Hin Hs].
      apply String.eqb_eq in Hs. now apply (Hnone c). }
    rewrite Hnil. auto.
  - intros c l t.
    destruct (filter sel cats) as [|c0 [|c1 l0]] eqn:Ec; try discriminate.
    intro H. injection H as <- <- <-.
    destruct (Hone c0 eq_refl) as [Hin Hslug].
    split; [assumption|]. split; [assumption|]. split; [reflexivity|].
    intro s. rewrite filter_In, Nat.eqb_eq. tauto.
Qed.

Lemma subcategory_found_only_under_its_category_witness :
  let cats := [Category.mk 1 "MBA" "mba"; Category.mk 2 "Medical" "medical"] in
  let subs :=
    [SubCategory.mk 1 1 "Finance" "finance";
     SubCategory.mk 2 2 "Nursing" "nursing"] in
  SubCategoryView "physics" "finance" cats subs = CategoryNotFound
  /\ SubCategoryView "medical" "finance" cats subs = CategoryNotFound
  /\ SubCategoryView "mba" "finance" cats subs
     = SubCategoryPage (Category.mk 1 "MBA" "mba")
         (SubCategory.mk 1 1 "Finance" "finance") "Finance - OnlyStudies".
Proof.
  intros cats subs. split; [|split; reflexivity].
  apply (proj1 (proj2 (subcategory_found_only_under_its_category
                         "physics" "finance" cats subs))).
  intros c [<-|[<-|[]]]; discriminate.
Defined.

(** ** What an answer writes to the question *)

(** [X23] A valid answer to a question that is already marked answered
    leaves the question table exactly as it was.  To a question not yet
    marked, it sets is_answered on the row of that question and changes
    no other column of any row, [updated_at] included. *)
Theorem answer_writes_only_the_flag `{BE : Backend}
    (request : HttpRequest) (slug : string) (now : Z) (db : Store)
    (q : ForumQuestion.t) (k : nat) (u : User.t) (content : string) :
  user request = LoggedIn u ->
  method request = "POST" ->
  forms.ForumAnswerForm.clean_content (POST_content request) = Some content ->
  ForumQuestion.get (ForumQuestion.by_slug slug) (questions db)
  = ForumQuestion.Found q ->
  ForumQuestion.pk q = Some k ->
  questions (snd (views.post_answer request slug now db))
  = if ForumQuestion.is_answered q then questions db
    else ForumQuestion.mk_table
           (map (fun r => if ForumQuestion.has_pk k r
                          then ForumQuestion.set_is_answered true r else r)
              (ForumQuestion.rows (questions db)))
           (ForumQuestion.next_pk (questions db)).
Proof.
  intros Hu Hm Hc Hget Hpk. unfold views.post_answer.
  rewrite Hu, Hget, Hm, Hc, Hpk. cbn [String.eqb Ascii.eqb Bool.eqb andb].
  destruct (ForumQuestion.is_answered q) eqn:Ea; cbn [negb]; [reflexivity|].
  destruct (get_Found_In _ _ _ Hget) as [Hin _].
  destruct (save_one_column ForumQuestion.f_is_answered now
              (ForumQuestion.set_is_answered true q) (questions db) k
              (or_intror eq_refl) Hpk (existsb_has_pk k q _ Hin Hpk))
    as [obj [Hsave _]].
  cbn [questions set_answers]. rewrite Hsave. reflexivity.
Qed.

Lemma answer_writes_only_the_flag_witness :
  let student := User.mk 1 "student" "" "" false in
  let q :=
    ForumQuestion.mk (Some 1) "Which exam comes first?" "Does anybody know?"
      student None "which-exam-comes-first" true 4 10 10 in
  let db :=
    mk_store [] [] [] (ForumQuestion.mk_table [q] 2)
      (ForumAnswer.mk_table [] 1) in
  let request :=
    mk_request (LoggedIn student) "POST" "" "The written one, in May." None in
  questions (snd (views.post_answer request "which-exam-comes-first" 20 db))
  = questions db.
Proof.
  intros student q db request.
  exact (answer_writes_only_the_flag request "which-exam-comes-first" 20%Z db
           q 1 student "The written one, in May."
           eq_refl eq_refl eq_refl eq_refl eq_refl).
Defined.
